(** * Deep Think / Ultra Think engines: model and verified properties

    A shallow embedding of [src/utils/deep-think/index.ts] (the classes
    [DeepThinkEngine] and [UltraThinkEngine]) and of the prompt builders of
    [src/utils/deep-think/prompts.ts].

    Conventions of the embedding.
    - A JavaScript string is a [string]: a sequence of code units, here the
      code units below 256.  [indexOf], [includes], [substring], [slice],
      [trim], [toLowerCase] follow ECMAScript on that range.
    - A JavaScript number that counts something (iteration caps, thresholds,
      agent limits, indices) is an integer of [Z].
    - Everything outside the repository that an engine awaits
      ([createModelProvider], [generateText], [generateObject], [Date.now])
      is an environment [Env]; a reply may depend on how many interactions
      came before it, so the same request can be answered differently each
      time, and a reply can be a thrown value.
    - The engine code is written in a state-and-exception monad over a
      [World] that records the emitted progress events and the issued
      generation calls.
    - The agents of a multi-agent run share nothing but the generation
      port, so each agent runs in a world of its own with replies of its
      own, and [Promise.all] collects their results in dispatch order.
    - Observers are not called: [onProgress] of an engine is the event
      list of its world, and [console.warn] and the [onAgentUpdate]
      announcement of the selected configurations are left out.  An option
      passed as an explicit [undefined] is read as an absent option. *)

From Stdlib Require Import List String Ascii ZArith Bool Lia Arith.
Import ListNotations.
Open Scope string_scope.
Open Scope Z_scope.

(* ================================================================== *)
(** ** JavaScript string primitives *)

Module JsString.

(** One-character strings that cannot be written inside a literal. *)
Definition LF : string := String (ascii_of_nat 10) EmptyString.
Definition DQUOTE : string := String (ascii_of_nat 34) EmptyString.
Definition BACKTICKS : string := "```".

Definition isEmpty (s : string) : bool :=
  match s with EmptyString => true | String _ _ => false end.

Fixpoint take (n : nat) (s : string) : string :=
  match n, s with
  | S n', String c s' => String c (take n' s')
  | _, _ => EmptyString
  end.

Fixpoint drop (n : nat) (s : string) : string :=
  match n, s with
  | S n', String _ s' => drop n' s'
  | _, _ => s
  end.

(** [startsWith]: [String.prefix] of the standard library. *)
Definition startsWith (p s : string) : bool := String.prefix p s.

Definition endsWith (p s : string) : bool :=
  (String.length p <=? String.length s)%nat &&
  String.eqb (drop (String.length s - String.length p) s) p.

(** Position of the first occurrence of [m] in [s]. *)
Fixpoint find (m s : string) : option nat :=
  if String.prefix m s then Some O
  else match s with
       | EmptyString => None
       | String _ s' => option_map S (find m s')
       end.

(** [s.indexOf(m)]: the first position, or -1. *)
Definition indexOf (m s : string) : Z :=
  match find m s with
  | Some i => Z.of_nat i
  | None => -1
  end.

(** [s.includes(m)]. *)
Definition includes (m s : string) : bool :=
  match find m s with Some _ => true | None => false end.

(** An index argument clamped into [0, length]. *)
Definition clamp (s : string) (i : Z) : nat :=
  Nat.min (Z.to_nat i) (String.length s).

(** [s.substring(start)]. *)
Definition substring1 (start : Z) (s : string) : string :=
  drop (clamp s start) s.

(** [s.substring(start, end)]: the arguments are clamped, and swapped when
    [start > end]. *)
Definition substring2 (start stop : Z) (s : string) : string :=
  let a := clamp s start in
  let b := clamp s stop in
  take (Nat.max a b - Nat.min a b) (drop (Nat.min a b) s).

(** A [slice] index: negative counts from the end. *)
Definition sliceIndex (s : string) (i : Z) : nat :=
  if i <? 0 then Z.to_nat (Z.max (Z.of_nat (String.length s) + i) 0)
  else clamp s i.

(** [s.slice(start)] and [s.slice(start, end)]. *)
Definition slice1 (start : Z) (s : string) : string :=
  drop (sliceIndex s start) s.

Definition slice2 (start stop : Z) (s : string) : string :=
  let a := sliceIndex s start in
  let b := sliceIndex s stop in
  take (b - a) (drop a s).

(** White space and line terminators of ECMAScript below 256:
    TAB, LF, VT, FF, CR, SP and NBSP. *)
Definition isWhiteSpace (c : ascii) : bool :=
  let n := nat_of_ascii c in
  ((9 <=? n) && (n <=? 13) || (n =? 32) || (n =? 160))%nat.

Fixpoint trimStart (s : string) : string :=
  match s with
  | EmptyString => EmptyString
  | String c s' => if isWhiteSpace c then trimStart s' else s
  end.

Fixpoint trimEnd (s : string) : string :=
  match s with
  | EmptyString => EmptyString
  | String c s' =>
      match trimEnd s' with
      | EmptyString => if isWhiteSpace c then EmptyString
                       else String c EmptyString
      | t => String c t
      end
  end.

Definition trim (s : string) : string := trimEnd (trimStart s).

(** Lower-casing of one code unit: A-Z, and the capital letters of the
    upper half (0xC0-0xDE without the multiplication sign 0xD7). *)
Definition lowerChar (c : ascii) : ascii :=
  let n := nat_of_ascii c in
  if ((65 <=? n) && (n <=? 90))%nat then ascii_of_nat (n + 32)
  else if ((192 <=? n) && (n <=? 222) && negb (n =? 215))%nat
       then ascii_of_nat (n + 32)
       else c.

Fixpoint toLowerCase (s : string) : string :=
  match s with
  | EmptyString => EmptyString
  | String c s' => String (lowerChar c) (toLowerCase s')
  end.

(** [parts.join(sep)]. *)
Fixpoint join (sep : string) (parts : list string) : string :=
  match parts with
  | [] => EmptyString
  | [p] => p
  | p :: rest => p ++ sep ++ join sep rest
  end.

(** Decimal rendering of a number that is a non-negative integer. *)
Fixpoint digits (fuel n : nat) (acc : string) : string :=
  match fuel with
  | O => acc
  | S fuel' =>
      let d := String (ascii_of_nat (48 + n mod 10)) acc in
      if (n <? 10)%nat then d else digits fuel' (n / 10) d
  end.

Definition ofNat (n : nat) : string := digits (S n) n EmptyString.

End JsString.

Import JsString.


(* ================================================================== *)
(** ** Data model (the interfaces of the deep-think types) *)

(** A value caught by a [catch]: an [Error] with its message, or anything
    else that was thrown. *)
Inductive Thrown : Type :=
| ThrownError (message : string)
| ThrownValue.

(** How an awaited computation settles. *)
Inductive Outcome (A : Type) : Type :=
| Ok (a : A)
| Throw (e : Thrown).

Arguments Ok {A} a.
Arguments Throw {A} e.

(** [DeepThinkProgressEvent]. *)
Inductive ProgressEvent : Type :=
| EInit (problem : string)
| EThinking (iteration : Z) (phase : string)
| ESolution (solution : string) (iteration : Z)
| EVerification (passed : bool) (iteration : Z)
| ECorrection (iteration : Z)
| ESuccess (solution : string) (iterations : Z)
| EFailure (reason : string)
| EProgress (message : string).

Definition isFailure (e : ProgressEvent) : bool :=
  match e with EFailure _ => true | _ => false end.

Definition isSuccess (e : ProgressEvent) : bool :=
  match e with ESuccess _ _ => true | _ => false end.

(** The pipeline stages of [ModelStageConfig]. *)
Inductive Stage : Type :=
| StInitial | StImprovement | StVerification | StCorrection
| StPlanning | StAgentConfig | StAgentThinking | StSynthesis.

Module ModelStageConfig.
Record t : Type := mk {
  initial : option string;
  improvement : option string;
  verification : option string;
  correction : option string;
  planning : option string;
  agentConfig : option string;
  agentThinking : option string;
  synthesis : option string }.

Definition get (c : t) (stage : Stage) : option string :=
  match stage with
  | StInitial => initial c
  | StImprovement => improvement c
  | StVerification => verification c
  | StCorrection => correction c
  | StPlanning => planning c
  | StAgentConfig => agentConfig c
  | StAgentThinking => agentThinking c
  | StSynthesis => synthesis c
  end.
End ModelStageConfig.

Module SearchProvider.
Record t : Type := mk {
  provider : string;
  maxResult : option Z }.
End SearchProvider.

(** [DeepThinkOptions], as the caller passes them ([onProgress] is the
    sink that the [World] records; [createModelProvider] is in [Env]). *)
Module DeepThinkOptions.
Record t : Type := mk {
  problemStatement : string;
  otherPrompts : list string;
  knowledgeContext : option string;
  maxIterations : option Z;
  requiredSuccessfulVerifications : option Z;
  maxErrorsBeforeGiveUp : option Z;
  enableWebSearch : option bool;
  searchProvider : option SearchProvider.t;
  thinkingModel : string;
  modelStages : option ModelStageConfig.t }.
End DeepThinkOptions.

(** What [verifySolution] returns. *)
Module Verdict.
Record t : Type := mk {
  bugReport : string;
  goodVerify : string }.
End Verdict.

Module Verification.
Record t : Type := mk {
  timestamp : Z;
  passed : bool;
  bugReport : string;
  goodVerify : string }.
End Verification.

Inductive Status : Type :=
| Pending | Thinking | Verifying | Correcting | Completed | Failed.

Definition Status_eqb (a b : Status) : bool :=
  match a, b with
  | Pending, Pending | Thinking, Thinking | Verifying, Verifying
  | Correcting, Correcting | Completed, Completed | Failed, Failed => true
  | _, _ => false
  end.

Definition Status_name (s : Status) : string :=
  match s with
  | Pending => "pending" | Thinking => "thinking" | Verifying => "verifying"
  | Correcting => "correcting" | Completed => "completed" | Failed => "failed"
  end.

Module DeepThinkIteration.
Record t : Type := mk {
  iteration : Z;
  solution : string;
  verification : Verification.t;
  status : Status }.
End DeepThinkIteration.

Module DeepThinkResult.
Record t : Type := mk {
  initialThought : string;
  improvements : list string;
  iterations : list DeepThinkIteration.t;
  verifications : list Verification.t;
  finalSolution : string;
  totalIterations : Z;
  successfulVerifications : Z }.
End DeepThinkResult.

Module AgentConfig.
Record t : Type := mk {
  agentId : string;
  approach : string;
  specificPrompt : string }.
End AgentConfig.

Module AgentResult.
Record t : Type := mk {
  agentId : string;
  approach : string;
  specificPrompt : string;
  status : Status;
  progress : Z;
  solution : option string;
  verifications : option (list Verification.t);
  error : option string }.
End AgentResult.

Module UltraThinkResult.
Record t : Type := mk {
  plan : string;
  agentResults : list AgentResult.t;
  synthesis : string;
  finalSolution : string;
  totalAgents : Z;
  completedAgents : Z }.
End UltraThinkResult.

(* ================================================================== *)
(** ** The generation port and the world *)

Inductive Role : Type := User | Assistant.

Inductive SearchContextSize : Type := High | Medium.

(** The argument of [generateText] / [generateObject].  [tools] is the
    [web_search_preview] tool with its context size, [providerOptions] the
    [max_results] of the openrouter web plugin. *)
Module Request.
Record t : Type := mk {
  model : string;
  system : option string;
  prompt : option string;
  messages : list (Role * string);
  tools : option SearchContextSize;
  providerOptions : option Z }.
End Request.

(** The place in the source a generation call is issued from. *)
Inductive CallSite : Type :=
| SiteInitial | SiteImprovement | SiteVerification | SiteCheck
| SiteCorrection | SitePlanning | SiteAgentConfig | SiteAgentConfigText
| SiteSynthesis.

Definition CallSite_eqb (a b : CallSite) : bool :=
  match a, b with
  | SiteInitial, SiteInitial | SiteImprovement, SiteImprovement
  | SiteVerification, SiteVerification | SiteCheck, SiteCheck
  | SiteCorrection, SiteCorrection | SitePlanning, SitePlanning
  | SiteAgentConfig, SiteAgentConfig
  | SiteAgentConfigText, SiteAgentConfigText
  | SiteSynthesis, SiteSynthesis => true
  | _, _ => false
  end.

(** The outside of an engine.  The first argument of each reply is the
    number of interactions that came before it. *)
Module Env.
Record t : Type := mk {
  createModelProvider : nat -> string -> Outcome string;
  generateText : nat -> Request.t -> Outcome string;
  generateObject : nat -> Request.t -> Outcome (list AgentConfig.t);
  now : nat -> Z }.
End Env.

(** What an observer of one engine has seen so far. *)
Module World.
Record t : Type := mk {
  clock : nat;
  events : list ProgressEvent;
  calls : list (CallSite * Request.t) }.

Definition initial : t := mk O [] [].
End World.

(** Calls issued from a given site. *)
Definition callsFrom (site : CallSite) (w : World.t) : nat :=
  List.length (filter (fun c => CallSite_eqb (fst c) site) (World.calls w)).

Definition failureEvents (w : World.t) : nat :=
  List.length (filter isFailure (World.events w)).

(* ================================================================== *)
(** ** The engine monad: state over [World.t], with thrown values *)

Definition M (A : Type) : Type := World.t -> Outcome A * World.t.

Definition ret {A} (a : A) : M A := fun w => (Ok a, w).

Definition throw {A} (e : Thrown) : M A := fun w => (Throw e, w).

Definition bind {A B} (m : M A) (k : A -> M B) : M B :=
  fun w =>
    match m w with
    | (Ok a, w') => k a w'
    | (Throw e, w') => (Throw e, w')
    end.

(** [try { m } catch (e) { h e }]. *)
Definition tryCatch {A} (m : M A) (h : Thrown -> M A) : M A :=
  fun w =>
    match m w with
    | (Ok a, w') => (Ok a, w')
    | (Throw e, w') => h e w'
    end.

Notation "x <- m ;; k" := (bind m (fun x => k))
  (at level 61, m at next level, right associativity).
Notation "m ;; k" := (bind m (fun _ => k))
  (at level 61, right associativity).

(** [this.emit(event)]. *)
Definition emit (e : ProgressEvent) : M unit :=
  fun w =>
    (Ok tt,
     World.mk (World.clock w) (World.events w ++ [e])%list (World.calls w)).

Definition tick (w : World.t) : World.t :=
  World.mk (S (World.clock w)) (World.events w) (World.calls w).

Definition logCall (site : CallSite) (r : Request.t) (w : World.t) : World.t :=
  World.mk (S (World.clock w)) (World.events w)
    (World.calls w ++ [(site, r)])%list.

Section Port.
Variable env : Env.t.

Definition createModelProvider (model : string) : M string :=
  fun w => (Env.createModelProvider env (World.clock w) model, tick w).

Definition generateText (site : CallSite) (r : Request.t) : M string :=
  fun w => (Env.generateText env (World.clock w) r, logCall site r w).

Definition generateObject (site : CallSite) (r : Request.t)
  : M (list AgentConfig.t) :=
  fun w => (Env.generateObject env (World.clock w) r, logCall site r w).

Definition dateNow : M Z :=
  fun w => (Ok (Env.now env (World.clock w)), tick w).
End Port.

(* ================================================================== *)
(** ** prompts.ts *)

(** [s.replace(pattern, replacement)] with a string pattern: the first
    occurrence is replaced, and the replacement patterns [$$], [$&],
    [$`] and [$'] are expanded (there are no capture groups). *)
Fixpoint expandReplacement (matched before after r : string) : string :=
  match r with
  | EmptyString => EmptyString
  | String a tail =>
      if Ascii.eqb a "$" then
        match tail with
        | EmptyString => String a EmptyString
        | String c rest =>
            if Ascii.eqb c "$" then
              String a (expandReplacement matched before after rest)
            else if Ascii.eqb c "&" then
              matched ++ expandReplacement matched before after rest
            else if Ascii.eqb c "`" then
              before ++ expandReplacement matched before after rest
            else if Ascii.eqb c "'" then
              after ++ expandReplacement matched before after rest
            else String a (expandReplacement matched before after tail)
        end
      else String a (expandReplacement matched before after tail)
  end.

Definition replace (pattern replacement s : string) : string :=
  match find pattern s with
  | None => s
  | Some i =>
      let before := take i s in
      let after := drop (i + String.length pattern) s in
      before ++ expandReplacement pattern before after replacement ++ after
  end.


(** The prompt texts.  Their wording is not part of the engines' logic. *)
Module Prompts.
Record t : Type := mk {
  deepThinkInitialPrompt : string;
  selfImprovementPrompt : string;
  verificationSystemPrompt : string;
  correctionPrompt : string;
  verificationReminder : string;
  ultraThinkPlanPrompt : string;
  generateAgentPromptsPrompt : string;
  synthesizeResultsPrompt : string }.
End Prompts.

Definition extractDetailedSolutionMarker : string := "Detailed Solution".

Definition RULE : string :=
  "======================================================================".

Definition buildVerificationPrompt (P : Prompts.t)
    (problemStatement detailedSolution : string) : string :=
  LF ++ RULE ++ LF ++
  "### Problem ###" ++ LF ++ LF ++
  problemStatement ++ LF ++ LF ++
  RULE ++ LF ++
  "### Solution ###" ++ LF ++ LF ++
  detailedSolution ++ LF ++ LF ++
  Prompts.verificationReminder P ++ LF.

(** Truthiness of an optional string: present and not empty. *)
Definition truthy (o : option string) : bool :=
  match o with
  | Some s => negb (isEmpty s)
  | None => false
  end.

Definition orElse (o : option string) (d : string) : string :=
  match o with
  | Some s => if isEmpty s then d else s
  | None => d
  end.

Definition buildInitialThinkingPrompt (P : Prompts.t)
    (problemStatement : string) (otherPrompts : list string)
    (knowledgeContext : option string) : string :=
  let prompt := Prompts.deepThinkInitialPrompt P in
  let prompt :=
    match knowledgeContext with
    | Some k =>
        if negb (isEmpty k) && negb (isEmpty (trim k)) then
          prompt ++ LF ++ LF ++ "### Available Knowledge Base ###" ++ LF ++ LF
                 ++ "The following knowledge and resources are available"
                 ++ " to help you solve this problem:" ++ LF ++ LF
                 ++ k
                 ++ LF ++ LF ++ "### End of Knowledge Base ###" ++ LF
        else prompt
    | None => prompt
    end in
  let prompt := prompt ++ LF ++ LF ++ problemStatement in
  if (0 <? List.length otherPrompts)%nat then
    prompt ++ LF ++ LF ++ "### Additional Instructions ###" ++ LF ++ LF
           ++ join (LF ++ LF) otherPrompts
  else prompt.

(** [goodVerify.toLowerCase().includes("yes")]. *)
Definition saysYes (goodVerify : string) : bool :=
  includes "yes" (toLowerCase goodVerify).

(* ================================================================== *)
(** ** class DeepThinkEngine *)

Module DeepThinkEngine.

(** The [{ solution, verification }] object of [initialExploration]. *)
Record Initial : Type := mkInitial {
  initSolution : string;
  initVerification : Verdict.t }.

(** The variables of [run] that the main loop updates. *)
Record Loop : Type := mkLoop {
  solution : string;
  verification : Verdict.t;
  iterations : list DeepThinkIteration.t;
  verifications : list Verification.t;
  errorCount : Z;
  correctCount : Z }.

(** How control leaves the [for] loop: by the [return] inside it, or to
    the statement after it (by [break], or because [i < maxIterations]
    fails). *)
Inductive LoopExit : Type :=
| Returned (r : DeepThinkResult.t)
| AfterLoop (st : Loop).

Section Engine.
Variable env : Env.t.
Variable P : Prompts.t.
Variable options : DeepThinkOptions.t.

(** The constructor: defaults under the caller's options. *)
Definition maxIterations : Z :=
  match DeepThinkOptions.maxIterations options with
  | Some n => n | None => 30 end.

Definition requiredSuccessfulVerifications : Z :=
  match DeepThinkOptions.requiredSuccessfulVerifications options with
  | Some n => n | None => 3 end.

Definition maxErrorsBeforeGiveUp : Z :=
  match DeepThinkOptions.maxErrorsBeforeGiveUp options with
  | Some n => n | None => 10 end.

Definition enableWebSearch : bool :=
  match DeepThinkOptions.enableWebSearch options with
  | Some b => b | None => false end.

Definition thinkingModel : string := DeepThinkOptions.thinkingModel options.

Definition getModelForStage (stage : Stage) : string :=
  match DeepThinkOptions.modelStages options with
  | Some c => orElse (ModelStageConfig.get c stage) thinkingModel
  | None => thinkingModel
  end.

(** [const { provider = "model", maxResult = 5 } = searchProvider || {}]. *)
Definition searchProviderName : string :=
  match DeepThinkOptions.searchProvider options with
  | Some sp => SearchProvider.provider sp
  | None => "model"
  end.

Definition searchMaxResult : Z :=
  match DeepThinkOptions.searchProvider options with
  | Some sp => match SearchProvider.maxResult sp with
               | Some n => n | None => 5 end
  | None => 5
  end.

Definition getSearchTools : option SearchContextSize :=
  if negb enableWebSearch then None
  else if String.eqb searchProviderName "model"
          && startsWith "gpt-4o" thinkingModel
       then Some (if 5 <? searchMaxResult then High else Medium)
       else None.

Definition getProviderOptions : option Z :=
  if negb enableWebSearch then None
  else if String.eqb searchProviderName "model"
          && includes "openrouter" thinkingModel
       then Some searchMaxResult
       else None.

Definition extractDetailedSolution
    (solution marker : string) (after : bool) : string :=
  let idx := indexOf marker solution in
  if idx =? -1 then
    (if after then EmptyString else solution)
  else if after then
    trim (substring1 (idx + Z.of_nat (String.length marker)) solution)
  else
    trim (substring2 0 idx solution).

Definition checkPrompt (verificationOutput : string) : string :=
  "Response in " ++ DQUOTE ++ "yes" ++ DQUOTE ++ " or " ++ DQUOTE ++ "no"
  ++ DQUOTE
  ++ ". Is the following statement saying the solution is correct,"
  ++ " or does not contain critical error or a major justification gap?"
  ++ LF ++ LF ++ verificationOutput.

Definition verificationRequest (model problemStatement solution : string)
  : Request.t :=
  Request.mk model (Some (Prompts.verificationSystemPrompt P))
    (Some (buildVerificationPrompt P problemStatement
             (extractDetailedSolution solution
                extractDetailedSolutionMarker true)))
    [] None None.

Definition checkRequest (model verificationOutput : string) : Request.t :=
  Request.mk model None (Some (checkPrompt verificationOutput)) [] None None.

Definition verifySolution (problemStatement solution : string)
  : M Verdict.t :=
  emit (EProgress "Verifying solution...") ;;
  model <- createModelProvider env (getModelForStage StVerification) ;;
  verificationOutput <-
    generateText env SiteVerification
      (verificationRequest model problemStatement solution) ;;
  goodVerify <-
    generateText env SiteCheck (checkRequest model verificationOutput) ;;
  let bugReport :=
    if negb (saysYes goodVerify)
    then extractDetailedSolution verificationOutput
           "Detailed Verification" false
    else EmptyString in
  ret (Verdict.mk bugReport goodVerify).

Definition systemPromptWithKnowledge : string :=
  match DeepThinkOptions.knowledgeContext options with
  | Some k =>
      if negb (isEmpty k) then
        Prompts.deepThinkInitialPrompt P
        ++ LF ++ LF ++ "### Available Knowledge Base ###" ++ LF ++ LF
        ++ k
        ++ LF ++ LF ++ "### End of Knowledge Base ###" ++ LF
      else Prompts.deepThinkInitialPrompt P
  | None => Prompts.deepThinkInitialPrompt P
  end.

Definition initialExploration
    (problemStatement : string) (otherPrompts : list string)
  : M (option Initial) :=
  emit (EThinking 0 "initial-exploration") ;;
  model <- createModelProvider env (getModelForStage StInitial) ;;
  let fullPrompt :=
    buildInitialThinkingPrompt P problemStatement otherPrompts
      (DeepThinkOptions.knowledgeContext options) in
  firstSolution <-
    generateText env SiteInitial
      (Request.mk model None (Some fullPrompt) []
         getSearchTools getProviderOptions) ;;
  emit (ESolution firstSolution 0) ;;
  emit (EThinking 0 "self-improvement") ;;
  improvementModelProvider <-
    createModelProvider env (getModelForStage StImprovement) ;;
  improvedSolution <-
    generateText env SiteImprovement
      (Request.mk improvementModelProvider (Some systemPromptWithKnowledge)
         None
         [(User, problemStatement); (Assistant, firstSolution);
          (User, Prompts.selfImprovementPrompt P)]
         getSearchTools getProviderOptions) ;;
  emit (ESolution improvedSolution 0) ;;
  verification <- verifySolution problemStatement improvedSolution ;;
  emit (EVerification (saysYes (Verdict.goodVerify verification)) 0) ;;
  ret (Some (mkInitial improvedSolution verification)).

Definition correctionRequest
    (model problemStatement solution bugReport : string) : Request.t :=
  Request.mk model (Some systemPromptWithKnowledge) None
    [(User, problemStatement); (Assistant, solution);
     (User, Prompts.correctionPrompt P ++ LF ++ LF ++ bugReport)]
    getSearchTools getProviderOptions.

(** The body of the [for] loop of [run] at index [i]; [continue] is the
    loop from the next index on. *)
Definition pass (problemStatement initialThought : string)
    (i : Z) (st : Loop) (continue : Loop -> M LoopExit) : M LoopExit :=
  let passed := saysYes (Verdict.goodVerify (verification st)) in
  timestamp <- dateNow env ;;
  let v := Verification.mk timestamp passed
             (Verdict.bugReport (verification st))
             (Verdict.goodVerify (verification st)) in
  let verifications := (verifications st ++ [v])%list in
  let iterations :=
    (iterations st ++
     [DeepThinkIteration.mk i (solution st) v
        (if passed then Completed else Correcting)])%list in
  (* the statements after the if/else: success check, "Verify again" *)
  let rest (solution : string) (errorCount correctCount : Z)
    : M LoopExit :=
    if requiredSuccessfulVerifications <=? correctCount then
      emit (ESuccess solution (i + 1)) ;;
      ret (Returned
             (DeepThinkResult.mk initialThought [] iterations
                verifications solution (i + 1) correctCount))
    else
      verification <- verifySolution problemStatement solution ;;
      emit (EVerification (saysYes (Verdict.goodVerify verification))
              (i + 1)) ;;
      continue
        (mkLoop solution verification iterations verifications
           errorCount correctCount) in
  if negb passed then
    let correctCount := 0 in
    let errorCount := errorCount st + 1 in
    if maxErrorsBeforeGiveUp <=? errorCount then
      emit (EFailure "Too many errors") ;;
      ret (AfterLoop
             (mkLoop (solution st) (verification st) iterations
                verifications errorCount correctCount))
    else
      emit (ECorrection i) ;;
      model <- createModelProvider env (getModelForStage StCorrection) ;;
      solution <-
        generateText env SiteCorrection
          (correctionRequest model problemStatement (solution st)
             (Verdict.bugReport (verification st))) ;;
      emit (ESolution solution (i + 1)) ;;
      rest solution errorCount correctCount
  else
    rest (solution st) 0 (correctCount st + 1).

(** [for (let i = 0; i < maxIterations; i++)], with [remaining] passes
    still allowed from index [i] on. *)
Fixpoint mainLoop (problemStatement initialThought : string)
    (remaining : nat) (i : Z) (st : Loop) : M LoopExit :=
  match remaining with
  | O => ret (AfterLoop st)
  | S remaining' =>
      pass problemStatement initialThought i st
        (mainLoop problemStatement initialThought remaining' (i + 1))
  end.

Definition run : M DeepThinkResult.t :=
  let problemStatement := DeepThinkOptions.problemStatement options in
  let otherPrompts := DeepThinkOptions.otherPrompts options in
  emit (EInit problemStatement) ;;
  initial <- initialExploration problemStatement otherPrompts ;;
  match initial with
  | None => throw (ThrownError "Failed in initial exploration")
  | Some initial =>
      let st :=
        mkLoop (initSolution initial) (initVerification initial) [] [] 0
          (if saysYes (Verdict.goodVerify (initVerification initial))
           then 1 else 0) in
      exit <- mainLoop problemStatement (initSolution initial)
                (Z.to_nat maxIterations) 0 st ;;
      match exit with
      | Returned r => ret r
      | AfterLoop st =>
          emit (EFailure "Max iterations reached") ;;
          ret (DeepThinkResult.mk (initSolution initial) []
                 (iterations st) (verifications st) (solution st)
                 maxIterations (correctCount st))
      end
  end.

End Engine.
End DeepThinkEngine.

(* ================================================================== *)
(** ** JSON values *)

(** A value that [JSON.parse] produces (numbers: the integers). *)
#[warnings="-register-all"]
Inductive Json : Type :=
| JNull
| JBool (b : bool)
| JNumber (n : Z)
| JString (s : string)
| JArray (items : list Json)
| JObject (fields : list (string * Json)).

Definition isArray (j : Json) : bool :=
  match j with JArray _ => true | _ => false end.

(** Truthiness of a value, as [||] tests it. *)
Definition truthyJson (j : Json) : bool :=
  match j with
  | JNull => false
  | JBool b => b
  | JNumber n => negb (n =? 0)
  | JString s => negb (isEmpty s)
  | JArray _ | JObject _ => true
  end.

(** [fields[key]] of a parsed object: the last member of that name. *)
Fixpoint getField (key : string) (fields : list (string * Json))
  : option Json :=
  match fields with
  | [] => None
  | (k, v) :: rest =>
      match getField key rest with
      | Some v' => Some v'
      | None => if String.eqb k key then Some v else None
      end
  end.

Definition encodeConfig (c : AgentConfig.t) : Json :=
  JObject [("agentId", JString (AgentConfig.agentId c));
           ("approach", JString (AgentConfig.approach c));
           ("specificPrompt", JString (AgentConfig.specificPrompt c))].

Definition encodeConfigs (l : list AgentConfig.t) : Json :=
  JArray (map encodeConfig l).

(** Reading a value at the type [run] uses it at: an object with the
    three string members of an agent configuration. *)
Definition decodeConfig (j : Json) : option AgentConfig.t :=
  match j with
  | JObject fields =>
      match getField "agentId" fields, getField "approach" fields,
            getField "specificPrompt" fields with
      | Some (JString a), Some (JString b), Some (JString c) =>
          Some (AgentConfig.mk a b c)
      | _, _, _ => None
      end
  | _ => None
  end.

Fixpoint decodeAll (items : list Json) : option (list AgentConfig.t) :=
  match items with
  | [] => Some []
  | j :: rest =>
      match decodeConfig j, decodeAll rest with
      | Some c, Some l => Some (c :: l)
      | _, _ => None
      end
  end.

Definition asConfigs (j : Json) : option (list AgentConfig.t) :=
  match j with
  | JArray items => decodeAll items
  | _ => None
  end.

(** [xs.slice(0, end)] on an array. *)
Definition sliceTo {A} (stop : Z) (xs : list A) : list A :=
  let len := Z.of_nat (List.length xs) in
  let k := if stop <? 0 then Z.max (len + stop) 0 else Z.min stop len in
  firstn (Z.to_nat k) xs.

(* ================================================================== *)
(** ** class UltraThinkEngine *)

Module UltraThinkOptions.
Record t : Type := mk {
  base : DeepThinkOptions.t;
  numAgents : option Z }.
End UltraThinkOptions.

(** [Partial<AgentResult>], the argument of [onAgentUpdate]. *)
Module AgentUpdate.
Record t : Type := mk {
  status : option Status;
  progress : option Z;
  solution : option string;
  verifications : option (list Verification.t);
  error : option string }.
End AgentUpdate.

Module UltraThinkEngine.

(** What [run] hands back: its result, or the value of
    [generateAgentConfigs] when that value is not an array of agent
    configurations, against the declared type.  What the array operations
    of [run] do with such a value is left out of the model: on a value that
    is not an array they raise a [TypeError], and on an array with
    ill-formed members the agents are dispatched with undefined members.
    Every statement about [run] below is about a [Finished] result. *)
Inductive RunResult : Type :=
| Finished (r : UltraThinkResult.t)
| IllTypedConfigs (v : Json).

Section Engine.
(** The generation port seen by the orchestration itself, and the one seen
    by the agent at each position of the dispatch: the agents run
    interleaved, so each one gets replies of its own. *)
Variable env : Env.t.
Variable agentEnv : nat -> Env.t.
Variable P : Prompts.t.
(** [JSON.parse]: the parsed value, or the message of its [SyntaxError]. *)
Variable JSON_parse : string -> string + Json.
(** Message of the [TypeError] raised by reading a member of [null]. *)
Variable nullMemberMessage : string.
Variable options : UltraThinkOptions.t.

Definition thinkingModel : string :=
  DeepThinkOptions.thinkingModel (UltraThinkOptions.base options).

Definition getModelForStage (stage : Stage) : string :=
  match DeepThinkOptions.modelStages (UltraThinkOptions.base options) with
  | Some c => orElse (ModelStageConfig.get c stage) thinkingModel
  | None => thinkingModel
  end.

Definition generatePlan (problemStatement : string) : M string :=
  emit (EProgress "Generating thinking plan...") ;;
  model <- createModelProvider env (getModelForStage StPlanning) ;;
  generateText env SitePlanning
    (Request.mk model None
       (Some (replace "{query}" problemStatement
                (Prompts.ultraThinkPlanPrompt P)))
       [] None None).

(** Removal of the markdown code fence around the fallback text. *)
Definition stripFence (text : string) : string :=
  let jsonText := trim text in
  let jsonText :=
    if startsWith (BACKTICKS ++ "json") jsonText then slice1 7 jsonText
    else if startsWith BACKTICKS jsonText then slice1 3 jsonText
    else jsonText in
  let jsonText :=
    if endsWith BACKTICKS jsonText then slice2 0 (-3) jsonText
    else jsonText in
  trim jsonText.

(** The inner [try] block: [JSON.parse], then
    [Array.isArray(parsed) ? parsed : parsed.configs || parsed].
    [inl] is the message of the error it raises. *)
Definition parseConfigs (jsonText : string) : string + Json :=
  match JSON_parse jsonText with
  | inl message => inl message
  | inr parsed =>
      match parsed with
      | JArray _ => inr parsed
      | JNull => inl nullMemberMessage
      | JObject fields =>
          match getField "configs" fields with
          | Some v => if truthyJson v then inr v else inr parsed
          | None => inr parsed
          end
      | JBool _ | JNumber _ | JString _ => inr parsed
      end
  end.

Definition parseFailure (message jsonText : string) : Thrown :=
  ThrownError
    ("Failed to parse agent configurations. Original error: " ++ message
     ++ ". " ++ "Response text: " ++ substring2 0 200 jsonText ++ "...").

Definition generateAgentConfigs (plan : string) : M Json :=
  emit (EProgress "Generating agent configurations...") ;;
  model <- createModelProvider env (getModelForStage StAgentConfig) ;;
  let request :=
    Request.mk model None
      (Some (replace "{plan}" plan (Prompts.generateAgentPromptsPrompt P)))
      [] None None in
  tryCatch
    (configs <- generateObject env SiteAgentConfig request ;;
     ret (encodeConfigs configs))
    (fun _ =>
       text <- generateText env SiteAgentConfigText request ;;
       let jsonText := stripFence text in
       match parseConfigs jsonText with
       | inr value => ret value
       | inl message => throw (parseFailure message jsonText)
       end).

(** The [onProgress] handler that [runAgent] gives its engine: it updates
    the agent's result and notifies [onAgentProgress]. *)
Definition onProgress (event : ProgressEvent)
    (st : AgentResult.t * list AgentUpdate.t)
  : AgentResult.t * list AgentUpdate.t :=
  let (result, updates) := st in
  let set status progress error :=
    AgentResult.mk (AgentResult.agentId result) (AgentResult.approach result)
      (AgentResult.specificPrompt result) status progress
      (AgentResult.solution result) (AgentResult.verifications result)
      error in
  match event with
  | EThinking iteration _ =>
      let progress := Z.min (20 + iteration * 2) 80 in
      (set Thinking progress (AgentResult.error result),
       (updates ++
        [AgentUpdate.mk (Some Thinking) (Some progress) None None None])%list)
  | EVerification _ _ =>
      (set Verifying (AgentResult.progress result) (AgentResult.error result),
       (updates ++
        [AgentUpdate.mk (Some Verifying) None None None None])%list)
  | ESuccess _ _ =>
      (set Completed 100 (AgentResult.error result),
       (updates ++
        [AgentUpdate.mk (Some Completed) (Some 100) None None None])%list)
  | EFailure reason =>
      (set Failed (AgentResult.progress result) (Some reason),
       (updates ++
        [AgentUpdate.mk (Some Failed) None None None (Some reason)])%list)
  | _ => st
  end.

Definition errorMessage (err : Thrown) : string :=
  match err with
  | ThrownError message => message
  | ThrownValue => "Unknown error"
  end.

(** The options of the engine that [runAgent] constructs. *)
Definition agentOptions (config : AgentConfig.t) (problemStatement : string)
  : DeepThinkOptions.t :=
  let o := UltraThinkOptions.base options in
  DeepThinkOptions.mk problemStatement [AgentConfig.specificPrompt config]
    (DeepThinkOptions.knowledgeContext o)
    (DeepThinkOptions.maxIterations o)
    (DeepThinkOptions.requiredSuccessfulVerifications o)
    (DeepThinkOptions.maxErrorsBeforeGiveUp o)
    (DeepThinkOptions.enableWebSearch o)
    (DeepThinkOptions.searchProvider o)
    (getModelForStage StAgentThinking)
    (DeepThinkOptions.modelStages o).

(** [runAgent], for the agent whose replies come from [aenv]: the final
    [AgentResult] and the updates sent to [onAgentProgress].  The handler
    never feeds back into the engine, so it is applied to the events of
    the engine's run in their order. *)
Definition runAgent (aenv : Env.t) (config : AgentConfig.t)
    (problemStatement : string) : AgentResult.t * list AgentUpdate.t :=
  let result :=
    AgentResult.mk (AgentConfig.agentId config) (AgentConfig.approach config)
      (AgentConfig.specificPrompt config) Thinking 0 None None None in
  let updates := [AgentUpdate.mk (Some Thinking) (Some 10) None None None] in
  let (outcome, w) :=
    DeepThinkEngine.run aenv P (agentOptions config problemStatement)
      World.initial in
  let (result, updates) :=
    fold_left (fun st event => onProgress event st) (World.events w)
      (result, updates) in
  match outcome with
  | Ok deepThinkResult =>
      let solution := DeepThinkResult.finalSolution deepThinkResult in
      let verifications := DeepThinkResult.verifications deepThinkResult in
      (AgentResult.mk (AgentResult.agentId result)
         (AgentResult.approach result) (AgentResult.specificPrompt result)
         Completed 100 (Some solution) (Some verifications)
         (AgentResult.error result),
       (updates ++
        [AgentUpdate.mk (Some Completed) (Some 100) (Some solution)
           (Some verifications) None])%list)
  | Throw err =>
      let error := errorMessage err in
      (AgentResult.mk (AgentResult.agentId result)
         (AgentResult.approach result) (AgentResult.specificPrompt result)
         Failed (AgentResult.progress result) (AgentResult.solution result)
         (AgentResult.verifications result) (Some error),
       (updates ++
        [AgentUpdate.mk (Some Failed) None None None (Some error)])%list)
  end.

(** [Promise.all(selectedConfigs.map(config => this.runAgent(...)))]:
    [runAgent] catches whatever its engine throws, so every promise
    resolves, in the order of [selectedConfigs]. *)
Fixpoint runAgents (position : nat) (selectedConfigs : list AgentConfig.t)
    (problemStatement : string) : list AgentResult.t :=
  match selectedConfigs with
  | [] => []
  | config :: rest =>
      fst (runAgent (agentEnv position) config problemStatement)
      :: runAgents (S position) rest problemStatement
  end.

Definition agentResultText (idx : nat) (result : AgentResult.t) : string :=
  LF ++ "### Agent " ++ ofNat (idx + 1) ++ ": " ++ AgentResult.approach result
  ++ LF ++ LF
  ++ "**Status:** " ++ Status_name (AgentResult.status result) ++ LF
  ++ (if truthy (AgentResult.error result)
      then "**Error:** " ++ orElse (AgentResult.error result) EmptyString
      else EmptyString)
  ++ LF ++ LF
  ++ "**Solution:**" ++ LF
  ++ orElse (AgentResult.solution result) "No solution generated" ++ LF.

Fixpoint mapi {A B} (f : nat -> A -> B) (idx : nat) (xs : list A) : list B :=
  match xs with
  | [] => []
  | x :: rest => f idx x :: mapi f (S idx) rest
  end.

Definition agentResultsText (agentResults : list AgentResult.t) : string :=
  join (LF ++ LF ++ "---" ++ LF ++ LF) (mapi agentResultText O agentResults).

(** [configs.slice(0, numAgents)] when [numAgents] is truthy, else
    [configs]. *)
Definition selectConfigs (configs : list AgentConfig.t)
  : list AgentConfig.t :=
  match UltraThinkOptions.numAgents options with
  | Some n => if n =? 0 then configs else sliceTo n configs
  | None => configs
  end.

Definition countCompleted (agentResults : list AgentResult.t) : Z :=
  Z.of_nat
    (List.length
       (filter (fun r => Status_eqb (AgentResult.status r) Completed)
          agentResults)).

(** [run].  The [forEach] that announces the selected configurations to
    [onAgentUpdate] only notifies that observer. *)
Definition run : M RunResult :=
  let problemStatement :=
    DeepThinkOptions.problemStatement (UltraThinkOptions.base options) in
  emit (EInit problemStatement) ;;
  plan <- generatePlan problemStatement ;;
  value <- generateAgentConfigs plan ;;
  match asConfigs value with
  | None => ret (IllTypedConfigs value)
  | Some configs =>
      let selectedConfigs := selectConfigs configs in
      let numAgents := List.length selectedConfigs in
      emit (EProgress ("Running " ++ ofNat numAgents
                       ++ " agents in parallel...")) ;;
      let agentResults := runAgents O selectedConfigs problemStatement in
      emit (EProgress "Synthesizing results...") ;;
      model <- createModelProvider env (getModelForStage StSynthesis) ;;
      synthesis <-
        generateText env SiteSynthesis
          (Request.mk model None
             (Some (replace "{agentResults}" (agentResultsText agentResults)
                      (replace "{problem}" problemStatement
                         (Prompts.synthesizeResultsPrompt P))))
             [] None None) ;;
      emit (ESuccess synthesis 1) ;;
      ret (Finished
             (UltraThinkResult.mk plan agentResults synthesis synthesis
                (Z.of_nat numAgents) (countCompleted agentResults)))
  end.

End Engine.
End UltraThinkEngine.

(* ================================================================== *)
(** ** A parser for a fragment of JSON *)

(** [JSON.parse] is a parameter of the engine.  For runs on concrete
    texts this is a parser of the JSON texts built from [null], [true],
    [false], integers, strings without escapes, arrays and objects; on
    such a text it yields the value that [JSON.parse] yields.  Other texts
    are answered with a syntax error. *)
Module JsonFragment.

Definition isJsonSpace (c : ascii) : bool :=
  let n := nat_of_ascii c in
  ((n =? 32) || (n =? 9) || (n =? 10) || (n =? 13))%nat.

Fixpoint skipSpace (s : string) : string :=
  match s with
  | String c rest => if isJsonSpace c then skipSpace rest else s
  | EmptyString => s
  end.

Definition isDigit (c : ascii) : bool :=
  let n := nat_of_ascii c in ((48 <=? n) && (n <=? 57))%nat.

Definition digitValue (c : ascii) : Z := Z.of_nat (nat_of_ascii c - 48).

(** The digits at the head of [s], read in base ten after [acc]. *)
Fixpoint readDigits (acc : Z) (s : string) : Z * string :=
  match s with
  | String c rest =>
      if isDigit c then readDigits (acc * 10 + digitValue c) rest
      else (acc, s)
  | EmptyString => (acc, s)
  end.

Definition startsNumberTail (s : string) : bool :=
  match s with
  | String c _ => Ascii.eqb c "." || Ascii.eqb c "e" || Ascii.eqb c "E"
  | EmptyString => false
  end.

(** An integer without sign: [0], or digits that do not start with [0]. *)
Definition readNatural (s : string) : option (Z * string) :=
  match s with
  | String c rest =>
      if Ascii.eqb c "0" then
        match rest with
        | String d _ => if isDigit d then None else Some (0, rest)
        | EmptyString => Some (0, rest)
        end
      else if isDigit c then Some (readDigits 0 s)
      else None
  | EmptyString => None
  end.

Definition readNumber (s : string) : option (Z * string) :=
  let result :=
    match s with
    | String c rest =>
        if Ascii.eqb c "-" then
          match readNatural rest with
          | Some (n, rest') => Some (- n, rest')
          | None => None
          end
        else readNatural s
    | EmptyString => None
    end in
  match result with
  | Some (n, rest) => if startsNumberTail rest then None else Some (n, rest)
  | None => None
  end.

(** The characters up to the closing quote; no escapes, no control
    characters. *)
Fixpoint readString (s : string) : option (string * string) :=
  match s with
  | EmptyString => None
  | String c rest =>
      if Ascii.eqb c (ascii_of_nat 34) then Some (EmptyString, rest)
      else if Ascii.eqb c (ascii_of_nat 92) then None
      else if (nat_of_ascii c <? 32)%nat then None
      else match readString rest with
           | Some (body, rest') => Some (String c body, rest')
           | None => None
           end
  end.

Definition expect (word : string) (v : Json) (s : string)
  : option (Json * string) :=
  if String.prefix word s then Some (v, drop (String.length word) s)
  else None.

Fixpoint value (fuel : nat) (s : string) : option (Json * string) :=
  match fuel with
  | O => None
  | S fuel' =>
      match skipSpace s with
      | EmptyString => None
      | String c rest as s' =>
          if Ascii.eqb c "n" then expect "null" JNull s'
          else if Ascii.eqb c "t" then expect "true" (JBool true) s'
          else if Ascii.eqb c "f" then expect "false" (JBool false) s'
          else if Ascii.eqb c (ascii_of_nat 34) then
            match readString rest with
            | Some (body, rest') => Some (JString body, rest')
            | None => None
            end
          else if Ascii.eqb c "[" then
            match skipSpace rest with
            | String d rest' as inside =>
                if Ascii.eqb d "]" then Some (JArray [], rest')
                else match elements fuel' inside with
                     | Some (items, rest'') => Some (JArray items, rest'')
                     | None => None
                     end
            | EmptyString => None
            end
          else if Ascii.eqb c "{" then
            match skipSpace rest with
            | String d rest' as inside =>
                if Ascii.eqb d "}" then Some (JObject [], rest')
                else match members fuel' inside with
                     | Some (fields, rest'') => Some (JObject fields, rest'')
                     | None => None
                     end
            | EmptyString => None
            end
          else match readNumber s' with
               | Some (n, rest') => Some (JNumber n, rest')
               | None => None
               end
      end
  end

with elements (fuel : nat) (s : string) : option (list Json * string) :=
  match fuel with
  | O => None
  | S fuel' =>
      match value fuel' s with
      | Some (v, rest) =>
          match skipSpace rest with
          | String c rest' =>
              if Ascii.eqb c "]" then Some ([v], rest')
              else if Ascii.eqb c "," then
                match elements fuel' rest' with
                | Some (items, rest'') => Some (v :: items, rest'')
                | None => None
                end
              else None
          | EmptyString => None
          end
      | None => None
      end
  end

with members (fuel : nat) (s : string)
  : option (list (string * Json) * string) :=
  match fuel with
  | O => None
  | S fuel' =>
      match skipSpace s with
      | String q afterQuote =>
          if Ascii.eqb q (ascii_of_nat 34) then
            match readString afterQuote with
            | Some (key, rest) =>
                match skipSpace rest with
                | String colon rest' =>
                    if Ascii.eqb colon ":" then
                      match value fuel' rest' with
                      | Some (v, rest'') =>
                          match skipSpace rest'' with
                          | String c rest3 =>
                              if Ascii.eqb c "}" then Some ([(key, v)], rest3)
                              else if Ascii.eqb c "," then
                                match members fuel' rest3 with
                                | Some (fields, rest4) =>
                                    Some ((key, v) :: fields, rest4)
                                | None => None
                                end
                              else None
                          | EmptyString => None
                          end
                      | None => None
                      end
                    else None
                | EmptyString => None
                end
            | None => None
            end
          else None
      | EmptyString => None
      end
  end.

Definition parse (text : string) : string + Json :=
  match value (S (String.length text)) text with
  | Some (v, rest) =>
      match skipSpace rest with
      | EmptyString => inr v
      | String _ _ => inl "Unexpected non-whitespace character after JSON"
      end
  | None => inl "Unexpected token in JSON"
  end.

End JsonFragment.

(* ================================================================== *)
(** ** Concrete environments *)

Module Scenario.

Definition prompts : Prompts.t :=
  Prompts.mk "INITIAL" "IMPROVE" "VERIFIER" "CORRECT" "REMINDER"
    "Plan: {query}" "Agents: {plan}" "Synthesize {problem} from {agentResults}".

(** Every provider is created and every text generation replies [text];
    structured generation fails to decode. *)
Definition replying (text : string) : Env.t :=
  Env.mk (fun _ model => Ok model) (fun _ _ => Ok text)
    (fun _ _ => Throw (ThrownError "No object generated"))
    (fun n => Z.of_nat n).

(** As [replying], with a structured generation that decodes to
    [configs]. *)
Definition planning (configs : list AgentConfig.t) (text : string) : Env.t :=
  Env.mk (fun _ model => Ok model) (fun _ _ => Ok text)
    (fun _ _ => Ok configs) (fun n => Z.of_nat n).

(** As [replying "Yes."], but the reply to the interaction numbered
    [n] is "No.". *)
Definition noAt (n : nat) : Env.t :=
  Env.mk (fun _ model => Ok model)
    (fun k _ => Ok (if (k =? n)%nat then "No." else "Yes."))
    (fun _ _ => Throw (ThrownError "No object generated"))
    (fun k => Z.of_nat k).

(** Nothing replies: every interaction throws [e], the creation of a
    provider first. *)
Definition failing (e : Thrown) : Env.t :=
  Env.mk (fun _ _ => Throw e) (fun _ _ => Throw e) (fun _ _ => Throw e)
    (fun n => Z.of_nat n).

Definition options (maxIterations required maxErrors : option Z)
  : DeepThinkOptions.t :=
  DeepThinkOptions.mk "2 + 2 = ?" [] None maxIterations required maxErrors
    None None "model-a" None.

Definition ultraOptions (numAgents : option Z) : UltraThinkOptions.t :=
  UltraThinkOptions.mk (options None None None) numAgents.

Definition twoConfigs : list AgentConfig.t :=
  [AgentConfig.mk "agent_01" "direct" "Compute it.";
   AgentConfig.mk "agent_02" "indirect" "Argue by contradiction."].

(** A fallback reply: a fenced JSON object whose list is not under the
    member [configs]. *)
Definition agentsObjectText : string :=
  BACKTICKS ++ "json" ++ LF
  ++ "{" ++ DQUOTE ++ "agents" ++ DQUOTE ++ ": [{"
  ++ DQUOTE ++ "agentId" ++ DQUOTE ++ ": " ++ DQUOTE ++ "agent_01" ++ DQUOTE
  ++ ", " ++ DQUOTE ++ "approach" ++ DQUOTE ++ ": " ++ DQUOTE ++ "direct"
  ++ DQUOTE ++ ", " ++ DQUOTE ++ "specificPrompt" ++ DQUOTE ++ ": " ++ DQUOTE
  ++ "Compute it." ++ DQUOTE ++ "}]}" ++ LF ++ BACKTICKS.

Definition nullMemberMessage : string :=
  "Cannot read properties of null (reading 'configs')".

(** The agent at position 0 cannot create its provider: the attempt
    throws [e]; every other agent is always answered [text]. *)
Definition firstAgentFails (e : Thrown) (text : string) (position : nat)
  : Env.t :=
  match position with
  | O => failing e
  | S _ => replying text
  end.

End Scenario.

Definition sampleConfigsText : string :=
  "[{" ++ DQUOTE ++ "agentId" ++ DQUOTE ++ ": "
  ++ DQUOTE ++ "agent_01" ++ DQUOTE
  ++ ", " ++ DQUOTE ++ "approach" ++ DQUOTE ++ ": "
  ++ DQUOTE ++ "direct" ++ DQUOTE
  ++ ", " ++ DQUOTE ++ "specificPrompt" ++ DQUOTE ++ ": "
  ++ DQUOTE ++ "go" ++ DQUOTE
  ++ "}]".




(* ================================================================== *)
(** ** Observations on a run, and assumptions on the environment *)

Fixpoint lastEvent (evs : list ProgressEvent) : option ProgressEvent :=
  match evs with
  | [] => None
  | [e] => Some e
  | _ :: rest => lastEvent rest
  end.

Fixpoint lastIteration (its : list DeepThinkIteration.t)
  : option DeepThinkIteration.t :=
  match its with
  | [] => None
  | [it] => Some it
  | _ :: rest => lastIteration rest
  end.

(** The terminal states of the single-agent engine, as its last event
    tells them. *)
Inductive Terminal : Type := Success | Failure.

Definition terminal (w : World.t) : option Terminal :=
  match lastEvent (World.events w) with
  | Some (ESuccess _ _) => Some Success
  | Some (EFailure _) => Some Failure
  | _ => None
  end.

(** No provider creation and no text generation throws. *)
Definition alwaysReplies (env : Env.t) : Prop :=
  (forall n model,
      exists handle, Env.createModelProvider env n model = Ok handle) /\
  (forall n request, exists text, Env.generateText env n request = Ok text).

(** The judgment on a verification is the reply to the yes/no question. *)
Definition everyVerificationPasses (env : Env.t) : Prop :=
  forall n model verificationOutput judgment,
    Env.generateText env n
      (DeepThinkEngine.checkRequest model verificationOutput) = Ok judgment ->
    saysYes judgment = true.

Definition everyVerificationFails (env : Env.t) : Prop :=
  forall n model verificationOutput judgment,
    Env.generateText env n
      (DeepThinkEngine.checkRequest model verificationOutput) = Ok judgment ->
    saysYes judgment = false.

(** A verification record whose [passed] is derived from its verdict. *)
Definition derivedFromVerdict (v : Verification.t) : Prop :=
  Verification.passed v = saysYes (Verification.goodVerify v).

(** The indices of the recorded iterations are 0, 1, 2, ... *)
Definition dense (its : list DeepThinkIteration.t) : Prop :=
  map DeepThinkIteration.iteration its
  = map Z.of_nat (seq 0 (List.length its)).

(** The verification records are derived from their verdicts, and the
    recorded iterations carry them in order. *)
Definition recorded (its : list DeepThinkIteration.t)
    (vs : list Verification.t) : Prop :=
  Forall derivedFromVerdict vs /\
  map DeepThinkIteration.verification its = vs.

(** What holds when the main loop is left, started at index [i] with
    [remaining] passes allowed, having emitted [evs]. *)
Definition afterLoopOk (i : Z) (remaining : nat) (evs : list ProgressEvent)
    (exit : DeepThinkEngine.LoopExit) : Prop :=
  match exit with
  | DeepThinkEngine.Returned r =>
      filter isFailure evs = [] /\
      recorded (DeepThinkResult.iterations r)
        (DeepThinkResult.verifications r) /\
      dense (DeepThinkResult.iterations r) /\
      Z.of_nat (List.length (DeepThinkResult.iterations r))
      = DeepThinkResult.totalIterations r
  | DeepThinkEngine.AfterLoop st' =>
      recorded (DeepThinkEngine.iterations st')
        (DeepThinkEngine.verifications st') /\
      dense (DeepThinkEngine.iterations st') /\
      (filter isFailure evs = [] \/
       filter isFailure evs = [EFailure "Too many errors"]) /\
      Z.of_nat (List.length (DeepThinkEngine.iterations st'))
      <= i + Z.of_nat remaining
  end.

(** The failure events of a run of the single-agent engine. *)
Inductive FailureTrace : list ProgressEvent -> Prop :=
| NoFailure : FailureTrace []
| Exhausted : FailureTrace [EFailure "Max iterations reached"]
| GaveUp :
    FailureTrace [EFailure "Too many errors";
                  EFailure "Max iterations reached"].

(* ================================================================== *)
(** ** Statements about a multi-agent run *)

Section UltraStatements.
Variable agentEnv : nat -> Env.t.
Variable P : Prompts.t.
Variable options : UltraThinkOptions.t.

Definition problemOf : string :=
  DeepThinkOptions.problemStatement (UltraThinkOptions.base options).

(** The agents of [r] are the runs of [selected], in that order. *)
Definition dispatched (r : UltraThinkResult.t)
    (selected : list AgentConfig.t) : Prop :=
  UltraThinkResult.agentResults r
  = UltraThinkEngine.runAgents agentEnv P options O selected problemOf /\
  map AgentResult.agentId (UltraThinkResult.agentResults r)
  = map AgentConfig.agentId selected /\
  UltraThinkResult.totalAgents r = Z.of_nat (List.length selected).

(** The engine of the agent at position [i] throws [e]. *)
Definition agentThrows (i : nat) (config : AgentConfig.t) (e : Thrown)
  : Prop :=
  exists w,
    DeepThinkEngine.run (agentEnv i) P
      (UltraThinkEngine.agentOptions options config problemOf) World.initial
    = (Throw e, w).

(** Isolation of the agents of [r], dispatched on [selected]. *)
Definition isolated (r : UltraThinkResult.t) (selected : list AgentConfig.t)
  : Prop :=
  List.length (UltraThinkResult.agentResults r) = List.length selected /\
  (forall i config e,
      nth_error selected i = Some config ->
      agentThrows i config e ->
      exists result,
        nth_error (UltraThinkResult.agentResults r) i = Some result /\
        AgentResult.status result = Failed /\
        AgentResult.error result = Some (UltraThinkEngine.errorMessage e) /\
        ((forall message, e = ThrownError message -> message <> EmptyString)
         -> UltraThinkEngine.errorMessage e <> EmptyString)) /\
  (forall j config,
      nth_error selected j = Some config ->
      nth_error (UltraThinkResult.agentResults r) j
      = Some (fst (UltraThinkEngine.runAgent P options (agentEnv j) config
                     problemOf)) /\
      forall agentEnv' : nat -> Env.t,
        agentEnv' j = agentEnv j ->
        nth_error (UltraThinkEngine.runAgents agentEnv' P options O selected
                     problemOf) j
        = nth_error (UltraThinkResult.agentResults r) j) /\
  UltraThinkResult.completedAgents r
  = Z.of_nat
      (List.length
         (filter (fun a => Status_eqb (AgentResult.status a) Completed)
            (UltraThinkResult.agentResults r))).

End UltraStatements.

(** [configs] is the configuration list that the planning steps of a run
    started in [w] come to: the plan is generated, and the value of
    [generateAgentConfigs] is an array of agent configurations; [w2] is the
    world at that point. *)
Definition planned (env : Env.t) (P : Prompts.t)
    (JSON_parse : string -> string + Json) (nullMemberMessage : string)
    (options : UltraThinkOptions.t) (w : World.t)
    (configs : list AgentConfig.t) (w2 : World.t) : Prop :=
  exists plan w1 value,
    UltraThinkEngine.generatePlan env P options (problemOf options)
      (snd (emit (EInit (problemOf options)) w)) = (Ok plan, w1) /\
    UltraThinkEngine.generateAgentConfigs env P JSON_parse nullMemberMessage
      options plan w1 = (Ok value, w2) /\
    asConfigs value = Some configs.

(* ================================================================== *)
(** ** What a computation adds to the world, however it ends *)

(** [m] only appends to the events and to the calls of the world, the
    events it appends satisfy [QE] and the calls [QC]. *)
Definition appends (QE : ProgressEvent -> Prop)
    (QC : CallSite * Request.t -> Prop) {A} (m : M A) : Prop :=
  forall w,
    exists evs cs,
      World.events (snd (m w)) = (World.events w ++ evs)%list /\
      World.calls (snd (m w)) = (World.calls w ++ cs)%list /\
      Forall QE evs /\ Forall QC cs.

(** Neither a success nor a failure event. *)
Definition silent (event : ProgressEvent) : Prop :=
  isSuccess event = false /\ isFailure event = false.

(** When [m] throws, it has reported neither success nor failure. *)
Definition throwsQuietly {A} (m : M A) : Prop :=
  forall w e w',
    m w = (Throw e, w') ->
    exists evs,
      World.events w' = (World.events w ++ evs)%list /\
      Forall silent evs.

(** A thinking event of the single-agent engine is at iteration 0. *)
Definition thinkingAtZero (event : ProgressEvent) : Prop :=
  match event with
  | EThinking iteration _ => iteration = 0
  | _ => True
  end.

(** The call sites whose requests carry the search augmentation. *)
Definition augmented (site : CallSite) : bool :=
  match site with
  | SiteInitial | SiteImprovement | SiteCorrection => true
  | _ => false
  end.

(** The search augmentation of a call of an engine with [options]. *)
Definition augmentedBySite (options : DeepThinkOptions.t)
    (call : CallSite * Request.t) : Prop :=
  Request.tools (snd call)
  = (if augmented (fst call) then DeepThinkEngine.getSearchTools options
     else None) /\
  Request.providerOptions (snd call)
  = (if augmented (fst call) then DeepThinkEngine.getProviderOptions options
     else None).

(** Events emitted before the engine's final event. *)
Definition quietEvent (event : ProgressEvent) : Prop :=
  thinkingAtZero event /\ silent event.

(* ================================================================== *)
(** ** One pass of the main loop, and what a returning run keeps *)

(** The record that a loop pass pushes for the pending verdict, and the
    iteration entry it pushes with it. *)
Definition recordOf (timestamp : Z) (verdict : Verdict.t) : Verification.t :=
  Verification.mk timestamp (saysYes (Verdict.goodVerify verdict))
    (Verdict.bugReport verdict) (Verdict.goodVerify verdict).

Definition entryOf (i : Z) (solution : string) (v : Verification.t)
  : DeepThinkIteration.t :=
  DeepThinkIteration.mk i solution v
    (if Verification.passed v then Completed else Correcting).

(** A verdict that says yes carries no bug report. *)
Definition verdictOk (verdict : Verdict.t) : Prop :=
  saysYes (Verdict.goodVerify verdict) = true ->
  Verdict.bugReport verdict = EmptyString.

(** [w1] is [w] after "Verify again" at the end of pass [i] came to
    [verdict]. *)
Definition reverified (i : Z) (verdict : Verdict.t) (w w1 : World.t) : Prop :=
  verdictOk verdict /\
  World.events w1
  = (World.events w ++
     [EProgress "Verifying solution...";
      EVerification (saysYes (Verdict.goodVerify verdict)) (i + 1)])%list /\
  exists r1 r2,
    World.calls w1
    = (World.calls w ++ [(SiteVerification, r1); (SiteCheck, r2)])%list.

(** The number of elements at the end of [xs] that satisfy [f]. *)
Fixpoint leading {A} (f : A -> bool) (xs : list A) : nat :=
  match xs with
  | x :: rest => if f x then S (leading f rest) else O
  | [] => O
  end.

Definition trailing {A} (f : A -> bool) (xs : list A) : nat :=
  leading f (rev xs).

Definition failed (v : Verification.t) : bool := negb (Verification.passed v).

(** The passes since the last failure, and one more as long as no
    verification has failed; the value of [correctCount] when the records
    are [vs] and the verdict [pending] is still to be recorded. *)
Definition streak (vs : list Verification.t) : Z :=
  Z.of_nat (trailing Verification.passed vs)
  + (if forallb Verification.passed vs then 1 else 0).

Definition expectedCorrect (pending : Verdict.t) (vs : list Verification.t)
  : Z :=
  match vs with
  | [] => if saysYes (Verdict.goodVerify pending) then 1 else 0
  | _ :: _ => streak vs
  end.

(** The solution of the last solution event. *)
Fixpoint lastSolution (evs : list ProgressEvent) : option string :=
  match evs with
  | [] => None
  | event :: rest =>
      match lastSolution rest with
      | Some s => Some s
      | None => match event with
                | ESolution s _ => Some s
                | _ => None
                end
      end
  end.

Definition statusOk (it : DeepThinkIteration.t) : Prop :=
  DeepThinkIteration.status it
  = if Verification.passed (DeepThinkIteration.verification it)
    then Completed else Correcting.

Definition bugOk (v : Verification.t) : Prop :=
  Verification.passed v = true -> Verification.bugReport v = EmptyString.

Definition countFailed (vs : list Verification.t) : nat :=
  List.length (filter failed vs).

Definition countSite (site : CallSite) (cs : list (CallSite * Request.t))
  : nat :=
  List.length (filter (fun c => CallSite_eqb (fst c) site) cs).

(** The solution in hand after the events [evs], when it was [s] before
    them. *)
Definition solutionAfter (s : string) (evs : list ProgressEvent) : string :=
  match lastSolution evs with
  | Some s' => s'
  | None => s
  end.

(** The counters of the loop state agree with its records. *)
Definition countersOk (st : DeepThinkEngine.Loop) : Prop :=
  DeepThinkEngine.correctCount st
  = expectedCorrect (DeepThinkEngine.verification st)
      (DeepThinkEngine.verifications st) /\
  DeepThinkEngine.errorCount st
  = Z.of_nat (trailing failed (DeepThinkEngine.verifications st)).

Definition loopState (st : DeepThinkEngine.Loop) : Prop :=
  Forall statusOk (DeepThinkEngine.iterations st) /\
  Forall bugOk (DeepThinkEngine.verifications st) /\
  verdictOk (DeepThinkEngine.verification st) /\
  countersOk st.

(** The last iteration of a result that the loop returned: when its
    verification passed, the final solution is the one it verified; when
    it failed, no verification was required and the final solution is the
    correction that followed. *)
Definition lastIterationOk (K : Z) (r : DeepThinkResult.t) : Prop :=
  exists it,
    lastIteration (DeepThinkResult.iterations r) = Some it /\
    DeepThinkIteration.iteration it + 1 = DeepThinkResult.totalIterations r /\
    if Verification.passed (DeepThinkIteration.verification it)
    then DeepThinkIteration.solution it = DeepThinkResult.finalSolution r
    else K <= 0 /\ DeepThinkResult.successfulVerifications r = 0.

Definition exitState (K : Z) (exit : DeepThinkEngine.LoopExit) : Prop :=
  match exit with
  | DeepThinkEngine.Returned r =>
      Forall statusOk (DeepThinkResult.iterations r) /\
      Forall bugOk (DeepThinkResult.verifications r) /\
      DeepThinkResult.verifications r <> [] /\
      DeepThinkResult.successfulVerifications r
      = streak (DeepThinkResult.verifications r) /\
      K <= DeepThinkResult.successfulVerifications r /\
      lastIterationOk K r
  | DeepThinkEngine.AfterLoop st' => loopState st'
  end.

(** The events [evs] end with [tail], and report neither success nor
    failure before it. *)
Definition finishesWith (evs tail : list ProgressEvent) : Prop :=
  exists before,
    evs = (before ++ tail)%list /\
    filter isSuccess before = [] /\
    filter isFailure before = [].

Definition loopSite (call : CallSite * Request.t) : Prop :=
  match fst call with
  | SiteVerification | SiteCheck | SiteCorrection => True
  | _ => False
  end.

(** What the loop, left through [exit], has emitted ([evs]) and asked
    ([cs]) since it was entered in state [st]. *)
Definition exitTrace (maxErrors : Z) (st : DeepThinkEngine.Loop)
    (evs : list ProgressEvent) (cs : list (CallSite * Request.t))
    (exit : DeepThinkEngine.LoopExit) : Prop :=
  Forall loopSite cs /\
  countSite SiteCheck cs = countSite SiteVerification cs /\
  match exit with
  | DeepThinkEngine.Returned r =>
      finishesWith evs
        [ESuccess (DeepThinkResult.finalSolution r)
           (DeepThinkResult.totalIterations r)] /\
      solutionAfter (DeepThinkEngine.solution st) evs
      = DeepThinkResult.finalSolution r /\
      (List.length (DeepThinkEngine.verifications st)
       + countSite SiteVerification cs + 1
       = List.length (DeepThinkResult.verifications r))%nat /\
      (countFailed (DeepThinkEngine.verifications st)
       + countSite SiteCorrection cs
       = countFailed (DeepThinkResult.verifications r))%nat
  | DeepThinkEngine.AfterLoop st' =>
      solutionAfter (DeepThinkEngine.solution st) evs
      = DeepThinkEngine.solution st' /\
      ((finishesWith evs [] /\
        (List.length (DeepThinkEngine.verifications st)
         + countSite SiteVerification cs
         = List.length (DeepThinkEngine.verifications st'))%nat /\
        (countFailed (DeepThinkEngine.verifications st)
         + countSite SiteCorrection cs
         = countFailed (DeepThinkEngine.verifications st'))%nat)
       \/
       (finishesWith evs [EFailure "Too many errors"] /\
        maxErrors <= DeepThinkEngine.errorCount st' /\
        (List.length (DeepThinkEngine.verifications st)
         + countSite SiteVerification cs + 1
         = List.length (DeepThinkEngine.verifications st'))%nat /\
        (countFailed (DeepThinkEngine.verifications st)
         + countSite SiteCorrection cs + 1
         = countFailed (DeepThinkEngine.verifications st'))%nat))
  end.

(** What a run that returned [r] has emitted after its [init] event
    ([evs]) and asked ([cs]): it ended in success, ran out of iterations,
    or gave up after too many failed verifications in a row. *)
Definition runTrace (options : DeepThinkOptions.t) (r : DeepThinkResult.t)
    (evs : list ProgressEvent) (cs : list (CallSite * Request.t)) : Prop :=
  let K := DeepThinkEngine.requiredSuccessfulVerifications options in
  let n := List.length (DeepThinkResult.verifications r) in
  let f := countFailed (DeepThinkResult.verifications r) in
  countSite SiteInitial cs = 1%nat /\
  countSite SiteImprovement cs = 1%nat /\
  countSite SiteCheck cs = countSite SiteVerification cs /\
  lastSolution evs = Some (DeepThinkResult.finalSolution r) /\
  ((finishesWith evs
      [ESuccess (DeepThinkResult.finalSolution r)
         (DeepThinkResult.totalIterations r)] /\
    K <= DeepThinkResult.successfulVerifications r /\
    lastIterationOk K r /\
    countSite SiteVerification cs = n /\
    countSite SiteCorrection cs = f)
   \/
   (finishesWith evs [EFailure "Max iterations reached"] /\
    countSite SiteVerification cs = S n /\
    countSite SiteCorrection cs = f)
   \/
   (finishesWith evs
      [EFailure "Too many errors"; EFailure "Max iterations reached"] /\
    DeepThinkEngine.maxErrorsBeforeGiveUp options
    <= Z.of_nat (trailing failed (DeepThinkResult.verifications r)) /\
    countSite SiteVerification cs = n /\
    S (countSite SiteCorrection cs) = f)).


(* ================================================================== *)
(** ** Agents of a multi-agent run *)

(** The reason of the last failure event. *)
Fixpoint lastFailure (evs : list ProgressEvent) : option string :=
  match evs with
  | [] => None
  | event :: rest =>
      match lastFailure rest with
      | Some reason => Some reason
      | None => match event with
                | EFailure reason => Some reason
                | _ => None
                end
      end
  end.

(** The events of an engine, handled in order by the [onProgress] of
    [runAgent]. *)
Definition handled (evs : list ProgressEvent)
    (st : AgentResult.t * list AgentUpdate.t)
  : AgentResult.t * list AgentUpdate.t :=
  fold_left (fun st event => UltraThinkEngine.onProgress event st) evs st.

(** The engine of the agent at [position] returns a result. *)
Definition engineReturns (agentEnv : nat -> Env.t) (P : Prompts.t)
    (options : UltraThinkOptions.t) (position : nat) (config : AgentConfig.t)
  : bool :=
  match fst (DeepThinkEngine.run (agentEnv position) P
               (UltraThinkEngine.agentOptions options config
                  (problemOf options))
               World.initial) with
  | Ok _ => true
  | Throw _ => false
  end.

Fixpoint countReturned (agentEnv : nat -> Env.t) (P : Prompts.t)
    (options : UltraThinkOptions.t) (position : nat)
    (selected : list AgentConfig.t) : nat :=
  match selected with
  | [] => O
  | config :: rest =>
      ((if engineReturns agentEnv P options position config then 1 else 0)
       + countReturned agentEnv P options (S position) rest)%nat
  end.


(* ================================================================== *)
(** ** The global store (store/global.ts) *)

Inductive ThinkMode : Type := DeepThinkMode | UltraThinkMode.

(** [Partial<AgentResult>]: each key is absent or holds a value. *)
Module AgentPatch.
Record t : Type := mk {
  agentId : option string;
  approach : option string;
  specificPrompt : option string;
  status : option Status;
  progress : option Z;
  solution : option string;
  verifications : option (list Verification.t);
  error : option string }.
End AgentPatch.

Module GlobalStore.

Record t : Type := mk {
  openSetting : bool;
  openHistory : bool;
  openKnowledge : bool;
  thinkMode : ThinkMode;
  deepThinkResult : option DeepThinkResult.t;
  ultraThinkResult : option UltraThinkResult.t;
  isThinking : bool;
  currentIteration : Z;
  currentPhase : string;
  currentSolution : string;
  agentResults : list AgentResult.t }.

Definition initial : t :=
  mk false false false DeepThinkMode None None false 0 EmptyString
    EmptyString [].

Definition setDeepThinkResult (result : option DeepThinkResult.t) (s : t)
  : t :=
  mk (openSetting s) (openHistory s) (openKnowledge s) (thinkMode s)
    result (ultraThinkResult s) (isThinking s) (currentIteration s)
    (currentPhase s) (currentSolution s) (agentResults s).

Definition setUltraThinkResult (result : option UltraThinkResult.t) (s : t)
  : t :=
  mk (openSetting s) (openHistory s) (openKnowledge s) (thinkMode s)
    (deepThinkResult s) result (isThinking s) (currentIteration s)
    (currentPhase s) (currentSolution s) (agentResults s).

Definition setIsThinking (thinking : bool) (s : t) : t :=
  mk (openSetting s) (openHistory s) (openKnowledge s) (thinkMode s)
    (deepThinkResult s) (ultraThinkResult s) thinking (currentIteration s)
    (currentPhase s) (currentSolution s) (agentResults s).

Definition setCurrentIteration (iteration : Z) (s : t) : t :=
  mk (openSetting s) (openHistory s) (openKnowledge s) (thinkMode s)
    (deepThinkResult s) (ultraThinkResult s) (isThinking s) iteration
    (currentPhase s) (currentSolution s) (agentResults s).

Definition setCurrentPhase (phase : string) (s : t) : t :=
  mk (openSetting s) (openHistory s) (openKnowledge s) (thinkMode s)
    (deepThinkResult s) (ultraThinkResult s) (isThinking s)
    (currentIteration s) phase (currentSolution s) (agentResults s).

Definition setCurrentSolution (solution : string) (s : t) : t :=
  mk (openSetting s) (openHistory s) (openKnowledge s) (thinkMode s)
    (deepThinkResult s) (ultraThinkResult s) (isThinking s)
    (currentIteration s) (currentPhase s) solution (agentResults s).

Definition setAgentResults (agents : list AgentResult.t) (s : t) : t :=
  mk (openSetting s) (openHistory s) (openKnowledge s) (thinkMode s)
    (deepThinkResult s) (ultraThinkResult s) (isThinking s)
    (currentIteration s) (currentPhase s) (currentSolution s) agents.

(** The value of a key of [{ ...agent, ...update }]. *)
Definition keyOr {A} (key : option A) (old : A) : A :=
  match key with
  | Some v => v
  | None => old
  end.

Definition keyOrOption {A} (key old : option A) : option A :=
  match key with
  | Some v => Some v
  | None => old
  end.

(** [{ ...agent, ...update }] *)
Definition spread (agent : AgentResult.t) (update : AgentPatch.t)
  : AgentResult.t :=
  AgentResult.mk
    (keyOr (AgentPatch.agentId update) (AgentResult.agentId agent))
    (keyOr (AgentPatch.approach update) (AgentResult.approach agent))
    (keyOr (AgentPatch.specificPrompt update)
       (AgentResult.specificPrompt agent))
    (keyOr (AgentPatch.status update) (AgentResult.status agent))
    (keyOr (AgentPatch.progress update) (AgentResult.progress agent))
    (keyOrOption (AgentPatch.solution update) (AgentResult.solution agent))
    (keyOrOption (AgentPatch.verifications update)
       (AgentResult.verifications agent))
    (keyOrOption (AgentPatch.error update) (AgentResult.error agent)).

Definition updateAgentResult (agentId : string) (update : AgentPatch.t)
    (s : t) : t :=
  setAgentResults
    (map (fun agent =>
            if String.eqb (AgentResult.agentId agent) agentId
            then spread agent update else agent)
       (agentResults s))
    s.

Definition resetThinkResults (s : t) : t :=
  mk (openSetting s) (openHistory s) (openKnowledge s) (thinkMode s)
    None None false 0 EmptyString EmptyString [].

End GlobalStore.

(* ================================================================== *)
(** ** The updates of an agent, as the store receives them *)

(** An update of [runAgent], as the patch handed to [onAgentUpdate]. *)
Definition patchOfUpdate (update : AgentUpdate.t) : AgentPatch.t :=
  AgentPatch.mk None None None (AgentUpdate.status update)
    (AgentUpdate.progress update) (AgentUpdate.solution update)
    (AgentUpdate.verifications update) (AgentUpdate.error update).

(** The patch with which [UltraThinkEngine.run] announces a selected
    configuration. *)
Definition announcement (config : AgentConfig.t) : AgentPatch.t :=
  AgentPatch.mk None (Some (AgentConfig.approach config))
    (Some (AgentConfig.specificPrompt config)) None None None None None.

(** All the patches sent for one agent of a multi-agent run, in order. *)
Definition agentStream (P : Prompts.t) (options : UltraThinkOptions.t)
    (aenv : Env.t) (config : AgentConfig.t) (problem : string)
  : list AgentPatch.t :=
  announcement config
  :: map patchOfUpdate
       (snd (UltraThinkEngine.runAgent P options aenv config problem)).

(** The [onAgentUpdate] of the hook, over the calls [ups] in the order in
    which they arrive. *)
Definition feed (ups : list (string * AgentPatch.t)) (s : GlobalStore.t)
  : GlobalStore.t :=
  fold_left (fun s u => GlobalStore.updateAgentResult (fst u) (snd u) s)
    ups s.

(** The patches among [ups] that are sent for [agentId]. *)
Definition sentTo (agentId : string) (ups : list (string * AgentPatch.t))
  : list AgentPatch.t :=
  map snd (filter (fun u => String.eqb agentId (fst u)) ups).

Definition keepsId (u : string * AgentPatch.t) : Prop :=
  AgentPatch.agentId (snd u) = None.

(** A record that holds no solution, no verifications and no error yet. *)
Definition fresh (agent : AgentResult.t) : Prop :=
  AgentResult.solution agent = None /\
  AgentResult.verifications agent = None /\
  AgentResult.error agent = None.

(** A store record and the result that [runAgent] is building agree on
    what the handler of [runAgent] changes. *)
Definition agree (agent result : AgentResult.t) : Prop :=
  AgentResult.status agent = AgentResult.status result /\
  AgentResult.progress agent = AgentResult.progress result /\
  AgentResult.error agent = AgentResult.error result.

(** Two records with the same identity, solution and verifications. *)
Definition sameRest (agent agent' : AgentResult.t) : Prop :=
  AgentResult.agentId agent' = AgentResult.agentId agent /\
  AgentResult.approach agent' = AgentResult.approach agent /\
  AgentResult.specificPrompt agent' = AgentResult.specificPrompt agent /\
  AgentResult.solution agent' = AgentResult.solution agent /\
  AgentResult.verifications agent' = AgentResult.verifications agent.

(* ================================================================== *)
(** ** The hook useDeepThinkEngine and the form: the agents' placeholders *)

(** [String(n).padStart(2, "0")] *)
Definition padStart2 (s : string) : string :=
  if (String.length s <? 2)%nat
  then (if (String.length s <? 1)%nat then "00" else "0" ++ s)
  else s.

(** The records that [runUltraThinkMode] puts into the store before the
    run: [numAgents] placeholders when [numAgents] is truthy, none
    otherwise.  [preparing] is the label shown as their approach. *)
Definition placeholders (preparing : string) (numAgents : option Z)
  : list AgentResult.t :=
  match numAgents with
  | Some n =>
      if n =? 0 then []
      else
        map (fun i =>
               AgentResult.mk ("agent_" ++ padStart2 (ofNat (i + 1)))
                 preparing EmptyString Pending 0 None None None)
          (seq 0 (Z.to_nat n))
  | None => []
  end.

Definition initAgents (preparing : string) (numAgents : option Z)
    (s : GlobalStore.t) : GlobalStore.t :=
  GlobalStore.setAgentResults (placeholders preparing numAgents) s.

(** The argument that the form passes for its agent count:
    [numAgents === 0 ? undefined : numAgents]. *)
Definition formNumAgents (numAgents : Z) : option Z :=
  if numAgents =? 0 then None else Some numAgents.

(* ================================================================== *)
(** ** The hook useDeepThinkEngine: progress handling *)

Module Hook.

(** The values of the parameters of a translation. *)
Inductive TArg : Type :=
| TNumber (n : Z)
| TText (s : string).

Inductive Toast : Type :=
| ToastSuccess (message : string)
| ToastError (message : string).

(** The status text of the hook, the global store, and the toasts shown
    so far. *)
Record t : Type := mk {
  status : string;
  store : GlobalStore.t;
  toasts : list Toast }.

Section Handlers.
(** [t(key, params)] of react-i18next. *)
Variable translate : string -> list (string * TArg) -> string.
(** [parseError] of utils/error. *)
Variable parseError : Thrown -> string.

Definition setStatus (status : string) (h : t) : t :=
  mk status (store h) (toasts h).

Definition inStore (action : GlobalStore.t -> GlobalStore.t) (h : t) : t :=
  mk (status h) (action (store h)) (toasts h).

Definition toast (shown : Toast) (h : t) : t :=
  mk (status h) (store h) (toasts h ++ [shown])%list.

Definition handleError (error : Thrown) (h : t) : t :=
  toast (ToastError (parseError error)) h.

Definition handleProgress (event : ProgressEvent) (h : t) : t :=
  match event with
  | EInit _ =>
      inStore (GlobalStore.setCurrentPhase "initializing")
        (inStore (GlobalStore.setCurrentIteration 0)
           (setStatus (translate "deepThink.status.initializing" []) h))
  | EThinking iteration phase =>
      setStatus
        (translate "deepThink.status.thinking"
           [("iteration", TNumber iteration); ("phase", TText phase)])
        (inStore (GlobalStore.setCurrentPhase phase)
           (inStore (GlobalStore.setCurrentIteration iteration) h))
  | ESolution solution iteration =>
      setStatus
        (translate "deepThink.status.generatedSolution"
           [("iteration", TNumber iteration)])
        (inStore (GlobalStore.setCurrentSolution solution) h)
  | EVerification passed _ =>
      setStatus
        (translate "deepThink.status.verification"
           [("result",
             TText (if passed
                    then translate "deepThink.verification.passed" []
                    else translate "deepThink.verification.failed" []))])
        h
  | ECorrection iteration =>
      setStatus
        (translate "deepThink.status.correcting"
           [("iteration", TNumber iteration)])
        (inStore (GlobalStore.setCurrentPhase "correcting")
           (inStore (GlobalStore.setCurrentIteration iteration) h))
  | ESuccess _ _ =>
      toast (ToastSuccess (translate "deepThink.status.success" []))
        (setStatus (translate "deepThink.status.success" []) h)
  | EFailure _ =>
      toast (ToastError (translate "deepThink.status.failure" []))
        (setStatus (translate "deepThink.status.failure" []) h)
  | EProgress message => setStatus message h
  end.

(** The engine calls [onProgress] on each event as it is emitted. *)
Definition progressed (evs : list ProgressEvent) (h : t) : t :=
  fold_left (fun h event => handleProgress event h) evs h.

(** [runDeepThinkMode], from the call of [runDeepThink] on: the run with
    [handleProgress] as its [onProgress], and the [catch] with
    [handleError].  [options] are the options built from the settings. *)
Definition runDeepThinkMode (env : Env.t) (P : Prompts.t)
    (options : DeepThinkOptions.t) (h : t)
  : option DeepThinkResult.t * t :=
  let (outcome, w) := DeepThinkEngine.run env P options World.initial in
  let h := progressed (World.events w) h in
  match outcome with
  | Ok result => (Some result, h)
  | Throw err => (None, handleError err h)
  end.

(** The toasts that [handleProgress] shows for [evs]. *)
Fixpoint toastsOf (evs : list ProgressEvent) : list Toast :=
  match evs with
  | [] => []
  | ESuccess _ _ :: rest =>
      ToastSuccess (translate "deepThink.status.success" []) :: toastsOf rest
  | EFailure _ :: rest =>
      ToastError (translate "deepThink.status.failure" []) :: toastsOf rest
  | _ :: rest => toastsOf rest
  end.

End Handlers.
End Hook.

(* ================================================================== *)
(** ** The knowledge context collected by the form (Topic) *)

Module Resource.
Inductive Status : Type := Unprocessed | Processing | Completed | Failed.

Record t : Type := mk {
  id : string;
  name : string;
  type : string;
  size : Z;
  status : Status }.
End Resource.

Module FileMeta.
Record t : Type := mk {
  name : string;
  size : Z;
  type : string;
  lastModified : Z }.
End FileMeta.

Module Knowledge.
Inductive Kind : Type := File | Url | KnowledgeText.

Record t : Type := mk {
  id : string;
  title : string;
  content : string;
  type : Kind;
  fileMeta : option FileMeta.t;
  url : option string;
  createdAt : Z;
  updatedAt : Z }.
End Knowledge.

(** The text pushed for a resource, if any: the resource is completed and
    the knowledge store holds content for it. *)
Definition knowledgeText (getKnowledge : string -> option Knowledge.t)
    (item : Resource.t) : list string :=
  match Resource.status item with
  | Resource.Completed =>
      match getKnowledge (Resource.id item) with
      | Some knowledge =>
          if negb (isEmpty (Knowledge.content knowledge)) then
            ["### "
             ++ (if isEmpty (Knowledge.title knowledge)
                 then Resource.name item else Knowledge.title knowledge)
             ++ " ###" ++ LF ++ LF ++ Knowledge.content knowledge]
          else []
      | None => []
      end
  | _ => []
  end.

Definition collectKnowledgeContext (resources : list Resource.t)
    (getKnowledge : string -> option Knowledge.t) : string :=
  if (List.length resources =? 0)%nat then EmptyString
  else
    let knowledgeTexts := flat_map (knowledgeText getKnowledge) resources in
    if (List.length knowledgeTexts =? 0)%nat then EmptyString
    else join (LF ++ LF ++ "---" ++ LF ++ LF) knowledgeTexts.

(** A completed resource for which the knowledge store holds content. *)
Definition usable (getKnowledge : string -> option Knowledge.t)
    (item : Resource.t) : Prop :=
  Resource.status item = Resource.Completed /\
  exists knowledge,
    getKnowledge (Resource.id item) = Some knowledge /\
    Knowledge.content knowledge <> EmptyString.

(** The knowledge section that the engine appends to a prompt. *)
Definition knowledgeSection (intro k : string) : string :=
  LF ++ LF ++ "### Available Knowledge Base ###" ++ LF ++ LF
  ++ intro ++ k ++ LF ++ LF ++ "### End of Knowledge Base ###" ++ LF.

Definition withKnowledgeContext (k : option string)
    (o : DeepThinkOptions.t) : DeepThinkOptions.t :=
  DeepThinkOptions.mk (DeepThinkOptions.problemStatement o)
    (DeepThinkOptions.otherPrompts o) k
    (DeepThinkOptions.maxIterations o)
    (DeepThinkOptions.requiredSuccessfulVerifications o)
    (DeepThinkOptions.maxErrorsBeforeGiveUp o)
    (DeepThinkOptions.enableWebSearch o)
    (DeepThinkOptions.searchProvider o)
    (DeepThinkOptions.thinkingModel o)
    (DeepThinkOptions.modelStages o).

Definition withInitialPrompt (prompt : string) (P : Prompts.t) : Prompts.t :=
  Prompts.mk prompt (Prompts.selfImprovementPrompt P)
    (Prompts.verificationSystemPrompt P) (Prompts.correctionPrompt P)
    (Prompts.verificationReminder P) (Prompts.ultraThinkPlanPrompt P)
    (Prompts.generateAgentPromptsPrompt P)
    (Prompts.synthesizeResultsPrompt P).

(** The sentence that introduces the knowledge in the initial prompt. *)
Definition knowledgeIntro : string :=
  "The following knowledge and resources are available"
  ++ " to help you solve this problem:" ++ LF ++ LF.
Example indexOf_ex1 : indexOf "lo" "hello" = 3.
Proof. reflexivity. Qed.

Example indexOf_ex2 : indexOf "x" "hello" = -1.
Proof. reflexivity. Qed.

Example trim_ex : trim "  a b  " = "a b".
Proof. reflexivity. Qed.

Example lower_ex : toLowerCase "YeS!" = "yes!".
Proof. reflexivity. Qed.

Example slice_ex : slice2 0 (-3) "abc```" = "abc".
Proof. reflexivity. Qed.

Example ofNat_ex : ofNat 120 = "120".
Proof. reflexivity. Qed.

Example ends_ex : endsWith "```" "x```" = true.
Proof. reflexivity. Qed.

Example replace_ex : replace "{query}" "a$&b" "<{query}>" = "<a{query}b>".
Proof. reflexivity. Qed.

Example parse_ex1 :
  JsonFragment.parse sampleConfigsText
  = inr (encodeConfigs [AgentConfig.mk "agent_01" "direct" "go"]).
Proof. reflexivity. Qed.

Example parse_ex2 : JsonFragment.parse " [1, -20 ,[ ], {}] " =
  inr (JArray [JNumber 1; JNumber (-20); JArray []; JObject []]).
Proof. reflexivity. Qed.

Example parse_ex3 : JsonFragment.parse "[1,]" = inl "Unexpected token in JSON".
Proof. reflexivity. Qed.

(* ================================================================== *)
(** ** Strings: occurrences *)

Lemma prefix_app (m post : string) : String.prefix m (m ++ post) = true.
Proof.
  induction m as [|c m IH]; simpl.
  - destruct post; reflexivity.
  - destruct (ascii_dec c c) as [_|n]; [exact IH | contradiction].
Qed.

Lemma prefix_split (m s : string) :
  String.prefix m s = true -> s = m ++ drop (String.length m) s.
Proof.
  revert s; induction m as [|c m IH]; intros s H.
  - reflexivity.
  - destruct s as [|d s]; simpl in H; [discriminate|].
    destruct (ascii_dec c d) as [->|_]; [|discriminate].
    simpl. f_equal. apply IH, H.
Qed.

Lemma drop_drop (a b : nat) (s : string) : drop a (drop b s) = drop (b + a) s.
Proof.
  revert s; induction b as [|b IH]; intros s; simpl.
  - reflexivity.
  - destruct s as [|c s]; simpl.
    + destruct a; reflexivity.
    + apply IH.
Qed.

Lemma drop_app_length (pre s : string) :
  drop (String.length pre) (pre ++ s) = s.
Proof.
  induction pre as [|c pre IH]; simpl; [destruct s; reflexivity | exact IH].
Qed.

Lemma length_take_le (n : nat) (s : string) :
  (n <= String.length s)%nat -> String.length (take n s) = n.
Proof.
  revert s; induction n as [|n IH]; intros [|c s] H; simpl in *;
    try reflexivity; try lia.
  f_equal. apply IH. lia.
Qed.

Lemma find_eq (m s : string) :
  find m s =
  if String.prefix m s then Some O
  else match s with
       | EmptyString => None
       | String _ s' => option_map S (find m s')
       end.
Proof. destruct s; reflexivity. Qed.

(** [find] locates an occurrence ... *)
Lemma find_Some (m s : string) (i : nat) :
  find m s = Some i ->
  (i <= String.length s)%nat /\
  s = take i s ++ m ++ drop (i + String.length m) s.
Proof.
  revert i; induction s as [|c s IH]; intros i H; rewrite find_eq in H;
    destruct (String.prefix m _) eqn:E.
  - injection H as <-. split; [simpl; lia|]. apply prefix_split, E.
  - discriminate.
  - injection H as <-. split; [simpl; lia|]. apply prefix_split, E.
  - destruct (find m s) as [j|] eqn:F; [|discriminate].
    simpl in H. injection H as <-.
    destruct (IH j eq_refl) as [Hle Hs]. split; [simpl; lia|].
    simpl. f_equal. exact Hs.
Qed.

(** ... the first one ... *)
Lemma find_first (m s : string) (i : nat) :
  find m s = Some i ->
  forall j, (j < i)%nat -> String.prefix m (drop j s) = false.
Proof.
  revert i; induction s as [|c s IH]; intros i H j Hj; rewrite find_eq in H;
    destruct (String.prefix m _) eqn:E.
  - injection H as <-. lia.
  - discriminate.
  - injection H as <-. lia.
  - destruct (find m s) as [k|] eqn:F; [|discriminate].
    simpl in H. injection H as <-.
    destruct j as [|j]; [exact E|].
    simpl. apply (IH k eq_refl). lia.
Qed.

(** ... and finds none only when there is none. *)
Lemma find_None (m s : string) :
  find m s = None -> forall pre post, s <> pre ++ m ++ post.
Proof.
  induction s as [|c s IH]; intros H pre post Heq; rewrite find_eq in H;
    destruct (String.prefix m _) eqn:E; try discriminate.
  - destruct pre; simpl in Heq; [|discriminate].
    rewrite Heq, prefix_app in E. discriminate.
  - destruct (find m s) eqn:F; [discriminate|].
    destruct pre as [|d pre]; simpl in Heq.
    + rewrite Heq, prefix_app in E. discriminate.
    + injection Heq as _ Heq. exact (IH eq_refl pre post Heq).
Qed.

Lemma find_app (pre m post : string) :
  exists i, find m (pre ++ m ++ post) = Some i /\ (i <= String.length pre)%nat.
Proof.
  destruct (find m (pre ++ m ++ post)) as [i|] eqn:F.
  - exists i. split; [reflexivity|].
    destruct (Nat.le_gt_cases i (String.length pre)) as [Hle|Hgt]; [exact Hle|].
    pose proof (find_first _ _ _ F _ Hgt) as Hp.
    rewrite drop_app_length, prefix_app in Hp. discriminate.
  - exfalso. exact (find_None _ _ F pre post eq_refl).
Qed.

Lemma string_length_app (a b : string) :
  String.length (a ++ b) = (String.length a + String.length b)%nat.
Proof. induction a as [|c a IH]; simpl; [reflexivity | now rewrite IH]. Qed.

Lemma drop_past_prefix (pre m post : string) :
  drop (String.length pre + String.length m) (pre ++ m ++ post) = post.
Proof. now rewrite <- drop_drop, !drop_app_length. Qed.

(* ================================================================== *)
(** ** C2: the detailed portion *)

(** C2 (amended).  The Verify step hands to the verification prompt the
    text that follows the first occurrence of the marker
    "Detailed Solution" in the solution, with the white space at both ends
    trimmed; when the solution does not contain the marker, it hands over
    the empty string. *)
Theorem verify_detailed_portion :
  forall (env : Env.t) (P : Prompts.t) (options : DeepThinkOptions.t)
         (problemStatement solution : string),
    let marker := extractDetailedSolutionMarker in
    let detailed :=
      DeepThinkEngine.extractDetailedSolution solution marker true in
    (forall pre post,
        solution = pre ++ marker ++ post ->
        exists first rest,
          solution = first ++ marker ++ rest /\
          (String.length first <= String.length pre)%nat /\
          (forall j, (j < String.length first)%nat ->
                     startsWith marker (drop j solution) = false) /\
          detailed = trim rest) /\
    ((forall pre post, solution <> pre ++ marker ++ post) ->
     detailed = EmptyString) /\
    (forall w handle,
        Env.createModelProvider env (World.clock w)
          (DeepThinkEngine.getModelForStage options StVerification)
        = Ok handle ->
        exists request later,
          World.calls
            (snd (DeepThinkEngine.verifySolution env P options
                    problemStatement solution w))
          = (World.calls w ++ (SiteVerification, request) :: later)%list /\
          Request.prompt request
          = Some (buildVerificationPrompt P problemStatement detailed)).
Proof.
  intros env P options problemStatement solution marker detailed.
  split; [|split].
  - intros pre post Hsol.
    destruct (find_app pre marker post) as (i & Hfind & Hle).
    rewrite <- Hsol in Hfind.
    destruct (find_Some _ _ _ Hfind) as [Hi Hsplit].
    exists (take i solution), (drop (i + String.length marker) solution).
    rewrite (length_take_le _ _ Hi).
    split; [exact Hsplit|]. split; [exact Hle|].
    split; [exact (find_first _ _ _ Hfind)|].
    subst detailed. unfold DeepThinkEngine.extractDetailedSolution, indexOf.
    rewrite Hfind.
    replace (Z.of_nat i =? -1) with false by (symmetry; apply Z.eqb_neq; lia).
    f_equal. unfold substring1, clamp.
    rewrite <- Nat2Z.inj_add, Nat2Z.id.
    assert (Hlen : (i + String.length marker <= String.length solution)%nat).
    { pose proof (f_equal String.length Hsplit) as HL.
      rewrite !string_length_app, (length_take_le _ _ Hi) in HL. lia. }
    rewrite Nat.min_l by exact Hlen. reflexivity.
  - intros Habsent. subst detailed.
    unfold DeepThinkEngine.extractDetailedSolution, indexOf. fold marker.
    destruct (find marker solution) as [i|] eqn:F.
    + exfalso. destruct (find_Some _ _ _ F) as [_ Hs].
      exact (Habsent _ _ Hs).
    + reflexivity.
  - intros w handle Hprov.
    unfold DeepThinkEngine.verifySolution.
    eexists.
    unfold bind, emit, createModelProvider, generateText. simpl.
    rewrite Hprov. simpl.
    destruct (Env.generateText env _ _) as [out|e]; simpl.
    + destruct (Env.generateText env _ _) as [g|e]; simpl;
        eexists; rewrite <- app_assoc; simpl; split; reflexivity.
    + eexists. split; reflexivity.
Qed.

Lemma verify_detailed_portion_witness :
  (exists first rest,
      "Summary. Detailed Solution  x = 4. "
      = first ++ extractDetailedSolutionMarker ++ rest /\
      (String.length first <= String.length "Summary. ")%nat /\
      (forall j, (j < String.length first)%nat ->
                 startsWith extractDetailedSolutionMarker
                   (drop j "Summary. Detailed Solution  x = 4. ") = false) /\
      DeepThinkEngine.extractDetailedSolution
        "Summary. Detailed Solution  x = 4. " extractDetailedSolutionMarker
        true = trim rest) /\
  DeepThinkEngine.extractDetailedSolution
    "Summary. Detailed Solution  x = 4. " extractDetailedSolutionMarker true
  = "x = 4." /\
  DeepThinkEngine.extractDetailedSolution "x = 4."
    extractDetailedSolutionMarker true = EmptyString /\
  exists request later,
    World.calls
      (snd (DeepThinkEngine.verifySolution (Scenario.replying "Yes.")
              Scenario.prompts (Scenario.options None None None)
              "2 + 2 = ?" "Summary. Detailed Solution  x = 4. "
              World.initial))
    = (World.calls World.initial ++ (SiteVerification, request) :: later)%list
    /\
    Request.prompt request
    = Some (buildVerificationPrompt Scenario.prompts "2 + 2 = ?"
              (DeepThinkEngine.extractDetailedSolution
                 "Summary. Detailed Solution  x = 4. "
                 extractDetailedSolutionMarker true)).
Proof.
  destruct (verify_detailed_portion (Scenario.replying "Yes.")
              Scenario.prompts (Scenario.options None None None)
              "2 + 2 = ?" "Summary. Detailed Solution  x = 4. ")
    as (Hpresent & _ & Hcall).
  destruct (verify_detailed_portion (Scenario.replying "Yes.")
              Scenario.prompts (Scenario.options None None None)
              "2 + 2 = ?" "x = 4.")
    as (_ & Habsent & _).
  split; [exact (Hpresent "Summary. " "  x = 4. " eq_refl)|].
  split; [reflexivity|].
  split; [apply Habsent; apply find_None; reflexivity|].
  exact (Hcall World.initial "model-a" eq_refl).
Defined.

(** C2, as worded, at a solution without the marker: the detailed portion
    is not the solution text. *)
Lemma verify_detailed_portion_counterexample :
  indexOf extractDetailedSolutionMarker "The answer is 4." = -1 /\
  DeepThinkEngine.extractDetailedSolution "The answer is 4."
    extractDetailedSolutionMarker true = EmptyString /\
  DeepThinkEngine.extractDetailedSolution "The answer is 4."
    extractDetailedSolutionMarker true <> "The answer is 4.".
Proof. repeat split; try reflexivity. discriminate. Qed.

(* ================================================================== *)
(** ** Stepping through the engine code *)

Ltac unfold_monad_in H :=
  cbv beta iota zeta delta
    [bind emit createModelProvider generateText generateObject dateNow
     ret throw tryCatch] in H.

Ltac unfold_monad :=
  cbv beta iota zeta delta
    [bind emit createModelProvider generateText generateObject dateNow
     ret throw tryCatch].

Ltac split_outcomes H :=
  repeat match type of H with
  | context [match ?x with Ok _ => _ | Throw _ => _ end] =>
      destruct x eqn:?; try discriminate H
  | context [let (_, _) := ?x in _] =>
      destruct x as [[?|?] ?] eqn:?; try discriminate H
  end.

Ltac pair_inv H :=
  let H1 := fresh in let H2 := fresh in
  injection H as H1 H2; subst.

Lemma verifySolution_Ok env P options problem sol w v w' :
  DeepThinkEngine.verifySolution env P options problem sol w = (Ok v, w') ->
  exists model out,
    Env.generateText env (S (S (World.clock w)))
      (DeepThinkEngine.checkRequest model out) = Ok (Verdict.goodVerify v) /\
    w' = World.mk (3 + World.clock w)
           (World.events w ++ [EProgress "Verifying solution..."])
           (World.calls w ++
            [(SiteVerification,
              DeepThinkEngine.verificationRequest P model problem sol);
             (SiteCheck, DeepThinkEngine.checkRequest model out)]).
Proof.
  intros H. unfold DeepThinkEngine.verifySolution in H.
  unfold_monad_in H. split_outcomes H. pair_inv H.
  eexists _, _. split; [eassumption|].
  unfold logCall, tick. simpl. rewrite <- app_assoc. reflexivity.
Qed.

Lemma initialExploration_Ok env P options problem others w x w' :
  DeepThinkEngine.initialExploration env P options problem others w
  = (Ok x, w') ->
  exists init first site1 site2 site3 site4 n model out,
    x = Some init /\
    Env.generateText env n (DeepThinkEngine.checkRequest model out)
    = Ok (Verdict.goodVerify (DeepThinkEngine.initVerification init)) /\
    World.events w'
    = (World.events w ++
       [EThinking 0 "initial-exploration"; ESolution first 0;
        EThinking 0 "self-improvement";
        ESolution (DeepThinkEngine.initSolution init) 0;
        EProgress "Verifying solution...";
        EVerification
          (saysYes (Verdict.goodVerify
                      (DeepThinkEngine.initVerification init))) 0])%list /\
    World.calls w'
    = (World.calls w ++
       [(SiteInitial, site1); (SiteImprovement, site2);
        (SiteVerification, site3); (SiteCheck, site4)])%list.
Proof.
  intros H. unfold DeepThinkEngine.initialExploration in H.
  unfold_monad_in H. split_outcomes H.
  match goal with
  | Hv : DeepThinkEngine.verifySolution _ _ _ _ _ _ = _ |- _ =>
      apply verifySolution_Ok in Hv; destruct Hv as (model & out & Hg & ->)
  end.
  pair_inv H.
  eexists _, _, _, _, _, _, _, _, _. split; [reflexivity|].
  split; [exact Hg|].
  unfold logCall, tick; simpl. rewrite <- !app_assoc. simpl.
  split; reflexivity.
Qed.

(* ================================================================== *)
(** ** Invariants of the main loop *)

Lemma dense_nil : dense [].
Proof. reflexivity. Qed.

Lemma dense_snoc its sol v status :
  dense its ->
  dense (its ++
         [DeepThinkIteration.mk (Z.of_nat (List.length its)) sol v status]).
Proof.
  unfold dense. intros H.
  rewrite map_app, List.length_app, H. simpl.
  rewrite Nat.add_1_r, seq_S, map_app. reflexivity.
Qed.

Lemma lastIteration_snoc its it : lastIteration (its ++ [it]) = Some it.
Proof.
  induction its as [|a its IH]; [reflexivity|].
  simpl. destruct (its ++ [it])%list eqn:E; [destruct its; discriminate|].
  exact IH.
Qed.

Lemma dense_last its it :
  dense its -> lastIteration its = Some it ->
  DeepThinkIteration.iteration it + 1 = Z.of_nat (List.length its).
Proof.
  destruct its as [|a its] using rev_ind; [discriminate|].
  intros Hd Hl. rewrite lastIteration_snoc in Hl. injection Hl as <-.
  unfold dense in Hd. rewrite List.length_app in *. simpl in *.
  rewrite Nat.add_1_r, seq_S, !map_app in Hd. simpl in Hd.
  apply app_inj_tail in Hd. destruct Hd as [_ Hd]. lia.
Qed.

Section LoopFacts.
Variable env : Env.t.
Variable P : Prompts.t.
Variable options : DeepThinkOptions.t.
Variable problem initialThought : string.

Ltac split_post :=
  simpl; repeat match goal with |- _ /\ _ => split end; auto; try lia.

Lemma mainLoop_Ok :
  forall remaining i st w exit w',
    DeepThinkEngine.mainLoop env P options problem initialThought
      remaining i st w = (Ok exit, w') ->
    recorded (DeepThinkEngine.iterations st)
      (DeepThinkEngine.verifications st) ->
    dense (DeepThinkEngine.iterations st) ->
    Z.of_nat (List.length (DeepThinkEngine.iterations st)) = i ->
    exists evs,
      World.events w' = (World.events w ++ evs)%list /\
      afterLoopOk i remaining evs exit.
Proof.
  induction remaining as [|remaining IH]; intros i st w exit w' H Hv Hd Hi.
  - simpl in H. unfold ret in H. pair_inv H. exists []. rewrite app_nil_r.
    split; [reflexivity|]. split_post.
  - simpl in H. unfold DeepThinkEngine.pass in H.
    assert (Hv' : forall t sol status,
               recorded
                 (DeepThinkEngine.iterations st ++
                  [DeepThinkIteration.mk i sol
                     (Verification.mk t
                        (saysYes (Verdict.goodVerify
                                    (DeepThinkEngine.verification st)))
                        (Verdict.bugReport (DeepThinkEngine.verification st))
                        (Verdict.goodVerify (DeepThinkEngine.verification st)))
                     status])
                 (DeepThinkEngine.verifications st ++
                  [Verification.mk t
                     (saysYes (Verdict.goodVerify
                                 (DeepThinkEngine.verification st)))
                     (Verdict.bugReport (DeepThinkEngine.verification st))
                     (Verdict.goodVerify (DeepThinkEngine.verification st))])).
    { intros t sol status. destruct Hv as [Hv Hs]. split.
      - apply Forall_app. split; [exact Hv|].
        constructor; [reflexivity | constructor].
      - rewrite map_app, Hs. reflexivity. }
    assert (Hd' : forall sol v status,
               dense (DeepThinkEngine.iterations st ++
                      [DeepThinkIteration.mk i sol v status])).
    { intros. subst i. apply dense_snoc, Hd. }
    assert (Hl' : forall it,
               Z.of_nat (List.length (DeepThinkEngine.iterations st ++ [it]))
               = i + 1).
    { intros. rewrite List.length_app. simpl. lia. }
    destruct (saysYes (Verdict.goodVerify (DeepThinkEngine.verification st)))
      eqn:Hyes; simpl negb in H; cbv iota in H.
    + (* passed *)
      unfold_monad_in H.
      destruct (_ <=? DeepThinkEngine.correctCount st + 1) eqn:Hk.
      * pair_inv H. eexists. split; [simpl; reflexivity|].
        split_post.
      * split_outcomes H.
        match goal with
        | Hx : DeepThinkEngine.verifySolution _ _ _ _ _ _ = _ |- _ =>
            apply verifySolution_Ok in Hx;
            destruct Hx as (model & out & Hg & ->)
        end.
        apply IH in H; simpl; auto.
        destruct H as (evs & He & Hpost). simpl in He.
        eexists. split.
        { rewrite He. rewrite <- !app_assoc. reflexivity. }
        { destruct exit; simpl in *; intuition lia. }
    + unfold_monad_in H.
      destruct (_ <=? DeepThinkEngine.errorCount st + 1) eqn:Hm.
      * pair_inv H. eexists. split; [simpl; reflexivity|].
        split_post. rewrite Hl'. lia.
      * destruct (_ <=? 0) eqn:Hk.
        -- split_outcomes H. pair_inv H. eexists. split.
           { unfold logCall, tick; simpl. rewrite <- !app_assoc. reflexivity. }
           split_post.
        -- split_outcomes H.
           match goal with
           | Hx : DeepThinkEngine.verifySolution _ _ _ _ _ _ = _ |- _ =>
               apply verifySolution_Ok in Hx;
            destruct Hx as (model & out & Hg & ->)
           end.
           apply IH in H; simpl; auto.
           destruct H as (evs & He & Hpost). simpl in He.
           eexists. split.
           { rewrite He. rewrite <- !app_assoc. reflexivity. }
           { destruct exit; simpl in *; intuition lia. }
Qed.
End LoopFacts.

Section RunFacts.
Variable env : Env.t.
Variable P : Prompts.t.
Variable options : DeepThinkOptions.t.

(** Any run that returns: its records are well formed, and its failure
    events are none, the one of exhaustion, or the two of giving up. *)
Lemma run_Ok w r w' :
  DeepThinkEngine.run env P options w = (Ok r, w') ->
  recorded (DeepThinkResult.iterations r)
    (DeepThinkResult.verifications r) /\
  dense (DeepThinkResult.iterations r) /\
  exists failures,
    filter isFailure (World.events w')
    = (filter isFailure (World.events w) ++ failures)%list /\
    FailureTrace failures /\
    (failures = [] ->
     Z.of_nat (List.length (DeepThinkResult.iterations r))
     = DeepThinkResult.totalIterations r) /\
    (failures <> [] ->
     DeepThinkResult.totalIterations r
     = DeepThinkEngine.maxIterations options).
Proof.
  intros H. unfold DeepThinkEngine.run in H.
  unfold_monad_in H. split_outcomes H.
  match goal with
  | Hx : DeepThinkEngine.initialExploration _ _ _ _ _ _ = _ |- _ =>
      apply initialExploration_Ok in Hx;
      destruct Hx as (init & first & s1 & s2 & s3 & s4 & n & model & out
                      & -> & Hg & Hev & Hcalls)
  end.
  split_outcomes H.
  match goal with
  | Hx : DeepThinkEngine.mainLoop _ _ _ _ _ _ _ _ _ = _ |- _ =>
      apply mainLoop_Ok in Hx; simpl;
      [|split; [constructor | reflexivity] | apply dense_nil | reflexivity];
      destruct Hx as (evs & Hev2 & Hpost)
  end.
  match goal with
  | exit : DeepThinkEngine.LoopExit |- _ => destruct exit as [r0|st']
  end; pair_inv H; simpl in Hpost.
  - destruct Hpost as (Hf & Hv & Hd & Hl).
    split; [exact Hv|]. split; [exact Hd|].
    exists []. rewrite Hev2, Hev. simpl.
    rewrite !filter_app, Hf. simpl. rewrite !app_nil_r.
    repeat split; auto using NoFailure. congruence.
  - destruct Hpost as (Hv & Hd & Hf & Hl).
    split; [exact Hv|]. split; [exact Hd|].
    simpl. rewrite Hev2, Hev. simpl. rewrite !filter_app. simpl.
    destruct Hf as [Hf|Hf]; rewrite Hf; simpl; rewrite ?app_nil_r.
    + exists [EFailure "Max iterations reached"].
      repeat split; auto using Exhausted. discriminate.
    + exists [EFailure "Too many errors"; EFailure "Max iterations reached"].
      rewrite <- app_assoc. simpl.
      repeat split; auto using GaveUp. discriminate.
Qed.

End RunFacts.

(* ================================================================== *)
(** ** Runs in an environment that always replies *)

Ltac reply H :=
  repeat match goal with
  | |- context [Env.createModelProvider ?e ?n ?m] =>
      let h := fresh "handle" in
      let E := fresh "Hprovider" in
      destruct (proj1 H n m) as [h E]; rewrite E; clear E
  | |- context [Env.generateText ?e ?n ?r] =>
      let t := fresh "text" in
      let E := fresh "Htext" in
      destruct (proj2 H n r) as [t E]; rewrite E; clear E
  end.

Lemma lastEvent_snoc evs e : lastEvent (evs ++ [e]) = Some e.
Proof.
  induction evs as [|a evs IH]; [reflexivity|].
  simpl. destruct (evs ++ [e])%list eqn:E; [destruct evs; discriminate|].
  exact IH.
Qed.

Ltac count_calls :=
  unfold callsFrom, logCall, tick in *; simpl in *;
  rewrite ?filter_app, ?List.length_app in *; simpl in *; lia.

Section Replies.
Variable env : Env.t.
Variable P : Prompts.t.
Variable options : DeepThinkOptions.t.
Hypothesis Hreplies : alwaysReplies env.

Lemma verifySolution_replies problem sol w :
  exists v w',
    DeepThinkEngine.verifySolution env P options problem sol w = (Ok v, w').
Proof.
  unfold DeepThinkEngine.verifySolution. unfold_monad.
  reply Hreplies. eexists _, _. reflexivity.
Qed.

Lemma initialExploration_replies problem others w :
  exists x w',
    DeepThinkEngine.initialExploration env P options problem others w
    = (Ok x, w').
Proof.
  unfold DeepThinkEngine.initialExploration. unfold_monad.
  reply Hreplies.
  match goal with
  | |- context [DeepThinkEngine.verifySolution ?e ?p ?o ?a ?b ?w] =>
      destruct (verifySolution_replies a b w) as (v & w1 & ->)
  end.
  eexists _, _. reflexivity.
Qed.


(** The loop when every judgment is a pass. *)
Lemma mainLoop_all_pass (Hpass : everyVerificationPasses env) problem init :
  forall remaining i st w,
    saysYes (Verdict.goodVerify (DeepThinkEngine.verification st)) = true ->
    (1 <= remaining)%nat ->
    DeepThinkEngine.requiredSuccessfulVerifications options
    - DeepThinkEngine.correctCount st <= Z.of_nat remaining ->
    exists r w',
      DeepThinkEngine.mainLoop env P options problem init remaining i st w
      = (Ok (DeepThinkEngine.Returned r), w') /\
      DeepThinkResult.successfulVerifications r
      = Z.max (DeepThinkEngine.requiredSuccessfulVerifications options)
          (DeepThinkEngine.correctCount st + 1) /\
      DeepThinkResult.totalIterations r
      = i + Z.max (DeepThinkEngine.requiredSuccessfulVerifications options
                   - DeepThinkEngine.correctCount st) 1 /\
      Z.of_nat (callsFrom SiteVerification w')
      = Z.of_nat (callsFrom SiteVerification w)
        + Z.max (DeepThinkEngine.requiredSuccessfulVerifications options
                 - DeepThinkEngine.correctCount st) 1 - 1 /\
      lastEvent (World.events w')
      = Some (ESuccess (DeepThinkResult.finalSolution r)
                (DeepThinkResult.totalIterations r)) /\
      DeepThinkResult.finalSolution r = DeepThinkEngine.solution st.
Proof.
  induction remaining as [|remaining IH]; intros i st w Hyes Hrem Hk; [lia|].
  simpl. unfold DeepThinkEngine.pass. rewrite Hyes. simpl negb. cbv iota.
  unfold_monad.
  destruct (_ <=? DeepThinkEngine.correctCount st + 1) eqn:Hle.
  - apply Z.leb_le in Hle. eexists _, _. split; [reflexivity|]. simpl.
    repeat split; try lia.
    + unfold callsFrom, tick. simpl. lia.
    + apply lastEvent_snoc.
  - apply Z.leb_gt in Hle.
    match goal with
    | |- context [DeepThinkEngine.verifySolution ?e ?p ?o ?a ?b ?w] =>
        destruct (verifySolution_replies a b w) as (v & w1 & Hv); rewrite Hv;
        apply verifySolution_Ok in Hv; destruct Hv as (model & out & Hg & ->)
    end.
    apply Hpass in Hg.
    match goal with
    | |- context [DeepThinkEngine.mainLoop _ _ _ _ _ _ ?i' ?st' ?w'] =>
        assert (H1 : saysYes (Verdict.goodVerify
                                (DeepThinkEngine.verification st')) = true)
          by exact Hg;
        assert (H2 : (1 <= remaining)%nat) by lia;
        assert (H3 : DeepThinkEngine.requiredSuccessfulVerifications options
                     - DeepThinkEngine.correctCount st'
                     <= Z.of_nat remaining) by (simpl; lia);
        destruct (IH i' st' w' H1 H2 H3)
          as (r & w2 & Hrun & Hs & Ht & Hc & Hl & Hf)
    end.
    rewrite Hrun. exists r, w2. split; [reflexivity|]. simpl in *.
    rewrite Hs, Ht, Hc, Hl, Hf. repeat split; try lia.
    + count_calls.
    + do 2 f_equal. lia.
Qed.

(** The loop when every judgment is a fail and at least one pass is
    required. *)
Lemma mainLoop_all_fail (Hfail : everyVerificationFails env) problem init :
  1 <= DeepThinkEngine.requiredSuccessfulVerifications options ->
  forall remaining i st w,
    saysYes (Verdict.goodVerify (DeepThinkEngine.verification st)) = false ->
    Z.max (DeepThinkEngine.maxErrorsBeforeGiveUp options
           - DeepThinkEngine.errorCount st) 1 <= Z.of_nat remaining ->
    exists st' w',
      DeepThinkEngine.mainLoop env P options problem init remaining i st w
      = (Ok (DeepThinkEngine.AfterLoop st'), w') /\
      Z.of_nat (List.length (DeepThinkEngine.iterations st'))
      = Z.of_nat (List.length (DeepThinkEngine.iterations st))
        + Z.max (DeepThinkEngine.maxErrorsBeforeGiveUp options
                 - DeepThinkEngine.errorCount st) 1 /\
      Z.of_nat (callsFrom SiteCorrection w')
      = Z.of_nat (callsFrom SiteCorrection w)
        + Z.max (DeepThinkEngine.maxErrorsBeforeGiveUp options
                 - DeepThinkEngine.errorCount st) 1 - 1 /\
      lastEvent (World.events w') = Some (EFailure "Too many errors") /\
      DeepThinkEngine.correctCount st' = 0.
Proof.
  intros HK.
  induction remaining as [|remaining IH]; intros i st w Hno Hrem; [lia|].
  simpl. unfold DeepThinkEngine.pass. rewrite Hno. simpl negb. cbv iota.
  unfold_monad.
  destruct (_ <=? DeepThinkEngine.errorCount st + 1) eqn:Hle.
  - apply Z.leb_le in Hle. eexists _, _. split; [reflexivity|]. simpl.
    repeat split.
    + rewrite List.length_app. simpl. lia.
    + unfold callsFrom. simpl. lia.
    + apply lastEvent_snoc.
  - apply Z.leb_gt in Hle.
    reply Hreplies.
    replace (DeepThinkEngine.requiredSuccessfulVerifications options <=? 0)
      with false by (symmetry; apply Z.leb_gt; lia).
    match goal with
    | |- context [DeepThinkEngine.verifySolution ?e ?p ?o ?a ?b ?w] =>
        destruct (verifySolution_replies a b w) as (v & w1 & Hv); rewrite Hv;
        apply verifySolution_Ok in Hv; destruct Hv as (model & out & Hg & ->)
    end.
    apply Hfail in Hg.
    match goal with
    | |- context [DeepThinkEngine.mainLoop _ _ _ _ _ _ ?i' ?st' ?w'] =>
        assert (H1 : saysYes (Verdict.goodVerify
                                (DeepThinkEngine.verification st')) = false)
          by exact Hg;
        assert (H2 : Z.max (DeepThinkEngine.maxErrorsBeforeGiveUp options
                            - DeepThinkEngine.errorCount st') 1
                     <= Z.of_nat remaining) by (simpl; lia);
        destruct (IH i' st' w' H1 H2) as (st2 & w2 & Hrun & Hi & Hc & Hl & Hz)
    end.
    rewrite Hrun. exists st2, w2. split; [reflexivity|]. simpl in *.
    rewrite Hi, Hc, Hl, Hz. repeat split.
    + rewrite List.length_app. simpl. lia.
    + count_calls.
Qed.
End Replies.

(* ================================================================== *)
(** ** C1: a run whose verifications all pass *)

(** What the run of an all-passing environment returns: the initial pass
    sets correctCount to 1 and every loop pass adds one. *)
Lemma all_pass_run_exact :
  forall (env : Env.t) (P : Prompts.t) (options : DeepThinkOptions.t) (K : Z),
    DeepThinkEngine.requiredSuccessfulVerifications options = K ->
    1 <= K ->
    Z.max (K - 1) 1 <= DeepThinkEngine.maxIterations options ->
    alwaysReplies env ->
    everyVerificationPasses env ->
    exists r w',
      DeepThinkEngine.run env P options World.initial = (Ok r, w') /\
      terminal w' = Some Success /\
      DeepThinkResult.successfulVerifications r = Z.max K 2 /\
      Z.of_nat (callsFrom SiteVerification w') = 1 + Z.max (K - 2) 0 /\
      DeepThinkResult.totalIterations r = Z.max (K - 1) 1.
Proof.
  intros env P options K HK H1 Hmax Hreplies Hpass.
  unfold DeepThinkEngine.run. unfold_monad.
  match goal with
  | |- context [DeepThinkEngine.initialExploration ?e ?p ?o ?a ?b ?w] =>
      destruct (initialExploration_replies e p o Hreplies a b w)
        as (x & w1 & Hx);
      rewrite Hx; apply initialExploration_Ok in Hx;
      destruct Hx as (init & first & s1 & s2 & s3 & s4 & n & model & out
                      & -> & Hg & Hev & Hcalls)
  end.
  apply Hpass in Hg. rewrite Hg.
  match goal with
  | |- context [DeepThinkEngine.mainLoop _ _ _ ?p ?t ?rem ?i ?st ?w] =>
      assert (A1 : saysYes (Verdict.goodVerify
                              (DeepThinkEngine.verification st)) = true)
        by exact Hg;
      assert (A2 : (1 <= rem)%nat) by lia;
      assert (A3 : DeepThinkEngine.requiredSuccessfulVerifications options
                   - DeepThinkEngine.correctCount st <= Z.of_nat rem)
        by (cbn [DeepThinkEngine.correctCount]; rewrite HK; lia);
      destruct (mainLoop_all_pass env P options Hreplies Hpass p t rem i st w
                  A1 A2 A3) as (r & w2 & Hrun & Hs & Ht & Hc & Hl & Hf)
  end.
  rewrite Hrun. exists r, w2. split; [reflexivity|].
  cbn [DeepThinkEngine.correctCount] in Hs, Ht, Hc. rewrite HK in *.
  unfold terminal. rewrite Hl. split; [reflexivity|].
  split; [lia|]. split; [|lia].
  rewrite Hc.
  replace (callsFrom SiteVerification w1) with 1%nat
    by (unfold callsFrom; rewrite Hcalls; reflexivity).
  lia.
Qed.


Lemma lastEvent_In evs e : lastEvent evs = Some e -> In e evs.
Proof.
  induction evs as [|a evs IH]; [discriminate|].
  simpl. destruct evs as [|b evs].
  - intros H. injection H as ->. now left.
  - intros H. right. apply IH, H.
Qed.

(* ================================================================== *)
(** ** C5: a run whose verifications all fail *)

(** C5 (amended).  For every single-agent run in which every verification
    fails (and no generation call throws), with
    requiredSuccessfulVerifications >= 1 and
    0 <= maxErrorsBeforeGiveUp <= maxIterations, the run terminates with a
    Failure result; it issues max(maxErrorsBeforeGiveUp - 1, 0)
    correction-model invocations, which is at most maxErrorsBeforeGiveUp;
    and when maxErrorsBeforeGiveUp >= 1 it stops in the loop pass in which
    errorCount reaches maxErrorsBeforeGiveUp, having recorded that many
    iterations. *)
Theorem all_fail_run :
  forall (env : Env.t) (P : Prompts.t) (options : DeepThinkOptions.t)
         (maxErrors : Z),
    DeepThinkEngine.maxErrorsBeforeGiveUp options = maxErrors ->
    1 <= DeepThinkEngine.requiredSuccessfulVerifications options ->
    0 <= maxErrors <= DeepThinkEngine.maxIterations options ->
    alwaysReplies env ->
    everyVerificationFails env ->
    exists r w',
      DeepThinkEngine.run env P options World.initial = (Ok r, w') /\
      terminal w' = Some Failure /\
      Z.of_nat (callsFrom SiteCorrection w') = Z.max (maxErrors - 1) 0 /\
      Z.of_nat (callsFrom SiteCorrection w') <= maxErrors /\
      (1 <= maxErrors ->
       Z.of_nat (List.length (DeepThinkResult.iterations r)) = maxErrors /\
       In (EFailure "Too many errors") (World.events w')).
Proof.
  intros env P options maxErrors HM HK Hmax Hreplies Hfail.
  unfold DeepThinkEngine.run. unfold_monad.
  match goal with
  | |- context [DeepThinkEngine.initialExploration ?e ?p ?o ?a ?b ?w] =>
      destruct (initialExploration_replies e p o Hreplies a b w)
        as (x & w1 & Hx);
      rewrite Hx; apply initialExploration_Ok in Hx;
      destruct Hx as (init & first & s1 & s2 & s3 & s4 & n & model & out
                      & -> & Hg & Hev & Hcalls)
  end.
  apply Hfail in Hg. rewrite Hg.
  assert (Hc1 : callsFrom SiteCorrection w1 = 0%nat)
    by (unfold callsFrom; rewrite Hcalls; reflexivity).
  destruct (Z.to_nat (DeepThinkEngine.maxIterations options))
    as [|rem] eqn:Hrem.
  - (* no pass is allowed *)
    assert (maxErrors = 0) by lia. subst maxErrors.
    simpl. unfold_monad. eexists _, _. split; [reflexivity|].
    unfold terminal. simpl. rewrite lastEvent_snoc.
    split; [reflexivity|]. unfold callsFrom in *. simpl. rewrite Hc1, H.
    repeat split; lia.
  - match goal with
    | |- context [DeepThinkEngine.mainLoop _ _ _ ?p ?t ?rem' ?i ?st ?w] =>
        assert (A1 : saysYes (Verdict.goodVerify
                                (DeepThinkEngine.verification st)) = false)
          by exact Hg;
        assert (A2 : Z.max (DeepThinkEngine.maxErrorsBeforeGiveUp options
                            - DeepThinkEngine.errorCount st) 1
                     <= Z.of_nat rem')
          by (cbn [DeepThinkEngine.errorCount]; rewrite HM; lia);
        destruct (mainLoop_all_fail env P options Hreplies Hfail p t HK
                    rem' i st w A1 A2) as (st' & w2 & Hrun & Hi & Hc & Hl & Hz)
    end.
    rewrite Hrun. eexists _, _. split; [reflexivity|].
    cbn [DeepThinkEngine.errorCount DeepThinkEngine.iterations List.length]
      in Hi, Hc.
    rewrite HM in *.
    unfold terminal. cbn [World.events DeepThinkResult.iterations].
    rewrite lastEvent_snoc. split; [reflexivity|].
    replace (callsFrom SiteCorrection _) with (callsFrom SiteCorrection w2)
      by reflexivity.
    rewrite Hc, Hc1. repeat split; try lia.
    apply in_or_app. left. apply lastEvent_In, Hl.
Qed.

(** C1, as worded, at K = 1 and at the default K = 3 with every judgment
    a pass: successfulVerifications is 2 for K = 1, and the verification
    calls after the initial one are 0 for K = 1 and 1 for K = 3. *)
Lemma all_pass_run_counterexample :
  alwaysReplies (Scenario.replying "Yes.") /\
  everyVerificationPasses (Scenario.replying "Yes.") /\
  match DeepThinkEngine.run (Scenario.replying "Yes.") Scenario.prompts
          (Scenario.options None (Some 1) None) World.initial,
        DeepThinkEngine.run (Scenario.replying "Yes.") Scenario.prompts
          (Scenario.options None (Some 3) None) World.initial
  with
  | (Ok r1, w1), (Ok r3, w3) =>
      terminal w1 = Some Success /\
      DeepThinkResult.successfulVerifications r1 = 2 /\
      DeepThinkResult.successfulVerifications r1 <> 1 /\
      callsFrom SiteVerification w1 = (1 + 0)%nat /\
      terminal w3 = Some Success /\
      DeepThinkResult.successfulVerifications r3 = 3 /\
      callsFrom SiteVerification w3 = (1 + 1)%nat /\
      callsFrom SiteVerification w3 <> (1 + 3)%nat
  | _, _ => False
  end.
Proof.
  split; [split; intros; eexists; reflexivity|].
  split.
  - intros n model out judgment H. simpl in H. injection H as <-. reflexivity.
  - vm_compute. repeat split; discriminate.
Qed.

Lemma all_fail_run_witness :
  exists r w',
    DeepThinkEngine.run (Scenario.replying "No.") Scenario.prompts
      (Scenario.options (Some 5) (Some 2) (Some 3)) World.initial
    = (Ok r, w') /\
    terminal w' = Some Failure /\
    Z.of_nat (callsFrom SiteCorrection w') = 2 /\
    Z.of_nat (callsFrom SiteCorrection w') <= 3 /\
    (1 <= 3 ->
     Z.of_nat (List.length (DeepThinkResult.iterations r)) = 3 /\
     In (EFailure "Too many errors") (World.events w')).
Proof.
  apply (all_fail_run (Scenario.replying "No.") Scenario.prompts
           (Scenario.options (Some 5) (Some 2) (Some 3)) 3).
  - reflexivity.
  - vm_compute. discriminate.
  - split; vm_compute; discriminate.
  - split; intros; eexists; reflexivity.
  - intros n model out judgment H. simpl in H. injection H as <-. reflexivity.
Defined.

(** C5, as worded, at requiredSuccessfulVerifications = 0 (and the default
    thresholds 10 <= 30) with every judgment a fail: the run ends in
    Success after its first correction. *)
Lemma all_fail_run_counterexample :
  alwaysReplies (Scenario.replying "No.") /\
  everyVerificationFails (Scenario.replying "No.") /\
  DeepThinkEngine.maxErrorsBeforeGiveUp (Scenario.options None (Some 0) None)
  <= DeepThinkEngine.maxIterations (Scenario.options None (Some 0) None) /\
  match DeepThinkEngine.run (Scenario.replying "No.") Scenario.prompts
          (Scenario.options None (Some 0) None) World.initial
  with
  | (Ok r, w') =>
      terminal w' = Some Success /\
      terminal w' <> Some Failure /\
      callsFrom SiteCorrection w' = 1%nat /\
      Forall (fun v => Verification.passed v = false)
        (DeepThinkResult.verifications r)
  | _ => False
  end.
Proof.
  split; [split; intros; eexists; reflexivity|].
  split.
  - intros n model out judgment H. simpl in H. injection H as <-. reflexivity.
  - split; [vm_compute; discriminate|].
    vm_compute. repeat split; try discriminate.
    repeat constructor.
Qed.

(** The run of maxIterations = 5 and requiredSuccessfulVerifications = 2
    whose judgments are fail, pass, pass: three iterations are recorded and
    the run succeeds with successfulVerifications = 2 and
    totalIterations = 3. *)
Example fail_pass_pass :
  match DeepThinkEngine.run (Scenario.noAt 6) Scenario.prompts
          (Scenario.options (Some 5) (Some 2) None) World.initial
  with
  | (Ok r, w') =>
      map Verification.passed (DeepThinkResult.verifications r)
      = [false; true; true] /\
      List.length (DeepThinkResult.iterations r) = 3%nat /\
      terminal w' = Some Success /\
      DeepThinkResult.successfulVerifications r = 2 /\
      DeepThinkResult.totalIterations r = 3
  | (Throw _, _) => False
  end.
Proof. vm_compute. repeat split. Qed.

(* ================================================================== *)
(** ** C8: passed is derived from the raw verdict *)

(** C8.  For every Verification record produced by a run, passed is a
    function of the stored raw verdict (goodVerify): passed is true if and
    only if the lowercased raw verdict contains the substring "yes", so two
    Verifications with the same raw verdict have the same passed value.
    The records are those of the result's verifications list, and the
    verification of each recorded iteration is one of them. *)
Theorem verification_passed_from_verdict :
  forall (env : Env.t) (P : Prompts.t) (options : DeepThinkOptions.t)
         (r : DeepThinkResult.t) (w' : World.t),
    DeepThinkEngine.run env P options World.initial = (Ok r, w') ->
    (forall v,
        In v (DeepThinkResult.verifications r) ->
        (Verification.passed v = true <->
         includes "yes" (toLowerCase (Verification.goodVerify v)) = true)) /\
    (forall v1 v2,
        In v1 (DeepThinkResult.verifications r) ->
        In v2 (DeepThinkResult.verifications r) ->
        Verification.goodVerify v1 = Verification.goodVerify v2 ->
        Verification.passed v1 = Verification.passed v2) /\
    (forall it,
        In it (DeepThinkResult.iterations r) ->
        In (DeepThinkIteration.verification it)
          (DeepThinkResult.verifications r)).
Proof.
  intros env P options r w' H.
  destruct (run_Ok _ _ _ _ _ _ H) as ([Hv Hs] & _).
  rewrite Forall_forall in Hv. unfold derivedFromVerdict, saysYes in Hv.
  split; [|split].
  - intros v Hin. rewrite (Hv v Hin). reflexivity.
  - intros v1 v2 H1 H2 Heq. rewrite (Hv v1 H1), (Hv v2 H2), Heq. reflexivity.
  - intros it Hin. rewrite <- Hs. apply in_map, Hin.
Qed.

Lemma verification_passed_from_verdict_witness :
  exists r w',
    DeepThinkEngine.run (Scenario.replying "YES, it is correct.")
      Scenario.prompts (Scenario.options None None None) World.initial
    = (Ok r, w') /\
    List.length (DeepThinkResult.verifications r) = 2%nat /\
    (forall v,
        In v (DeepThinkResult.verifications r) ->
        (Verification.passed v = true <->
         includes "yes" (toLowerCase (Verification.goodVerify v)) = true)).
Proof.
  eexists _, _. split; [vm_compute; reflexivity|].
  split; [reflexivity|].
  refine (proj1 (verification_passed_from_verdict
                   (Scenario.replying "YES, it is correct.")
                   Scenario.prompts (Scenario.options None None None)
                   _ _ _)).
  vm_compute. reflexivity.
Defined.

(* ================================================================== *)
(** ** C9 and C3: giving up on errors *)

(** C9.  For every single-agent run that terminates by reaching the
    maxErrorsBeforeGiveUp threshold (it emitted the failure "Too many
    errors") in a loop pass before the last one that maxIterations allows,
    the returned DeepThinkResult reports totalIterations equal to
    maxIterations, although the number of recorded Iteration entries, which
    is the index of that pass plus one, is strictly smaller. *)
Theorem gave_up_reports_maxIterations :
  forall (env : Env.t) (P : Prompts.t) (options : DeepThinkOptions.t)
         (r : DeepThinkResult.t) (w' : World.t) (it : DeepThinkIteration.t),
    DeepThinkEngine.run env P options World.initial = (Ok r, w') ->
    In (EFailure "Too many errors") (World.events w') ->
    lastIteration (DeepThinkResult.iterations r) = Some it ->
    DeepThinkIteration.iteration it + 1
    < DeepThinkEngine.maxIterations options ->
    DeepThinkResult.totalIterations r = DeepThinkEngine.maxIterations options
    /\
    Z.of_nat (List.length (DeepThinkResult.iterations r))
    = DeepThinkIteration.iteration it + 1 /\
    Z.of_nat (List.length (DeepThinkResult.iterations r))
    < DeepThinkResult.totalIterations r.
Proof.
  intros env P options r w' it H Hin Hlast Hbefore.
  destruct (run_Ok _ _ _ _ _ _ H) as (_ & Hd & failures & Hf & _ & _ & Htot).
  assert (Hne : failures <> []).
  { intros ->. simpl in Hf.
    assert (Hin' : In (EFailure "Too many errors")
                     (filter isFailure (World.events w')))
      by (apply filter_In; split; [exact Hin | reflexivity]).
    rewrite Hf in Hin'. exact Hin'. }
  rewrite (Htot Hne). pose proof (dense_last _ _ Hd Hlast). lia.
Qed.

Lemma gave_up_reports_maxIterations_witness :
  exists r w' it,
    DeepThinkEngine.run (Scenario.replying "No.") Scenario.prompts
      (Scenario.options (Some 5) (Some 2) (Some 3)) World.initial
    = (Ok r, w') /\
    lastIteration (DeepThinkResult.iterations r) = Some it /\
    DeepThinkIteration.iteration it = 2 /\
    DeepThinkResult.totalIterations r = 5 /\
    Z.of_nat (List.length (DeepThinkResult.iterations r))
    = DeepThinkIteration.iteration it + 1 /\
    Z.of_nat (List.length (DeepThinkResult.iterations r))
    < DeepThinkResult.totalIterations r.
Proof.
  eexists _, _, _. split; [vm_compute; reflexivity|].
  split; [vm_compute; reflexivity|].
  split; [reflexivity|].
  refine (gave_up_reports_maxIterations
            (Scenario.replying "No.") Scenario.prompts
            (Scenario.options (Some 5) (Some 2) (Some 3)) _ _ _ _ _ _ _).
  - vm_compute. reflexivity.
  - vm_compute. tauto.
  - vm_compute. reflexivity.
  - vm_compute. reflexivity.
Defined.

(** C3 (what the code does).  Every single-agent run that gives up on
    errors emits two failure events, "Too many errors" and then "Max
    iterations reached": the [break] leaves the loop for the statements
    that report exhaustion. *)
Theorem gave_up_emits_two_failures :
  forall (env : Env.t) (P : Prompts.t) (options : DeepThinkOptions.t)
         (r : DeepThinkResult.t) (w' : World.t),
    DeepThinkEngine.run env P options World.initial = (Ok r, w') ->
    In (EFailure "Too many errors") (World.events w') ->
    filter isFailure (World.events w')
    = [EFailure "Too many errors"; EFailure "Max iterations reached"] /\
    failureEvents w' = 2%nat.
Proof.
  intros env P options r w' H Hin.
  destruct (run_Ok _ _ _ _ _ _ H) as (_ & _ & failures & Hf & Ht & _).
  simpl in Hf. unfold failureEvents. rewrite Hf.
  assert (Hin' : In (EFailure "Too many errors") failures).
  { rewrite <- Hf. apply filter_In. split; [exact Hin | reflexivity]. }
  destruct Ht; simpl in Hin'.
  - contradiction.
  - destruct Hin' as [Hx|[]]. discriminate.
  - split; reflexivity.
Qed.

Lemma gave_up_emits_two_failures_witness :
  exists r w',
    DeepThinkEngine.run (Scenario.replying "No.") Scenario.prompts
      (Scenario.options None None (Some 1)) World.initial = (Ok r, w') /\
    World.events w'
    = [EInit "2 + 2 = ?"; EThinking 0 "initial-exploration";
       ESolution "No." 0; EThinking 0 "self-improvement"; ESolution "No." 0;
       EProgress "Verifying solution..."; EVerification false 0;
       EFailure "Too many errors"; EFailure "Max iterations reached"] /\
    failureEvents w' = 2%nat.
Proof.
  eexists _, _. split; [vm_compute; reflexivity|].
  split; [reflexivity|].
  refine (proj2 (gave_up_emits_two_failures
                   (Scenario.replying "No.") Scenario.prompts
                   (Scenario.options None None (Some 1)) _ _ _ _)).
  - vm_compute. reflexivity.
  - vm_compute. tauto.
Defined.

(* ================================================================== *)
(** ** The multi-agent engine *)

Section AgentFacts.
Variable agentEnv : nat -> Env.t.
Variable P : Prompts.t.
Variable options : UltraThinkOptions.t.
Variable problem : string.

Lemma onProgress_identity event st :
  AgentResult.agentId (fst (UltraThinkEngine.onProgress event st))
  = AgentResult.agentId (fst st) /\
  AgentResult.approach (fst (UltraThinkEngine.onProgress event st))
  = AgentResult.approach (fst st) /\
  AgentResult.specificPrompt (fst (UltraThinkEngine.onProgress event st))
  = AgentResult.specificPrompt (fst st).
Proof. destruct st as [result updates], event; simpl; auto. Qed.

Lemma handled_identity events st :
  let st' := fold_left (fun st event => UltraThinkEngine.onProgress event st)
               events st in
  AgentResult.agentId (fst st') = AgentResult.agentId (fst st) /\
  AgentResult.approach (fst st') = AgentResult.approach (fst st) /\
  AgentResult.specificPrompt (fst st')
  = AgentResult.specificPrompt (fst st).
Proof.
  revert st; induction events as [|e events IH]; intros st; simpl; auto.
  destruct (IH (UltraThinkEngine.onProgress e st)) as (A & B & C).
  destruct (onProgress_identity e st) as (A' & B' & C').
  simpl in *. rewrite A, B, C. auto.
Qed.

Lemma runAgent_identity aenv config :
  let result := fst (UltraThinkEngine.runAgent P options aenv config problem) in
  AgentResult.agentId result = AgentConfig.agentId config /\
  AgentResult.approach result = AgentConfig.approach config /\
  AgentResult.specificPrompt result = AgentConfig.specificPrompt config.
Proof.
  unfold UltraThinkEngine.runAgent.
  destruct (DeepThinkEngine.run _ _ _ _) as [outcome w].
  match goal with
  | |- context [fold_left ?f ?evs ?st] =>
      pose proof (handled_identity evs st) as H;
      destruct (fold_left f evs st) as [result updates]
  end.
  simpl in H. destruct outcome; simpl; exact H.
Qed.

Lemma runAgent_thrown aenv config e w :
  DeepThinkEngine.run aenv P
    (UltraThinkEngine.agentOptions options config problem) World.initial
  = (Throw e, w) ->
  let result := fst (UltraThinkEngine.runAgent P options aenv config problem) in
  AgentResult.status result = Failed /\
  AgentResult.error result = Some (UltraThinkEngine.errorMessage e).
Proof.
  intros H. unfold UltraThinkEngine.runAgent. rewrite H.
  destruct (fold_left _ _ _) as [result updates]. simpl. auto.
Qed.

Lemma runAgents_nth position selected j :
  nth_error (UltraThinkEngine.runAgents agentEnv P options position selected
               problem) j
  = option_map
      (fun config =>
         fst (UltraThinkEngine.runAgent P options (agentEnv (position + j))
                config problem))
      (nth_error selected j).
Proof.
  revert position j; induction selected as [|c selected IH];
    intros position j; simpl.
  - destruct j; reflexivity.
  - destruct j as [|j]; simpl.
    + rewrite Nat.add_0_r. reflexivity.
    + rewrite IH. rewrite Nat.add_succ_r. reflexivity.
Qed.

Lemma runAgents_length position selected :
  List.length (UltraThinkEngine.runAgents agentEnv P options position selected
                 problem)
  = List.length selected.
Proof.
  revert position; induction selected as [|c selected IH]; intros; simpl;
    [reflexivity | now rewrite IH].
Qed.

Lemma runAgents_ids position selected :
  map AgentResult.agentId
    (UltraThinkEngine.runAgents agentEnv P options position selected problem)
  = map AgentConfig.agentId selected.
Proof.
  revert position; induction selected as [|c selected IH]; intros; simpl;
    [reflexivity|].
  rewrite IH. f_equal. apply runAgent_identity.
Qed.
End AgentFacts.

(** Another dispatch in which the agent at [j] gets the same replies. *)
Lemma runAgents_only_own_replies agentEnv agentEnv' P options problem :
  forall selected position j,
    agentEnv' (position + j)%nat = agentEnv (position + j)%nat ->
    nth_error (UltraThinkEngine.runAgents agentEnv' P options position
                 selected problem) j
    = nth_error (UltraThinkEngine.runAgents agentEnv P options position
                   selected problem) j.
Proof. intros. rewrite !runAgents_nth, H. reflexivity. Qed.

Section UltraFacts.
Variable env : Env.t.
Variable agentEnv : nat -> Env.t.
Variable P : Prompts.t.
Variable JSON_parse : string -> string + Json.
Variable nullMemberMessage : string.
Variable options : UltraThinkOptions.t.

Lemma ultra_run_Finished w r w' :
  UltraThinkEngine.run env agentEnv P JSON_parse nullMemberMessage options w
  = (Ok (UltraThinkEngine.Finished r), w') ->
  let problem :=
    DeepThinkOptions.problemStatement (UltraThinkOptions.base options) in
  exists plan w1 value w2 configs,
    UltraThinkEngine.generatePlan env P options problem
      (snd (emit (EInit problem) w)) = (Ok plan, w1) /\
    UltraThinkEngine.generateAgentConfigs env P JSON_parse nullMemberMessage
      options plan w1 = (Ok value, w2) /\
    asConfigs value = Some configs /\
    UltraThinkResult.plan r = plan /\
    UltraThinkResult.agentResults r
    = UltraThinkEngine.runAgents agentEnv P options O
        (UltraThinkEngine.selectConfigs options configs) problem /\
    UltraThinkResult.totalAgents r
    = Z.of_nat (List.length (UltraThinkEngine.selectConfigs options configs))
    /\
    UltraThinkResult.completedAgents r
    = UltraThinkEngine.countCompleted (UltraThinkResult.agentResults r) /\
    UltraThinkResult.finalSolution r = UltraThinkResult.synthesis r /\
    lastEvent (World.events w')
    = Some (ESuccess (UltraThinkResult.synthesis r) 1).
Proof.
  intros H problem. unfold UltraThinkEngine.run in H. fold problem in H.
  unfold bind at 1 in H. unfold emit at 1 in H.
  unfold bind at 1 in H.
  destruct (UltraThinkEngine.generatePlan env P options problem _)
    as [[plan|e] w1] eqn:Hplan; [|discriminate].
  unfold bind at 1 in H.
  destruct (UltraThinkEngine.generateAgentConfigs _ _ _ _ _ _ _)
    as [[value|e] w2] eqn:Hcfg; [|discriminate].
  destruct (asConfigs value) as [configs|] eqn:Has; [|discriminate].
  unfold_monad_in H. split_outcomes H. pair_inv H.
  exists plan, w1, value, w2, configs. simpl.
  repeat split; auto. apply lastEvent_snoc.
Qed.

End UltraFacts.

Lemma sliceTo_firstn {A} (m : Z) (xs : list A) :
  0 <= m <= Z.of_nat (List.length xs) ->
  sliceTo m xs = firstn (Z.to_nat m) xs /\
  Z.of_nat (List.length (sliceTo m xs)) = m.
Proof.
  intros H. unfold sliceTo.
  replace (m <? 0) with false by (symmetry; apply Z.ltb_ge; lia).
  rewrite Z.min_l by lia. split; [reflexivity|].
  rewrite length_firstn. lia.
Qed.

Lemma errorMessage_nonempty e :
  (forall message, e = ThrownError message -> message <> EmptyString) ->
  UltraThinkEngine.errorMessage e <> EmptyString.
Proof.
  destruct e as [message|]; simpl; intros H.
  - apply H. reflexivity.
  - discriminate.
Qed.

(* ================================================================== *)
(** ** C4: isolation of a failing agent *)

(** C4 (amended).  In every multi-agent run, if one agent's underlying
    DeepThinkEngine.run throws, that agent's AgentResult ends with status
    "failed" and with the message of the thrown Error as its error, or
    "Unknown error" when the thrown value is not an Error: the error is
    non-empty unless an Error with an empty message was thrown.  The sibling
    agents are not aborted: every dispatched agent has its result, which is
    what its own engine produces from its own replies, whatever the other
    agents do.  The returned UltraThinkResult's completedAgents counts
    exactly the AgentResults whose final status is "completed". *)
Theorem agent_failure_is_isolated :
  forall (env : Env.t) (agentEnv : nat -> Env.t) (P : Prompts.t)
         (JSON_parse : string -> string + Json) (nullMemberMessage : string)
         (options : UltraThinkOptions.t) (w : World.t)
         (r : UltraThinkResult.t) (w' : World.t),
    UltraThinkEngine.run env agentEnv P JSON_parse nullMemberMessage options w
    = (Ok (UltraThinkEngine.Finished r), w') ->
    exists selected,
      dispatched agentEnv P options r selected /\
      isolated agentEnv P options r selected.
Proof.
  intros env agentEnv P JSON_parse nullMemberMessage options w r w' H.
  destruct (ultra_run_Finished _ _ _ _ _ _ _ _ _ H)
    as (plan & w1 & value & w2 & configs & _ & _ & _ & _ & Hres & Htot
        & Hdone & _).
  exists (UltraThinkEngine.selectConfigs options configs).
  split; [|split; [|split; [|split]]].
  - split; [exact Hres|]. split; [|exact Htot].
    rewrite Hres. apply runAgents_ids.
  - rewrite Hres. apply runAgents_length.
  - intros i config e Hi [w0 Hthrow].
    rewrite Hres, runAgents_nth, Hi. simpl.
    eexists. split; [reflexivity|].
    destruct (runAgent_thrown P options _ _ _ _ _ Hthrow) as [Hs He].
    split; [exact Hs|]. split; [exact He|]. apply errorMessage_nonempty.
  - intros j config Hj. split.
    + rewrite Hres, runAgents_nth, Hj. reflexivity.
    + intros agentEnv' Hsame. rewrite Hres.
      apply (runAgents_only_own_replies agentEnv agentEnv' P options _ _ O j).
      exact Hsame.
  - rewrite Hdone. reflexivity.
Qed.

Lemma agent_failure_is_isolated_witness :
  exists r w',
    UltraThinkEngine.run (Scenario.planning Scenario.twoConfigs "Final.")
      (Scenario.firstAgentFails (ThrownError "rate limited") "Yes.")
      Scenario.prompts JsonFragment.parse Scenario.nullMemberMessage
      (Scenario.ultraOptions None) World.initial
    = (Ok (UltraThinkEngine.Finished r), w') /\
    map AgentResult.status (UltraThinkResult.agentResults r)
    = [Failed; Completed] /\
    map AgentResult.error (UltraThinkResult.agentResults r)
    = [Some "rate limited"; None] /\
    UltraThinkResult.completedAgents r = 1 /\
    exists selected,
      dispatched
        (Scenario.firstAgentFails (ThrownError "rate limited") "Yes.")
        Scenario.prompts (Scenario.ultraOptions None) r selected /\
      isolated
        (Scenario.firstAgentFails (ThrownError "rate limited") "Yes.")
        Scenario.prompts (Scenario.ultraOptions None) r selected.
Proof.
  eexists _, _. split; [vm_compute; reflexivity|].
  split; [reflexivity|]. split; [reflexivity|]. split; [reflexivity|].
  eapply (agent_failure_is_isolated
            (Scenario.planning Scenario.twoConfigs "Final.")
            (Scenario.firstAgentFails (ThrownError "rate limited") "Yes.")
            Scenario.prompts JsonFragment.parse Scenario.nullMemberMessage
            (Scenario.ultraOptions None) World.initial).
  vm_compute. reflexivity.
Defined.

(** C4, as worded, when the engine of the first agent throws an Error
    whose message is empty: the agent ends "failed" with an empty error. *)
Lemma agent_failure_counterexample :
  agentThrows (Scenario.firstAgentFails (ThrownError EmptyString) "Yes.")
    Scenario.prompts (Scenario.ultraOptions None)
    O (AgentConfig.mk "agent_01" "direct" "Compute it.")
    (ThrownError EmptyString) /\
  match UltraThinkEngine.run (Scenario.planning Scenario.twoConfigs "Final.")
          (Scenario.firstAgentFails (ThrownError EmptyString) "Yes.")
          Scenario.prompts JsonFragment.parse Scenario.nullMemberMessage
          (Scenario.ultraOptions None) World.initial
  with
  | (Ok (UltraThinkEngine.Finished r), _) =>
      map AgentResult.agentId (UltraThinkResult.agentResults r)
      = ["agent_01"; "agent_02"] /\
      map AgentResult.status (UltraThinkResult.agentResults r)
      = [Failed; Completed] /\
      map AgentResult.error (UltraThinkResult.agentResults r)
      = [Some EmptyString; None]
  | _ => False
  end.
Proof.
  split.
  - eexists. vm_compute. reflexivity.
  - vm_compute. repeat split.
Qed.

(* ================================================================== *)
(** ** C7: selection of the configurations *)

(** C7 (amended).  For every planned configuration list of length P and
    every configured maximum agent count M with 1 <= M < P, the multi-agent
    run dispatches exactly the first M configurations in generation order
    and sets totalAgents = M; when no maximum is configured, all P
    configurations are dispatched and totalAgents = P. *)
Theorem selection_takes_first_configs :
  forall (env : Env.t) (agentEnv : nat -> Env.t) (P : Prompts.t)
         (JSON_parse : string -> string + Json) (nullMemberMessage : string)
         (options : UltraThinkOptions.t) (w : World.t)
         (r : UltraThinkResult.t) (w' : World.t),
    UltraThinkEngine.run env agentEnv P JSON_parse nullMemberMessage options w
    = (Ok (UltraThinkEngine.Finished r), w') ->
    exists configs w2,
      planned env P JSON_parse nullMemberMessage options w configs w2 /\
      (forall M,
          UltraThinkOptions.numAgents options = Some M ->
          1 <= M < Z.of_nat (List.length configs) ->
          dispatched agentEnv P options r (firstn (Z.to_nat M) configs) /\
          UltraThinkResult.totalAgents r = M) /\
      (UltraThinkOptions.numAgents options = None ->
       dispatched agentEnv P options r configs /\
       UltraThinkResult.totalAgents r = Z.of_nat (List.length configs)).
Proof.
  intros env agentEnv P JSON_parse nullMemberMessage options w r w' H.
  destruct (ultra_run_Finished _ _ _ _ _ _ _ _ _ H)
    as (plan & w1 & value & w2 & configs & Hplan & Hcfg & Has & _ & Hres
        & Htot & _).
  exists configs, w2. split; [exists plan, w1, value; auto|].
  assert (Hd : dispatched agentEnv P options r
                 (UltraThinkEngine.selectConfigs options configs)).
  { split; [exact Hres|]. split; [|exact Htot].
    rewrite Hres. apply runAgents_ids. }
  unfold UltraThinkEngine.selectConfigs in *.
  split.
  - intros M HM Hrange. rewrite HM in *.
    replace (M =? 0) with false in * by (symmetry; apply Z.eqb_neq; lia).
    destruct (sliceTo_firstn M configs) as [Hs Hl]; [lia|].
    rewrite Htot, Hl. rewrite Hs in Hd. split; [exact Hd | reflexivity].
  - intros HM. rewrite HM in *. split; [exact Hd | exact Htot].
Qed.

Lemma selection_takes_first_configs_witness :
  exists r w',
    UltraThinkEngine.run (Scenario.planning Scenario.twoConfigs "Final.")
      (fun _ => Scenario.replying "Yes.")
      Scenario.prompts JsonFragment.parse Scenario.nullMemberMessage
      (Scenario.ultraOptions (Some 1)) World.initial
    = (Ok (UltraThinkEngine.Finished r), w') /\
    UltraThinkResult.totalAgents r = 1 /\
    map AgentResult.agentId (UltraThinkResult.agentResults r) = ["agent_01"]
    /\
    exists configs w2,
      planned (Scenario.planning Scenario.twoConfigs "Final.")
        Scenario.prompts JsonFragment.parse Scenario.nullMemberMessage
        (Scenario.ultraOptions (Some 1)) World.initial configs w2 /\
      (forall M,
          UltraThinkOptions.numAgents (Scenario.ultraOptions (Some 1))
          = Some M ->
          1 <= M < Z.of_nat (List.length configs) ->
          dispatched (fun _ => Scenario.replying "Yes.") Scenario.prompts
            (Scenario.ultraOptions (Some 1)) r (firstn (Z.to_nat M) configs)
          /\ UltraThinkResult.totalAgents r = M) /\
      (UltraThinkOptions.numAgents (Scenario.ultraOptions (Some 1)) = None ->
       dispatched (fun _ => Scenario.replying "Yes.") Scenario.prompts
         (Scenario.ultraOptions (Some 1)) r configs /\
       UltraThinkResult.totalAgents r = Z.of_nat (List.length configs)).
Proof.
  eexists _, _. split; [vm_compute; reflexivity|].
  split; [reflexivity|]. split; [reflexivity|].
  eapply (selection_takes_first_configs
            (Scenario.planning Scenario.twoConfigs "Final.")
            (fun _ => Scenario.replying "Yes.")
            Scenario.prompts JsonFragment.parse Scenario.nullMemberMessage
            (Scenario.ultraOptions (Some 1)) World.initial).
  vm_compute. reflexivity.
Defined.

(** C7, as worded, at the maximum M = 0 (and at M = -1) with P = 2 planned
    configurations: both configurations are dispatched for M = 0, and one
    for M = -1; totalAgents is 2 and 1. *)
Lemma selection_counterexample :
  match UltraThinkEngine.run (Scenario.planning Scenario.twoConfigs "Final.")
          (fun _ => Scenario.replying "Yes.")
          Scenario.prompts JsonFragment.parse Scenario.nullMemberMessage
          (Scenario.ultraOptions (Some 0)) World.initial,
        UltraThinkEngine.run (Scenario.planning Scenario.twoConfigs "Final.")
          (fun _ => Scenario.replying "Yes.")
          Scenario.prompts JsonFragment.parse Scenario.nullMemberMessage
          (Scenario.ultraOptions (Some (-1))) World.initial
  with
  | (Ok (UltraThinkEngine.Finished r), _),
    (Ok (UltraThinkEngine.Finished r'), _) =>
      0 < Z.of_nat (List.length Scenario.twoConfigs) /\
      map AgentResult.agentId (UltraThinkResult.agentResults r)
      = ["agent_01"; "agent_02"] /\
      UltraThinkResult.totalAgents r = 2 /\
      UltraThinkResult.totalAgents r <> 0 /\
      map AgentResult.agentId (UltraThinkResult.agentResults r')
      = ["agent_01"] /\
      UltraThinkResult.totalAgents r' = 1 /\
      UltraThinkResult.totalAgents r' <> -1
  | _, _ => False
  end.
Proof. vm_compute. repeat split; discriminate. Qed.

(* ================================================================== *)
(** ** C10: the orchestration ends in success *)

Section AfterJoin.
Variable env : Env.t.
Variable agentEnv : nat -> Env.t.
Variable P : Prompts.t.
Variable JSON_parse : string -> string + Json.
Variable nullMemberMessage : string.
Variable options : UltraThinkOptions.t.

End AfterJoin.



(* ================================================================== *)
(** ** C6: the textual fallback of generateAgentConfigs *)

(** The fallback path: taken when the structured generation throws; its
    outcome is that of [parseConfigs] on the text without its fence, and a
    parse error is reported with the first 200 characters of that text. *)
Lemma generateAgentConfigs_fallback env P JSON_parse nullMemberMessage
    options plan w handle e text :
  Env.createModelProvider env (World.clock w)
    (UltraThinkEngine.getModelForStage options StAgentConfig) = Ok handle ->
  Env.generateObject env (S (World.clock w))
    (Request.mk handle None
       (Some (replace "{plan}" plan (Prompts.generateAgentPromptsPrompt P)))
       [] None None) = Throw e ->
  Env.generateText env (S (S (World.clock w)))
    (Request.mk handle None
       (Some (replace "{plan}" plan (Prompts.generateAgentPromptsPrompt P)))
       [] None None) = Ok text ->
  fst (UltraThinkEngine.generateAgentConfigs env P JSON_parse
         nullMemberMessage options plan w)
  = match UltraThinkEngine.parseConfigs JSON_parse nullMemberMessage
            (UltraThinkEngine.stripFence text) with
    | inr value => Ok value
    | inl message =>
        Throw (ThrownError
                 ("Failed to parse agent configurations. Original error: "
                  ++ message ++ ". " ++ "Response text: "
                  ++ substring2 0 200 (UltraThinkEngine.stripFence text)
                  ++ "..."))
    end.
Proof.
  intros Hprov Hobj Htext.
  unfold UltraThinkEngine.generateAgentConfigs. unfold_monad.
  cbn [World.clock]. rewrite Hprov.
  cbn [logCall tick World.clock]. rewrite Hobj.
  cbn [logCall tick World.clock]. rewrite Htext.
  destruct (UltraThinkEngine.parseConfigs _ _ _); reflexivity.
Qed.

(** C6 (what the code does).  When the structured invocation fails and the
    free-text reply is a fenced JSON object whose list is not under the
    member "configs", generateAgentConfigs strips the fence, parses the
    text, and hands back the object itself: a value that is not a list of
    AgentConfig, without a diagnostic error. *)
Theorem fallback_yields_non_list :
  match UltraThinkEngine.generateAgentConfigs
          (Scenario.replying Scenario.agentsObjectText) Scenario.prompts
          JsonFragment.parse Scenario.nullMemberMessage
          (Scenario.ultraOptions None) "the plan" World.initial
  with
  | (Ok value, w) =>
      callsFrom SiteAgentConfig w = 1%nat /\
      callsFrom SiteAgentConfigText w = 1%nat /\
      value
      = JObject
          [("agents",
            encodeConfigs [AgentConfig.mk "agent_01" "direct" "Compute it."])]
      /\ isArray value = false /\
      asConfigs value = None
  | (Throw _, _) => False
  end.
Proof. vm_compute. repeat split. Qed.

(* ================================================================== *)
(** ** Every outcome of a run: appended events and calls *)

Section Appends.
Variable QE : ProgressEvent -> Prop.
Variable QC : CallSite * Request.t -> Prop.

Lemma appends_ret {A} (a : A) : appends QE QC (ret a).
Proof. intros w. exists [], []. simpl. rewrite !app_nil_r. auto. Qed.

Lemma appends_throw {A} e : appends QE QC (@throw A e).
Proof. intros w. exists [], []. simpl. rewrite !app_nil_r. auto. Qed.

Lemma appends_emit e : QE e -> appends QE QC (emit e).
Proof.
  intros H w. exists [e], []. simpl. rewrite app_nil_r. auto.
Qed.

Lemma appends_createModelProvider env model :
  appends QE QC (createModelProvider env model).
Proof. intros w. exists [], []. simpl. rewrite !app_nil_r. auto. Qed.

Lemma appends_dateNow env : appends QE QC (dateNow env).
Proof. intros w. exists [], []. simpl. rewrite !app_nil_r. auto. Qed.

Lemma appends_generateText env site r :
  QC (site, r) -> appends QE QC (generateText env site r).
Proof.
  intros H w. exists [], [(site, r)]. simpl. rewrite app_nil_r. auto.
Qed.

Lemma appends_generateObject env site r :
  QC (site, r) -> appends QE QC (generateObject env site r).
Proof.
  intros H w. exists [], [(site, r)]. simpl. rewrite app_nil_r. auto.
Qed.

Lemma appends_bind {A B} (m : M A) (k : A -> M B) :
  appends QE QC m -> (forall a, appends QE QC (k a)) ->
  appends QE QC (bind m k).
Proof.
  intros Hm Hk w. unfold bind.
  destruct (Hm w) as (evs & cs & He & Hc & HE & HC).
  destruct (m w) as [[a|e] w1]; simpl in *.
  - destruct (Hk a w1) as (evs' & cs' & He' & Hc' & HE' & HC').
    exists (evs ++ evs')%list, (cs ++ cs')%list.
    rewrite He', Hc', He, Hc, !app_assoc.
    repeat split; auto; apply Forall_app; auto.
  - exists evs, cs. auto.
Qed.

Lemma appends_tryCatch {A} (m : M A) (h : Thrown -> M A) :
  appends QE QC m -> (forall e, appends QE QC (h e)) ->
  appends QE QC (tryCatch m h).
Proof.
  intros Hm Hh w. unfold tryCatch.
  destruct (Hm w) as (evs & cs & He & Hc & HE & HC).
  destruct (m w) as [[a|e] w1]; simpl in *.
  - exists evs, cs. auto.
  - destruct (Hh e w1) as (evs' & cs' & He' & Hc' & HE' & HC').
    exists (evs ++ evs')%list, (cs ++ cs')%list.
    rewrite He', Hc', He, Hc, !app_assoc.
    repeat split; auto; apply Forall_app; auto.
Qed.
End Appends.

Lemma throwsQuietly_ret {A} (a : A) : throwsQuietly (ret a).
Proof. intros w e w' H. discriminate. Qed.

Lemma throwsQuietly_throw {A} e : throwsQuietly (@throw A e).
Proof.
  intros w e' w' H. injection H as _ <-. exists []. rewrite app_nil_r. auto.
Qed.

Lemma throwsQuietly_bind {A B} (m : M A) (k : A -> M B) :
  appends silent (fun _ => True) m ->
  (forall a, throwsQuietly (k a)) ->
  throwsQuietly (bind m k).
Proof.
  intros Hm Hk w e w' H. unfold bind in H.
  destruct (Hm w) as (evs & cs & He & _ & HE & _).
  destruct (m w) as [[a|e0] w1]; simpl in *.
  - destruct (Hk a w1 e w' H) as (evs' & He' & HE').
    exists (evs ++ evs')%list. rewrite He', He, app_assoc.
    split; auto. apply Forall_app; auto.
  - injection H as _ <-. exists evs. auto.
Qed.

(** A computation that is followed by steps that cannot throw. *)
Lemma throwsQuietly_bind_total {A B} (m : M A) (k : A -> M B) :
  throwsQuietly m ->
  (forall a w, exists b w', k a w = (Ok b, w')) ->
  throwsQuietly (bind m k).
Proof.
  intros Hm Hk w e w' H. unfold bind in H.
  destruct (m w) as [[a|e0] w1] eqn:E.
  - destruct (Hk a w1) as (b & w2 & E2). rewrite E2 in H. discriminate H.
  - injection H as <- <-. exact (Hm w e0 w1 E).
Qed.

(** The last emission of a branch that cannot throw afterwards. *)
Lemma throwsQuietly_emit_ret {A} event (a : A) :
  throwsQuietly (bind (emit event) (fun _ => ret a)).
Proof. intros w e w' H. discriminate. Qed.

Lemma appends_weaken (QE QE' : ProgressEvent -> Prop)
    (QC QC' : CallSite * Request.t -> Prop) {A} (m : M A) :
  (forall e, QE e -> QE' e) -> (forall c, QC c -> QC' c) ->
  appends QE QC m -> appends QE' QC' m.
Proof.
  intros HE HC Hm w. destruct (Hm w) as (evs & cs & He & Hc & H1 & H2).
  exists evs, cs. repeat split; auto.
  - eapply Forall_impl; [exact HE | exact H1].
  - eapply Forall_impl; [exact HC | exact H2].
Qed.

Ltac appends_step :=
  first
    [ apply appends_ret
    | apply appends_throw
    | apply appends_createModelProvider
    | apply appends_dateNow
    | apply appends_emit; repeat split; reflexivity
    | apply appends_generateText; split; reflexivity
    | apply appends_generateObject; split; reflexivity
    | apply appends_bind; [|intros ?]
    | match goal with
      | |- appends _ _ (if ?b then _ else _) => destruct b
      | |- appends _ _ (match ?x with _ => _ end) => destruct x
      end ].

Section EngineAppends.
Variable env : Env.t.
Variable P : Prompts.t.
Variable options : DeepThinkOptions.t.

Lemma verifySolution_appends problem sol :
  appends quietEvent (augmentedBySite options)
    (DeepThinkEngine.verifySolution env P options problem sol).
Proof. unfold DeepThinkEngine.verifySolution. repeat appends_step. Qed.

Lemma initialExploration_appends problem others :
  appends quietEvent (augmentedBySite options)
    (DeepThinkEngine.initialExploration env P options problem others).
Proof.
  unfold DeepThinkEngine.initialExploration.
  repeat first [apply verifySolution_appends | appends_step].
Qed.

Lemma quiet_thinking e : quietEvent e -> thinkingAtZero e.
Proof. intros [H _]. exact H. Qed.

Lemma quiet_silent e : quietEvent e -> silent e.
Proof. intros [_ H]. exact H. Qed.

Lemma pass_appends problem init i st continue :
  (forall st', appends thinkingAtZero (augmentedBySite options)
                 (continue st')) ->
  appends thinkingAtZero (augmentedBySite options)
    (DeepThinkEngine.pass env P options problem init i st continue).
Proof.
  intros Hk. unfold DeepThinkEngine.pass.
  repeat first
    [ apply Hk
    | apply (appends_weaken quietEvent thinkingAtZero
               (augmentedBySite options) (augmentedBySite options));
      [exact quiet_thinking | auto | apply verifySolution_appends]
    | appends_step ].
Qed.

Lemma mainLoop_appends problem init remaining :
  forall i st,
    appends thinkingAtZero (augmentedBySite options)
      (DeepThinkEngine.mainLoop env P options problem init remaining i st).
Proof.
  induction remaining as [|remaining IH]; intros i st; simpl.
  - apply appends_ret.
  - apply pass_appends. intros st'. apply IH.
Qed.

Lemma run_appends :
  appends thinkingAtZero (augmentedBySite options)
    (DeepThinkEngine.run env P options).
Proof.
  unfold DeepThinkEngine.run.
  repeat first
    [ apply mainLoop_appends
    | apply (appends_weaken quietEvent thinkingAtZero
               (augmentedBySite options) (augmentedBySite options));
      [exact quiet_thinking | auto | apply initialExploration_appends]
    | appends_step ].
Qed.
Ltac silent_step :=
  first
    [ apply appends_createModelProvider
    | apply appends_dateNow
    | apply appends_emit; split; reflexivity
    | apply appends_generateText; exact I
    | apply (appends_weaken quietEvent silent
               (augmentedBySite options) (fun _ => True));
      [exact quiet_silent | auto
      | first [apply verifySolution_appends
              |apply initialExploration_appends]] ].

Ltac quiet_step :=
  first
    [ apply throwsQuietly_ret
    | apply throwsQuietly_throw
    | apply throwsQuietly_emit_ret
    | apply throwsQuietly_bind; [silent_step | intros ?]
    | match goal with
      | |- throwsQuietly (if ?b then _ else _) => destruct b
      | |- throwsQuietly (match ?x with _ => _ end) => destruct x
      end ].

Lemma pass_throwsQuietly problem init i st continue :
  (forall st', throwsQuietly (continue st')) ->
  throwsQuietly
    (DeepThinkEngine.pass env P options problem init i st continue).
Proof.
  intros Hk. unfold DeepThinkEngine.pass.
  repeat first [apply Hk | quiet_step].
Qed.

Lemma mainLoop_throwsQuietly problem init remaining :
  forall i st,
    throwsQuietly
      (DeepThinkEngine.mainLoop env P options problem init remaining i st).
Proof.
  induction remaining as [|remaining IH]; intros i st; simpl.
  - apply throwsQuietly_ret.
  - apply pass_throwsQuietly. intros st'. apply IH.
Qed.

Lemma run_throwsQuietly :
  throwsQuietly (DeepThinkEngine.run env P options).
Proof.
  unfold DeepThinkEngine.run.
  apply throwsQuietly_bind; [silent_step | intros _].
  apply throwsQuietly_bind; [silent_step | intros [initial|]];
    [|apply throwsQuietly_throw].
  apply throwsQuietly_bind_total; [apply mainLoop_throwsQuietly|].
  intros [r|st'] w; unfold bind, emit, ret; eexists _, _; reflexivity.
Qed.

Lemma bind_emit {A} event (k : unit -> M A) w :
  bind (emit event) k w = k tt (snd (emit event w)).
Proof. reflexivity. Qed.

Lemma bind_assoc {A B C} (m : M A) (k1 : A -> M B) (k2 : B -> M C) w :
  bind (bind m k1) k2 w = bind m (fun a => bind (k1 a) k2) w.
Proof. unfold bind. destruct (m w) as [[a|e] w1]; reflexivity. Qed.

(** Whatever its outcome, a run starts with its init event and the
    thinking event of the initial exploration. *)
Lemma run_head w :
  exists rest,
    World.events (snd (DeepThinkEngine.run env P options w))
    = (World.events w ++
       EInit (DeepThinkOptions.problemStatement options)
       :: EThinking 0 "initial-exploration" :: rest)%list /\
    Forall thinkingAtZero rest /\
    (forall e w',
        DeepThinkEngine.run env P options w = (Throw e, w') ->
        Forall silent rest).
Proof.
  unfold DeepThinkEngine.run. cbv zeta. rewrite bind_emit. cbv beta.
  unfold DeepThinkEngine.initialExploration.
  rewrite bind_assoc, bind_emit. cbv beta.
  match goal with
  | |- context [snd (?m ?w2)] =>
      assert (Ha : appends thinkingAtZero (augmentedBySite options) m);
      [|assert (Hq : throwsQuietly m);
        [|destruct (Ha w2) as (rest & cs & He & _ & Hz & _);
          pose proof (Hq w2) as Hq2]]
  end.
  - repeat first
      [ apply mainLoop_appends
      | apply (appends_weaken quietEvent thinkingAtZero
                 (augmentedBySite options) (augmentedBySite options));
        [exact quiet_thinking | auto | apply verifySolution_appends]
      | appends_step ].
  - apply throwsQuietly_bind.
    + apply (appends_weaken quietEvent silent
               (augmentedBySite options) (fun _ => True));
        [exact quiet_silent | auto |].
      repeat first [apply verifySolution_appends | appends_step].
    + intros [initial|]; [|apply throwsQuietly_throw].
      apply throwsQuietly_bind_total; [apply mainLoop_throwsQuietly|].
      intros [r|st'] w0; unfold bind, emit, ret; eexists _, _; reflexivity.
  - exists rest.
    split; [rewrite He; simpl; rewrite <- !app_assoc; reflexivity|].
    split; [exact Hz|].
    intros e w' H. destruct (Hq2 e w' H) as (rest' & He' & Hs).
    rewrite H in He. simpl in He. rewrite He in He'.
    apply app_inv_head in He'. subst rest'. exact Hs.
Qed.
End EngineAppends.

(* ================================================================== *)
(** ** Returning runs: the loop pass by pass *)

Section Steps.
Variable env : Env.t.
Variable P : Prompts.t.
Variable options : DeepThinkOptions.t.

Lemma verifySolution_reverified problem sol w verdict w1 :
  DeepThinkEngine.verifySolution env P options problem sol w
  = (Ok verdict, w1) ->
  verdictOk verdict /\
  World.events w1
  = (World.events w ++ [EProgress "Verifying solution..."])%list /\
  exists r1 r2,
    World.calls w1
    = (World.calls w ++ [(SiteVerification, r1); (SiteCheck, r2)])%list.
Proof.
  intros H. unfold DeepThinkEngine.verifySolution in H.
  unfold_monad_in H. split_outcomes H. pair_inv H.
  split.
  - unfold verdictOk. simpl. intros ->. reflexivity.
  - split; [reflexivity|]. eexists _, _. simpl.
    rewrite <- app_assoc. reflexivity.
Qed.

Lemma pass_Ok problem init i st continue w exit w' :
  DeepThinkEngine.pass env P options problem init i st continue w
  = (Ok exit, w') ->
  exists timestamp,
    let v := recordOf timestamp (DeepThinkEngine.verification st) in
    let vs := (DeepThinkEngine.verifications st ++ [v])%list in
    let its :=
      (DeepThinkEngine.iterations st ++
       [entryOf i (DeepThinkEngine.solution st) v])%list in
    let K := DeepThinkEngine.requiredSuccessfulVerifications options in
    let cc := DeepThinkEngine.correctCount st in
    let ec := DeepThinkEngine.errorCount st in
    (* accepted *)
    (Verification.passed v = true /\ K <= cc + 1 /\
     exit = DeepThinkEngine.Returned
              (DeepThinkResult.mk init [] its vs
                 (DeepThinkEngine.solution st) (i + 1) (cc + 1)) /\
     World.events w'
     = (World.events w ++
        [ESuccess (DeepThinkEngine.solution st) (i + 1)])%list /\
     World.calls w' = World.calls w)
    \/
    (* verified again *)
    (Verification.passed v = true /\ cc + 1 < K /\
     exists verdict w1,
       reverified i verdict w w1 /\
       continue (DeepThinkEngine.mkLoop (DeepThinkEngine.solution st)
                   verdict its vs 0 (cc + 1)) w1 = (Ok exit, w'))
    \/
    (* gave up *)
    (Verification.passed v = false /\
     DeepThinkEngine.maxErrorsBeforeGiveUp options <= ec + 1 /\
     exit = DeepThinkEngine.AfterLoop
              (DeepThinkEngine.mkLoop (DeepThinkEngine.solution st)
                 (DeepThinkEngine.verification st) its vs (ec + 1) 0) /\
     World.events w'
     = (World.events w ++ [EFailure "Too many errors"])%list /\
     World.calls w' = World.calls w)
    \/
    (* corrected *)
    (Verification.passed v = false /\
     ec + 1 < DeepThinkEngine.maxErrorsBeforeGiveUp options /\
     exists corrected request wc,
       World.events wc
       = (World.events w ++
          [ECorrection i; ESolution corrected (i + 1)])%list /\
       World.calls wc
       = (World.calls w ++ [(SiteCorrection, request)])%list /\
       ((K <= 0 /\
         exit = DeepThinkEngine.Returned
                  (DeepThinkResult.mk init [] its vs corrected (i + 1) 0) /\
         World.events w'
         = (World.events wc ++ [ESuccess corrected (i + 1)])%list /\
         World.calls w' = World.calls wc)
        \/
        (0 < K /\
         exists verdict w1,
           reverified i verdict wc w1 /\
           continue (DeepThinkEngine.mkLoop corrected verdict its vs
                       (ec + 1) 0) w1 = (Ok exit, w')))).
Proof.
  intros H. unfold DeepThinkEngine.pass in H.
  exists (Env.now env (World.clock w)).
  cbv zeta. unfold entryOf, recordOf. cbn [Verification.passed].
  destruct (saysYes (Verdict.goodVerify (DeepThinkEngine.verification st)))
    eqn:Hyes; simpl negb in H; cbv iota in H; unfold_monad_in H.
  - destruct (_ <=? DeepThinkEngine.correctCount st + 1) eqn:Hk.
    + apply Z.leb_le in Hk. pair_inv H. left. repeat split; auto.
    + apply Z.leb_gt in Hk. right. left. split_outcomes H.
      match goal with
      | Hx : DeepThinkEngine.verifySolution _ _ _ _ _ _ = _ |- _ =>
          apply verifySolution_reverified in Hx;
          destruct Hx as (Hok & Hev & r1 & r2 & Hc)
      end.
      split; [reflexivity|]. split; [lia|].
      eexists _, _. split; [|exact H].
      split; [exact Hok|]. simpl. rewrite Hev, <- app_assoc.
      split; [reflexivity|]. exists r1, r2. exact Hc.
  - destruct (_ <=? DeepThinkEngine.errorCount st + 1) eqn:Hm.
    + apply Z.leb_le in Hm. pair_inv H. right. right. left.
      repeat split; auto.
    + apply Z.leb_gt in Hm. right. right. right.
      split; [reflexivity|]. split; [lia|].
      destruct (_ <=? 0) eqn:Hk.
      * apply Z.leb_le in Hk. split_outcomes H. pair_inv H.
        match goal with
        | Hg : Env.generateText _ _ ?request = Ok ?text |- _ =>
            exists text, request,
              (World.mk 0
                 (World.events w ++ [ECorrection i; ESolution text (i + 1)])
                 (World.calls w ++ [(SiteCorrection, request)]))
        end.
        simpl. split; [reflexivity|]. split; [reflexivity|]. left.
        rewrite <- !app_assoc. simpl. repeat split; auto.
      * apply Z.leb_gt in Hk. split_outcomes H.
        match goal with
        | Hx : DeepThinkEngine.verifySolution _ _ _ _ _ _ = _ |- _ =>
            apply verifySolution_reverified in Hx;
            destruct Hx as (Hok & Hev & r1 & r2 & Hc)
        end.
        match type of Hev with
        | _ = (World.events ?wc ++ _)%list =>
            match goal with
            | Hg : Env.generateText _ _ ?request = Ok ?text |- _ =>
                exists text, request, wc
            end
        end.
        simpl. split; [rewrite <- app_assoc; reflexivity|].
        split; [reflexivity|]. right. split; [lia|].
        eexists _, _. split; [|exact H].
        split; [exact Hok|]. simpl. rewrite Hev. simpl.
        rewrite <- !app_assoc. simpl.
        split; [reflexivity|]. exists r1, r2. rewrite Hc. simpl. reflexivity.
Qed.
End Steps.

Lemma trailing_snoc {A} (f : A -> bool) xs x :
  trailing f (xs ++ [x]) = if f x then S (trailing f xs) else O.
Proof. unfold trailing. rewrite rev_unit. reflexivity. Qed.

Lemma forallb_snoc {A} (f : A -> bool) xs x :
  forallb f (xs ++ [x]) = forallb f xs && f x.
Proof. rewrite forallb_app. simpl. rewrite andb_true_r. reflexivity. Qed.

Lemma streak_snoc vs v :
  streak (vs ++ [v])
  = if Verification.passed v
    then match vs with [] => 2 | _ :: _ => streak vs + 1 end
    else 0.
Proof.
  unfold streak. rewrite trailing_snoc, forallb_snoc.
  destruct (Verification.passed v).
  - rewrite andb_true_r. destruct vs as [|v0 vs]; [reflexivity|].
    destruct (forallb _ _); lia.
  - rewrite andb_false_r. reflexivity.
Qed.

Lemma expectedCorrect_snoc pending pending' timestamp vs :
  expectedCorrect pending' (vs ++ [recordOf timestamp pending])
  = if saysYes (Verdict.goodVerify pending)
    then expectedCorrect pending vs + 1
    else 0.
Proof.
  assert (E : expectedCorrect pending' (vs ++ [recordOf timestamp pending])
              = streak (vs ++ [recordOf timestamp pending])).
  { destruct vs; reflexivity. }
  rewrite E, streak_snoc. simpl.
  destruct (saysYes _) eqn:Hyes; [|reflexivity].
  destruct vs; simpl; [rewrite Hyes|]; reflexivity.
Qed.

Section LoopState.
Variable env : Env.t.
Variable P : Prompts.t.
Variable options : DeepThinkOptions.t.
Variables problem initialThought : string.

Lemma loopState_snoc i st timestamp verdict solution ec cc :
  loopState st ->
  verdictOk verdict ->
  cc = (if saysYes (Verdict.goodVerify (DeepThinkEngine.verification st))
        then DeepThinkEngine.correctCount st + 1 else 0) ->
  ec = (if saysYes (Verdict.goodVerify (DeepThinkEngine.verification st))
        then 0 else DeepThinkEngine.errorCount st + 1) ->
  loopState
    (DeepThinkEngine.mkLoop solution verdict
       (DeepThinkEngine.iterations st ++
        [entryOf i (DeepThinkEngine.solution st)
           (recordOf timestamp (DeepThinkEngine.verification st))])
       (DeepThinkEngine.verifications st ++
        [recordOf timestamp (DeepThinkEngine.verification st)])
       ec cc).
Proof.
  intros (Hs & Hb & Hv & Hc & He) Hv' -> ->.
  split; [|split; [|split; [|split]]]; simpl.
  - apply Forall_app. split; [exact Hs|]. constructor; [|constructor].
    reflexivity.
  - apply Forall_app. split; [exact Hb|]. constructor; [|constructor].
    exact Hv.
  - exact Hv'.
  - rewrite expectedCorrect_snoc, Hc. reflexivity.
  - rewrite trailing_snoc. unfold failed at 1. simpl.
    destruct (saysYes _); simpl; lia.
Qed.

Lemma mainLoop_state :
  forall remaining i st w exit w',
    DeepThinkEngine.mainLoop env P options problem initialThought
      remaining i st w = (Ok exit, w') ->
    loopState st ->
    exitState (DeepThinkEngine.requiredSuccessfulVerifications options) exit.
Proof.
  induction remaining as [|remaining IH]; intros i st w exit w' H Hst.
  - simpl in H. unfold ret in H. pair_inv H. exact Hst.
  - simpl in H. apply pass_Ok in H. destruct H as (timestamp & H).
    cbv zeta in H.
    destruct H as [(Hp & Hk & -> & _)
                  |[(Hp & Hk & verdict & w1 & (Hv & _) & H)
                   |[(Hp & Hm & -> & _)
                    |(Hp & Hm & corrected & request & wc & _ & _ &
                      [(Hk & -> & _)|(Hk & verdict & w1 & (Hv & _) & H)])]]].
    + (* accepted *)
      pose proof (loopState_snoc i st timestamp
                    (DeepThinkEngine.verification st) EmptyString 0
                    (DeepThinkEngine.correctCount st + 1) Hst) as Hn.
      simpl in Hp. rewrite Hp in Hn.
      destruct Hn as (Hs & Hb & _ & Hc & _);
        [apply Hst | reflexivity | reflexivity |].
      simpl in Hs, Hb, Hc. simpl.
      split; [exact Hs|]. split; [exact Hb|].
      split; [destruct (DeepThinkEngine.verifications st); discriminate|].
      split.
      { rewrite Hc.
        destruct (DeepThinkEngine.verifications st); reflexivity. }
      split; [exact Hk|].
      eexists. split; [apply lastIteration_snoc|]. simpl.
      split; [reflexivity|]. rewrite Hp. reflexivity.
    + (* verified again *)
      apply IH in H; [exact H|].
      apply loopState_snoc; auto; simpl in Hp; rewrite Hp; reflexivity.
    + (* gave up *)
      apply loopState_snoc; auto; [apply Hst| |];
        simpl in Hp; rewrite Hp; reflexivity.
    + (* corrected, nothing required *)
      pose proof (loopState_snoc i st timestamp
                    (DeepThinkEngine.verification st) EmptyString
                    (DeepThinkEngine.errorCount st + 1) 0 Hst) as Hn.
      simpl in Hp. rewrite Hp in Hn.
      destruct Hn as (Hs & Hb & _ & Hc & _);
        [apply Hst | reflexivity | reflexivity |].
      simpl in Hs, Hb, Hc. simpl.
      split; [exact Hs|]. split; [exact Hb|].
      split; [destruct (DeepThinkEngine.verifications st); discriminate|].
      split.
      { rewrite Hc.
        destruct (DeepThinkEngine.verifications st); reflexivity. }
      split; [exact Hk|].
      eexists. split; [apply lastIteration_snoc|]. simpl.
      split; [reflexivity|]. rewrite Hp. split; [exact Hk | reflexivity].
    + (* corrected and verified *)
      apply IH in H; [exact H|].
      apply loopState_snoc; auto; simpl in Hp; rewrite Hp; reflexivity.
Qed.
End LoopState.

Lemma solutionAfter_cons s event evs :
  solutionAfter s (event :: evs)
  = solutionAfter (match event with ESolution s' _ => s' | _ => s end) evs.
Proof.
  unfold solutionAfter. simpl. destruct (lastSolution evs); [reflexivity|].
  destruct event; reflexivity.
Qed.

Lemma solutionAfter_app s evs evs' :
  solutionAfter s (evs ++ evs') = solutionAfter (solutionAfter s evs) evs'.
Proof.
  revert s. induction evs as [|event evs IH]; intros s; [reflexivity|].
  simpl. rewrite !solutionAfter_cons. apply IH.
Qed.

Lemma countFailed_snoc vs v :
  countFailed (vs ++ [v])
  = (countFailed vs + if Verification.passed v then 0 else 1)%nat.
Proof.
  unfold countFailed. rewrite filter_app, List.length_app. simpl.
  unfold failed. destruct (Verification.passed v); reflexivity.
Qed.

Lemma countSite_cons site call cs :
  countSite site (call :: cs)
  = ((if CallSite_eqb (fst call) site then 1 else 0) + countSite site cs)%nat.
Proof.
  unfold countSite. simpl. destruct (CallSite_eqb _ _); reflexivity.
Qed.

Lemma finishesWith_self tail : finishesWith tail tail.
Proof. exists []. repeat split. Qed.

Lemma finishesWith_cons event evs tail :
  isSuccess event = false -> isFailure event = false ->
  finishesWith evs tail -> finishesWith (event :: evs) tail.
Proof.
  intros Hs Hf (before & -> & H1 & H2). exists (event :: before).
  simpl. rewrite Hs, Hf. repeat split; assumption.
Qed.

Section LoopTrace.
Variable env : Env.t.
Variable P : Prompts.t.
Variable options : DeepThinkOptions.t.
Variables problem initialThought : string.

Ltac trace_arith :=
  cbn [app]; repeat rewrite countSite_cons; cbn [fst CallSite_eqb];
  repeat rewrite List.length_app; repeat rewrite countFailed_snoc;
  cbn [List.length Verification.passed recordOf].

Ltac trace_ends :=
  cbn [app]; repeat (apply finishesWith_cons; [reflexivity|reflexivity|]);
  try apply finishesWith_self.

Lemma mainLoop_trace :
  forall remaining i st w exit w',
    DeepThinkEngine.mainLoop env P options problem initialThought
      remaining i st w = (Ok exit, w') ->
    exists evs cs,
      World.events w' = (World.events w ++ evs)%list /\
      World.calls w' = (World.calls w ++ cs)%list /\
      exitTrace (DeepThinkEngine.maxErrorsBeforeGiveUp options) st evs cs
        exit.
Proof.
  induction remaining as [|remaining IH]; intros i st w exit w' H.
  - simpl in H. unfold ret in H. pair_inv H. exists [], [].
    rewrite !app_nil_r. split; [reflexivity|]. split; [reflexivity|].
    split; [constructor|]. split; [reflexivity|].
    split; [reflexivity|]. left. split; [apply finishesWith_self|].
    unfold countSite. simpl. lia.
  - simpl in H. apply pass_Ok in H. destruct H as (timestamp & H).
    cbv zeta in H.
    destruct H as [(Hp & Hk & -> & Hev & Hcs)
                  |[(Hp & Hk & verdict & w1 &
                     (_ & Hev & r1 & r2 & Hcs) & H)
                   |[(Hp & Hm & -> & Hev & Hcs)
                    |(Hp & Hm & corrected & request & wc & Hevc & Hcsc &
                      [(Hk & -> & Hev & Hcs)
                      |(Hk & verdict & w1 &
                        (_ & Hev & r1 & r2 & Hcs) & H)])]]];
      simpl in Hp.
    + (* accepted *)
      exists [ESuccess (DeepThinkEngine.solution st) (i + 1)], [].
      rewrite app_nil_r.
      split; [exact Hev|]. split; [exact Hcs|].
      split; [constructor|]. split; [reflexivity|]. simpl.
      split; [apply finishesWith_self|]. split; [reflexivity|].
      trace_arith. rewrite Hp. unfold countSite. simpl. lia.
    + (* verified again *)
      apply IH in H. destruct H as (evs & cs & Hev' & Hcs' & Hl & Hc & Hx).
      eexists _, _. rewrite Hev', Hev, Hcs', Hcs, <- !app_assoc.
      split; [reflexivity|]. split; [reflexivity|].
      split; [repeat constructor; exact Hl|].
      split; [trace_arith; lia|].
      destruct exit as [r|st']; simpl in Hx |- *.
      * destruct Hx as (He & Hsol & Hn & Hf).
        split; [trace_ends; exact He|].
        rewrite !solutionAfter_cons. split; [exact Hsol|].
        revert Hn Hf. trace_arith. rewrite Hp. lia.
      * destruct Hx as (Hsol & Hx).
        rewrite !solutionAfter_cons. split; [exact Hsol|].
        revert Hx. trace_arith. rewrite Hp.
        intros [(He & Hx)|(He & Hx)]; [left|right];
          (split; [trace_ends; exact He|]);
          repeat split; try apply Hx; lia.
    + (* gave up *)
      exists [EFailure "Too many errors"], []. rewrite app_nil_r.
      split; [exact Hev|]. split; [exact Hcs|].
      split; [constructor|]. split; [reflexivity|]. simpl.
      split; [reflexivity|]. right.
      split; [apply finishesWith_self|]. split; [lia|].
      trace_arith. rewrite Hp. unfold countSite. simpl. lia.
    + (* corrected, nothing required *)
      eexists _, _. rewrite Hev, Hevc, Hcs, Hcsc, <- !app_assoc.
      split; [reflexivity|]. split; [reflexivity|].
      split; [repeat constructor|]. split; [reflexivity|]. simpl.
      split; [trace_ends|].
      rewrite !solutionAfter_cons. split; [reflexivity|].
      trace_arith. rewrite Hp. unfold countSite. simpl. lia.
    + (* corrected and verified *)
      apply IH in H. destruct H as (evs & cs & Hev' & Hcs' & Hl & Hc & Hx).
      eexists _, _. rewrite Hev', Hev, Hevc, Hcs', Hcs, Hcsc, <- !app_assoc.
      split; [reflexivity|]. split; [reflexivity|].
      split; [repeat constructor; exact Hl|].
      split; [trace_arith; lia|].
      destruct exit as [r|st']; simpl in Hx |- *.
      * destruct Hx as (He & Hsol & Hn & Hf).
        split; [trace_ends; exact He|].
        rewrite !solutionAfter_cons. split; [exact Hsol|].
        revert Hn Hf. trace_arith. rewrite Hp. lia.
      * destruct Hx as (Hsol & Hx).
        rewrite !solutionAfter_cons. split; [exact Hsol|].
        revert Hx. trace_arith. rewrite Hp.
        intros [(He & Hx)|(He & Hx)]; [left|right];
          (split; [trace_ends; exact He|]);
          repeat split; try apply Hx; lia.
Qed.
End LoopTrace.

Lemma finishesWith_app evs tail more :
  finishesWith evs tail -> finishesWith (evs ++ more) (tail ++ more).
Proof.
  intros (before & -> & H1 & H2). exists before.
  rewrite app_assoc. repeat split; assumption.
Qed.

Lemma countSite_app site cs cs' :
  countSite site (cs ++ cs') = (countSite site cs + countSite site cs')%nat.
Proof. unfold countSite. rewrite filter_app, List.length_app. reflexivity. Qed.

Lemma countSite_loopSite site cs :
  Forall loopSite cs ->
  site = SiteInitial \/ site = SiteImprovement ->
  countSite site cs = O.
Proof.
  intros H Hs. induction H as [|[s r] cs Hc _ IH]; [reflexivity|].
  rewrite countSite_cons, IH. unfold loopSite in Hc. simpl in Hc |- *.
  destruct Hs as [-> | ->]; destruct s; simpl; auto; contradiction.
Qed.

Lemma lastSolution_app evs evs' :
  lastSolution (evs ++ evs')
  = match lastSolution evs' with
    | Some s => Some s
    | None => lastSolution evs
    end.
Proof.
  induction evs as [|event evs IH]; simpl.
  - destruct (lastSolution evs'); reflexivity.
  - rewrite IH. destruct (lastSolution evs'); reflexivity.
Qed.

Section RunAccount.
Variable env : Env.t.
Variable P : Prompts.t.
Variable options : DeepThinkOptions.t.

Lemma initialExploration_verdict problem others w init w' :
  DeepThinkEngine.initialExploration env P options problem others w
  = (Ok (Some init), w') ->
  verdictOk (DeepThinkEngine.initVerification init).
Proof.
  intros H. unfold DeepThinkEngine.initialExploration in H.
  unfold_monad_in H. split_outcomes H.
  match goal with
  | Hx : DeepThinkEngine.verifySolution _ _ _ _ _ _ = _ |- _ =>
      apply verifySolution_reverified in Hx; destruct Hx as (Hok & _)
  end.
  injection H as <- _. exact Hok.
Qed.

Lemma run_account w r w' :
  DeepThinkEngine.run env P options w = (Ok r, w') ->
  Forall statusOk (DeepThinkResult.iterations r) /\
  Forall bugOk (DeepThinkResult.verifications r) /\
  (DeepThinkResult.verifications r <> [] ->
   DeepThinkResult.successfulVerifications r
   = streak (DeepThinkResult.verifications r)) /\
  exists evs cs,
    World.events w'
    = (World.events w ++
       EInit (DeepThinkOptions.problemStatement options) :: evs)%list /\
    World.calls w' = (World.calls w ++ cs)%list /\
    runTrace options r evs cs.
Proof.
  intros H. unfold DeepThinkEngine.run in H.
  unfold_monad_in H. split_outcomes H.
  match goal with
  | Hx : DeepThinkEngine.initialExploration _ _ _ _ _ _ = _ |- _ =>
      pose proof Hx as Hinit;
      apply initialExploration_Ok in Hx;
      destruct Hx as (init & first & s1 & s2 & s3 & s4 & n & model & out
                      & -> & _ & Hev & Hcalls);
      apply initialExploration_verdict in Hinit
  end.
  split_outcomes H.
  match goal with
  | Hx : DeepThinkEngine.mainLoop _ _ _ _ _ _ _ _ _ = _ |- _ =>
      pose proof Hx as Hstate;
      apply mainLoop_state in Hstate;
      [|split; [constructor|]; split; [constructor|];
        split; [exact Hinit|]; split; reflexivity];
      apply mainLoop_trace in Hx;
      destruct Hx as (evs & cs & Hev2 & Hcs2 & Hl & Hc & Htrace)
  end.
  simpl in Hev, Hcalls. rewrite Hev in Hev2. rewrite Hcalls in Hcs2.
  rewrite <- !app_assoc in Hev2. rewrite <- !app_assoc in Hcs2.
  cbn [app] in Hev2, Hcs2.
  match goal with
  | exit : DeepThinkEngine.LoopExit |- _ => destruct exit as [r0|st']
  end; pair_inv H; simpl in Hstate, Htrace.
  - destruct Hstate as (Hs & Hb & _ & Hsv & Hk & Hlast).
    destruct Htrace as (He & Hsol & Hn & Hf).
    split; [exact Hs|]. split; [exact Hb|]. split; [intros _; exact Hsv|].
    eexists _, _. split; [exact Hev2|]. split; [exact Hcs2|].
    unfold runTrace. cbv zeta.
    repeat rewrite countSite_cons. cbn [fst CallSite_eqb].
    rewrite !(countSite_loopSite _ _ Hl) by auto.
    split; [reflexivity|]. split; [reflexivity|]. split; [lia|].
    split.
    { revert Hsol. unfold solutionAfter. simpl.
      repeat (rewrite ?solutionAfter_cons; simpl).
      destruct (lastSolution evs); intros ->; reflexivity. }
    left. split.
    { repeat (apply finishesWith_cons; [reflexivity|reflexivity|]). exact He. }
    split; [exact Hk|]. split; [exact Hlast|]. simpl in Hn, Hf. lia.
  - destruct Hstate as (Hs & Hb & _ & Hcc & Hec).
    destruct Htrace as (Hsol & Hx).
    split; [exact Hs|]. split; [exact Hb|]. split.
    { simpl. intros Hne. rewrite Hcc.
      destruct (DeepThinkEngine.verifications st');
        [contradiction | reflexivity]. }
    eexists _, _. simpl. rewrite Hev2, Hcs2, <- app_assoc. cbn [app].
    split; [reflexivity|]. split; [reflexivity|].
    unfold runTrace. cbv zeta.
    repeat rewrite countSite_cons. cbn [fst CallSite_eqb].
    rewrite !(countSite_loopSite _ _ Hl) by auto.
    split; [reflexivity|]. split; [reflexivity|]. split; [lia|].
    cbn [DeepThinkResult.finalSolution DeepThinkResult.verifications
         DeepThinkResult.totalIterations
         DeepThinkResult.successfulVerifications].
    split.
    { revert Hsol. unfold solutionAfter. simpl.
      rewrite lastSolution_app. simpl.
      destruct (lastSolution evs); intros ->; reflexivity. }
    right. destruct Hx as [(He & Hn & Hf)|(He & Hm & Hn & Hf)];
      [left|right].
    + split.
      { repeat (apply finishesWith_cons; [reflexivity|reflexivity|]).
        apply (finishesWith_app _ [] _ He). }
      simpl in Hn, Hf. lia.
    + split.
      { repeat (apply finishesWith_cons; [reflexivity|reflexivity|]).
        apply (finishesWith_app _ [_] _ He). }
      split; [rewrite <- Hec; exact Hm|]. simpl in Hn, Hf. lia.
Qed.
End RunAccount.

Lemma finishesWith_last pre evs tail event :
  finishesWith evs (tail ++ [event]) ->
  lastEvent (pre ++ evs) = Some event.
Proof.
  intros (before & -> & _). rewrite !app_assoc. apply lastEvent_snoc.
Qed.

Lemma no_failure_In s evs :
  filter isFailure evs = [] -> ~ In (EFailure s) evs.
Proof.
  intros H Hin.
  assert (Hf : In (EFailure s) (filter isFailure evs)).
  { apply filter_In. split; [exact Hin | reflexivity]. }
  rewrite H in Hf. exact Hf.
Qed.

Lemma finishesWith_failure evs tail s :
  finishesWith evs tail -> In (EFailure s) evs -> In (EFailure s) tail.
Proof.
  intros (before & -> & _ & Hf) Hin. apply in_app_or in Hin.
  destruct Hin as [Hin|Hin]; [|exact Hin].
  exfalso. exact (no_failure_In _ _ Hf Hin).
Qed.

Lemma callsFrom_initial site w cs :
  World.calls w = (World.calls World.initial ++ cs)%list ->
  callsFrom site w = countSite site cs.
Proof. intros H. unfold callsFrom, countSite. rewrite H. reflexivity. Qed.

(** The ending of a returning run, told from its last event and from the
    failure "Too many errors". *)
Lemma run_endings (options : DeepThinkOptions.t) (w : World.t)
    (r : DeepThinkResult.t) (w' : World.t) evs cs :
  World.events w'
  = (World.events w ++
     EInit (DeepThinkOptions.problemStatement options) :: evs)%list ->
  runTrace options r evs cs ->
  let K := DeepThinkEngine.requiredSuccessfulVerifications options in
  let n := List.length (DeepThinkResult.verifications r) in
  let f := countFailed (DeepThinkResult.verifications r) in
  (terminal w' = Some Success ->
   K <= DeepThinkResult.successfulVerifications r /\
   lastIterationOk K r /\
   countSite SiteVerification cs = n /\ countSite SiteCorrection cs = f) /\
  (In (EFailure "Too many errors") evs ->
   DeepThinkEngine.maxErrorsBeforeGiveUp options
   <= Z.of_nat (trailing failed (DeepThinkResult.verifications r)) /\
   countSite SiteVerification cs = n /\
   S (countSite SiteCorrection cs) = f) /\
  (terminal w' = Some Failure ->
   ~ In (EFailure "Too many errors") evs ->
   countSite SiteVerification cs = S n /\ countSite SiteCorrection cs = f).
Proof.
  intros Hev (_ & _ & _ & _ & Hx). cbv zeta. unfold terminal. rewrite Hev.
  destruct Hx as [(He & Hk & Hlast & Hn & Hf)
                 |[(He & Hn & Hf)|(He & Hm & Hn & Hf)]].
  - rewrite (finishesWith_last _ (_ :: evs) [] _
               (finishesWith_cons (EInit _) _ _ eq_refl eq_refl He)).
    split; [auto|]. split.
    + intros Hin. apply (finishesWith_failure _ _ _ He) in Hin.
      destruct Hin as [Hin|[]]. discriminate Hin.
    + intros Hterm. discriminate Hterm.
  - rewrite (finishesWith_last _ (_ :: evs) [] _
               (finishesWith_cons (EInit _) _ _ eq_refl eq_refl He)).
    split; [intros Hterm; discriminate Hterm|]. split; [|auto].
    intros Hin. apply (finishesWith_failure _ _ _ He) in Hin.
    destruct Hin as [Hin|[]]. discriminate Hin.
  - rewrite (finishesWith_last _ (_ :: evs) [_] _
               (finishesWith_cons (EInit _) _ _ eq_refl eq_refl He)).
    split; [intros Hterm; discriminate Hterm|]. split; [auto|].
    intros _ Hno. exfalso. apply Hno.
    destruct He as (before & -> & _). apply in_or_app. right.
    left. reflexivity.
Qed.

(* ================================================================== *)
(** ** C1: the count of the initial verification *)

(** C1 (what the code does).  For every requiredSuccessfulVerifications =
    K >= 1 and every maxIterations >= max(K - 1, 1), a single-agent run in
    which every verification call returns a passing judgment (and no
    generation call throws) terminates with a Success result in which the
    verification of the initial exploration is counted twice:
    successfulVerifications is max(K, 2), one more than the verification
    calls that the run made in all, the initial one included, and one more
    than the verifications that it recorded; the verification calls after
    the initial one are max(K - 2, 0), not K, and the run ends after
    max(K - 1, 1) iterations. *)
Theorem all_pass_run :
  forall (env : Env.t) (P : Prompts.t) (options : DeepThinkOptions.t) (K : Z),
    DeepThinkEngine.requiredSuccessfulVerifications options = K ->
    1 <= K ->
    Z.max (K - 1) 1 <= DeepThinkEngine.maxIterations options ->
    alwaysReplies env ->
    everyVerificationPasses env ->
    exists r w',
      DeepThinkEngine.run env P options World.initial = (Ok r, w') /\
      terminal w' = Some Success /\
      DeepThinkResult.successfulVerifications r = Z.max K 2 /\
      Z.of_nat (callsFrom SiteVerification w') = 1 + Z.max (K - 2) 0 /\
      DeepThinkResult.successfulVerifications r
      = Z.of_nat (callsFrom SiteVerification w') + 1 /\
      List.length (DeepThinkResult.verifications r)
      = callsFrom SiteVerification w' /\
      DeepThinkResult.totalIterations r = Z.max (K - 1) 1.
Proof.
  intros env P options K HK H1 Hmax Hreplies Hpass.
  destruct (all_pass_run_exact env P options K HK H1 Hmax Hreplies Hpass)
    as (r & w' & Hrun & Hterm & Hs & Hc & Ht).
  exists r, w'. split; [exact Hrun|]. split; [exact Hterm|].
  split; [exact Hs|]. split; [exact Hc|]. split; [lia|].
  split; [|exact Ht].
  destruct (run_account _ _ _ _ _ _ Hrun)
    as (_ & _ & _ & evs & cs & Hev & Hcs & Htrace).
  destruct (run_endings options _ _ _ _ _ Hev Htrace)
    as (Hsuccess & _).
  destruct (Hsuccess Hterm) as (_ & _ & Hn & _).
  rewrite (callsFrom_initial _ _ _ Hcs), Hn. reflexivity.
Qed.

Lemma all_pass_run_witness :
  exists r w',
    DeepThinkEngine.run (Scenario.replying "Yes.") Scenario.prompts
      (Scenario.options (Some 1) (Some 2) None) World.initial = (Ok r, w') /\
    terminal w' = Some Success /\
    DeepThinkResult.successfulVerifications r = Z.max 2 2 /\
    Z.of_nat (callsFrom SiteVerification w') = 1 + Z.max (2 - 2) 0 /\
    DeepThinkResult.successfulVerifications r
    = Z.of_nat (callsFrom SiteVerification w') + 1 /\
    List.length (DeepThinkResult.verifications r)
    = callsFrom SiteVerification w' /\
    DeepThinkResult.totalIterations r = Z.max (2 - 1) 1.
Proof.
  apply (all_pass_run (Scenario.replying "Yes.") Scenario.prompts
           (Scenario.options (Some 1) (Some 2) None) 2).
  - reflexivity.
  - lia.
  - vm_compute. discriminate.
  - split; intros; eexists; reflexivity.
  - intros n model out judgment H. simpl in H. injection H as <-. reflexivity.
Defined.
(* ================================================================== *)
(** ** The single-agent engine: what every returning run keeps *)

(** In the result of every run of the single-agent engine that returns,
    the iteration entries are numbered 0, 1, 2, ..., entry k carries the
    k-th verification record, and the status of an entry is "completed"
    when its verification passed and "correcting" when it failed; no entry
    is left thinking, verifying or failed. *)
Theorem iteration_log_well_formed :
  forall (env : Env.t) (P : Prompts.t) (options : DeepThinkOptions.t)
         (w : World.t) (r : DeepThinkResult.t) (w' : World.t),
    DeepThinkEngine.run env P options w = (Ok r, w') ->
    dense (DeepThinkResult.iterations r) /\
    map DeepThinkIteration.verification (DeepThinkResult.iterations r)
    = DeepThinkResult.verifications r /\
    forall it,
      In it (DeepThinkResult.iterations r) ->
      DeepThinkIteration.status it
      = if Verification.passed (DeepThinkIteration.verification it)
        then Completed else Correcting.
Proof.
  intros env P options w r w' H.
  destruct (run_Ok _ _ _ _ _ _ H) as ((_ & Hmap) & Hd & _).
  destruct (run_account _ _ _ _ _ _ H) as (Hs & _).
  split; [exact Hd|]. split; [exact Hmap|].
  intros it Hin. rewrite Forall_forall in Hs. exact (Hs it Hin).
Qed.

Lemma iteration_log_well_formed_witness :
  exists r w',
    DeepThinkEngine.run (Scenario.noAt 6) Scenario.prompts
      (Scenario.options (Some 5) (Some 1) (Some 3)) World.initial
    = (Ok r, w') /\
    map DeepThinkIteration.status (DeepThinkResult.iterations r)
    = [Correcting; Completed] /\
    dense (DeepThinkResult.iterations r) /\
    map DeepThinkIteration.verification (DeepThinkResult.iterations r)
    = DeepThinkResult.verifications r /\
    forall it,
      In it (DeepThinkResult.iterations r) ->
      DeepThinkIteration.status it
      = if Verification.passed (DeepThinkIteration.verification it)
        then Completed else Correcting.
Proof.
  eexists _, _. split; [vm_compute; reflexivity|].
  split; [vm_compute; reflexivity|].
  eapply (iteration_log_well_formed (Scenario.noAt 6) Scenario.prompts
            (Scenario.options (Some 5) (Some 1) (Some 3)) World.initial).
  vm_compute. reflexivity.
Defined.

(** Every verification record of a returning run that passed has an empty
    bug report: a bug report is kept only for a failed verification. *)
Theorem passed_verification_has_no_bug_report :
  forall (env : Env.t) (P : Prompts.t) (options : DeepThinkOptions.t)
         (w : World.t) (r : DeepThinkResult.t) (w' : World.t)
         (v : Verification.t),
    DeepThinkEngine.run env P options w = (Ok r, w') ->
    In v (DeepThinkResult.verifications r) ->
    Verification.passed v = true ->
    Verification.bugReport v = EmptyString.
Proof.
  intros env P options w r w' v H Hin.
  destruct (run_account _ _ _ _ _ _ H) as (_ & Hb & _).
  rewrite Forall_forall in Hb. exact (Hb v Hin).
Qed.

Lemma passed_verification_has_no_bug_report_witness :
  exists r w' v,
    DeepThinkEngine.run (Scenario.noAt 6) Scenario.prompts
      (Scenario.options (Some 5) (Some 1) (Some 3)) World.initial
    = (Ok r, w') /\
    nth_error (DeepThinkResult.verifications r) 1 = Some v /\
    Verification.bugReport v = EmptyString.
Proof.
  eexists _, _, _. split; [vm_compute; reflexivity|].
  split; [vm_compute; reflexivity|].
  eapply (passed_verification_has_no_bug_report (Scenario.noAt 6)
            Scenario.prompts (Scenario.options (Some 5) (Some 1) (Some 3))
            World.initial).
  - vm_compute. reflexivity.
  - vm_compute. right. left. reflexivity.
  - vm_compute. reflexivity.
Defined.

(** In the result of every returning run that recorded a verification,
    successfulVerifications is the number of verifications that passed in
    a row at the end of the record, plus one as long as no recorded
    verification failed (the verification of the initial exploration is
    counted when it is made and again when it is recorded). *)
Theorem successful_verifications_is_final_streak :
  forall (env : Env.t) (P : Prompts.t) (options : DeepThinkOptions.t)
         (w : World.t) (r : DeepThinkResult.t) (w' : World.t),
    DeepThinkEngine.run env P options w = (Ok r, w') ->
    DeepThinkResult.verifications r <> [] ->
    DeepThinkResult.successfulVerifications r
    = Z.of_nat (trailing Verification.passed (DeepThinkResult.verifications r))
      + (if forallb Verification.passed (DeepThinkResult.verifications r)
         then 1 else 0).
Proof.
  intros env P options w r w' H Hne.
  destruct (run_account _ _ _ _ _ _ H) as (_ & _ & Hsv & _).
  exact (Hsv Hne).
Qed.

Lemma successful_verifications_is_final_streak_witness :
  exists r w',
    DeepThinkEngine.run (Scenario.noAt 10) Scenario.prompts
      (Scenario.options (Some 5) (Some 3) (Some 3)) World.initial
    = (Ok r, w') /\
    map Verification.passed (DeepThinkResult.verifications r)
    = [true; false; true; true; true] /\
    DeepThinkResult.successfulVerifications r
    = Z.of_nat (trailing Verification.passed (DeepThinkResult.verifications r))
      + (if forallb Verification.passed (DeepThinkResult.verifications r)
         then 1 else 0).
Proof.
  eexists _, _. split; [vm_compute; reflexivity|].
  split; [vm_compute; reflexivity|].
  eapply (successful_verifications_is_final_streak (Scenario.noAt 10)
            Scenario.prompts (Scenario.options (Some 5) (Some 3) (Some 3))
            World.initial).
  - vm_compute. reflexivity.
  - vm_compute. discriminate.
Defined.



(** Every returning run reports exactly one ending.  After its init
    event, which carries the problem statement, it emits either a single
    success event, as its last event, with the final solution and
    totalIterations of the result and without any failure event, or no
    success event and, as its last events, the failure "Max iterations
    reached", alone or right after the failure "Too many errors". *)
Theorem run_reports_one_ending :
  forall (env : Env.t) (P : Prompts.t) (options : DeepThinkOptions.t)
         (w : World.t) (r : DeepThinkResult.t) (w' : World.t),
    DeepThinkEngine.run env P options w = (Ok r, w') ->
    exists evs,
      World.events w'
      = (World.events w ++
         EInit (DeepThinkOptions.problemStatement options) :: evs)%list /\
      (finishesWith evs
         [ESuccess (DeepThinkResult.finalSolution r)
            (DeepThinkResult.totalIterations r)] \/
       finishesWith evs [EFailure "Max iterations reached"] \/
       finishesWith evs
         [EFailure "Too many errors"; EFailure "Max iterations reached"]).
Proof.
  intros env P options w r w' H.
  destruct (run_account _ _ _ _ _ _ H)
    as (_ & _ & _ & evs & cs & Hev & _ & _ & _ & _ & _ & Hx).
  exists evs. split; [exact Hev|].
  destruct Hx as [(He & _)|[(He & _)|(He & _)]]; auto.
Qed.

Lemma run_reports_one_ending_witness :
  exists r w',
    DeepThinkEngine.run (Scenario.replying "No.") Scenario.prompts
      (Scenario.options (Some 5) (Some 2) (Some 3)) World.initial
    = (Ok r, w') /\
    lastEvent (World.events w') = Some (EFailure "Max iterations reached") /\
    exists evs,
      World.events w'
      = (World.events World.initial ++
         EInit (DeepThinkOptions.problemStatement
                  (Scenario.options (Some 5) (Some 2) (Some 3))) :: evs)%list
      /\
      (finishesWith evs
         [ESuccess (DeepThinkResult.finalSolution r)
            (DeepThinkResult.totalIterations r)] \/
       finishesWith evs [EFailure "Max iterations reached"] \/
       finishesWith evs
         [EFailure "Too many errors"; EFailure "Max iterations reached"]).
Proof.
  eexists _, _. split; [vm_compute; reflexivity|].
  split; [vm_compute; reflexivity|].
  eapply (run_reports_one_ending (Scenario.replying "No.")
            Scenario.prompts (Scenario.options (Some 5) (Some 2) (Some 3))
            World.initial).
  vm_compute. reflexivity.
Defined.

(** The final solution of every returning run is the solution carried by
    the last solution event that the run emitted: an observer that keeps
    the solution of the latest solution event holds the final solution
    when the run returns. *)
Theorem final_solution_is_last_solution_event :
  forall (env : Env.t) (P : Prompts.t) (options : DeepThinkOptions.t)
         (w : World.t) (r : DeepThinkResult.t) (w' : World.t),
    DeepThinkEngine.run env P options w = (Ok r, w') ->
    lastSolution (World.events w') = Some (DeepThinkResult.finalSolution r).
Proof.
  intros env P options w r w' H.
  destruct (run_account _ _ _ _ _ _ H)
    as (_ & _ & _ & evs & cs & Hev & _ & _ & _ & _ & Hsol & _).
  rewrite Hev, lastSolution_app. simpl. rewrite Hsol. reflexivity.
Qed.

Lemma final_solution_is_last_solution_event_witness :
  exists r w',
    DeepThinkEngine.run (Scenario.noAt 6) Scenario.prompts
      (Scenario.options (Some 5) (Some 1) (Some 3)) World.initial
    = (Ok r, w') /\
    lastSolution (World.events w') = Some (DeepThinkResult.finalSolution r).
Proof.
  eexists _, _. split; [vm_compute; reflexivity|].
  eapply (final_solution_is_last_solution_event (Scenario.noAt 6)
            Scenario.prompts (Scenario.options (Some 5) (Some 1) (Some 3))
            World.initial).
  vm_compute. reflexivity.
Defined.

(** The generation calls of every returning run match its record.  There
    is one initial call and one improvement call, and every verification
    call is followed by its yes/no check call.  A run that ends in success
    made one verification call per verification record and one correction
    call per failed record.  A run that gave up after too many errors also
    made one verification call per record, but left its last failed record
    without a correction call.  A run that ran out of iterations made one
    verification call more than it recorded: its last verdict is dropped. *)
Theorem generation_calls_match_record :
  forall (env : Env.t) (P : Prompts.t) (options : DeepThinkOptions.t)
         (r : DeepThinkResult.t) (w' : World.t),
    DeepThinkEngine.run env P options World.initial = (Ok r, w') ->
    let n := List.length (DeepThinkResult.verifications r) in
    let f := countFailed (DeepThinkResult.verifications r) in
    callsFrom SiteInitial w' = 1%nat /\
    callsFrom SiteImprovement w' = 1%nat /\
    callsFrom SiteCheck w' = callsFrom SiteVerification w' /\
    (terminal w' = Some Success ->
     callsFrom SiteVerification w' = n /\ callsFrom SiteCorrection w' = f) /\
    (In (EFailure "Too many errors") (World.events w') ->
     callsFrom SiteVerification w' = n /\
     S (callsFrom SiteCorrection w') = f) /\
    (terminal w' = Some Failure ->
     ~ In (EFailure "Too many errors") (World.events w') ->
     callsFrom SiteVerification w' = S n /\ callsFrom SiteCorrection w' = f).
Proof.
  intros env P options r w' H n f.
  destruct (run_account _ _ _ _ _ _ H)
    as (_ & _ & _ & evs & cs & Hev & Hcs & Htrace).
  destruct (run_endings options _ _ _ _ _ Hev Htrace) as (H1 & H2 & H3).
  destruct Htrace as (Hi & Hm & Hc & _).
  rewrite !(callsFrom_initial _ _ _ Hcs).
  split; [exact Hi|]. split; [exact Hm|]. split; [exact Hc|].
  assert (Hin : forall s, In (EFailure s) (World.events w') ->
                          In (EFailure s) evs).
  { intros s Hin. rewrite Hev in Hin. simpl in Hin.
    destruct Hin as [Hin|Hin]; [discriminate Hin | exact Hin]. }
  split; [|split].
  - intros Hterm. apply (H1 Hterm).
  - intros Hgave. apply (H2 (Hin _ Hgave)).
  - intros Hterm Hno. apply (H3 Hterm). intros Hgave. apply Hno.
    rewrite Hev. simpl. right. exact Hgave.
Qed.

Lemma generation_calls_match_record_witness :
  exists r w',
    DeepThinkEngine.run (Scenario.replying "No.") Scenario.prompts
      (Scenario.options (Some 5) (Some 2) (Some 3)) World.initial
    = (Ok r, w') /\
    List.length (DeepThinkResult.verifications r) = 3%nat /\
    callsFrom SiteCorrection w' = 2%nat /\
    let n := List.length (DeepThinkResult.verifications r) in
    let f := countFailed (DeepThinkResult.verifications r) in
    callsFrom SiteInitial w' = 1%nat /\
    callsFrom SiteImprovement w' = 1%nat /\
    callsFrom SiteCheck w' = callsFrom SiteVerification w' /\
    (terminal w' = Some Success ->
     callsFrom SiteVerification w' = n /\ callsFrom SiteCorrection w' = f) /\
    (In (EFailure "Too many errors") (World.events w') ->
     callsFrom SiteVerification w' = n /\
     S (callsFrom SiteCorrection w') = f) /\
    (terminal w' = Some Failure ->
     ~ In (EFailure "Too many errors") (World.events w') ->
     callsFrom SiteVerification w' = S n /\ callsFrom SiteCorrection w' = f).
Proof.
  eexists _, _. split; [vm_compute; reflexivity|].
  split; [vm_compute; reflexivity|].
  split; [vm_compute; reflexivity|].
  eapply (generation_calls_match_record (Scenario.replying "No.")
            Scenario.prompts (Scenario.options (Some 5) (Some 2) (Some 3))).
  vm_compute. reflexivity.
Defined.

(** A run gives up with the failure "Too many errors" only when the last
    maxErrorsBeforeGiveUp (or more) verifications that it recorded failed
    in a row: a verification that passes resets the count of errors. *)
Theorem giving_up_follows_consecutive_failures :
  forall (env : Env.t) (P : Prompts.t) (options : DeepThinkOptions.t)
         (r : DeepThinkResult.t) (w' : World.t),
    DeepThinkEngine.run env P options World.initial = (Ok r, w') ->
    In (EFailure "Too many errors") (World.events w') ->
    DeepThinkEngine.maxErrorsBeforeGiveUp options
    <= Z.of_nat (trailing failed (DeepThinkResult.verifications r)).
Proof.
  intros env P options r w' H Hin.
  destruct (run_account _ _ _ _ _ _ H)
    as (_ & _ & _ & evs & cs & Hev & _ & Htrace).
  destruct (run_endings options _ _ _ _ _ Hev Htrace) as (_ & Hgave & _).
  apply Hgave. rewrite Hev in Hin. simpl in Hin.
  destruct Hin as [Hin|Hin]; [discriminate Hin | exact Hin].
Qed.

Lemma giving_up_follows_consecutive_failures_witness :
  exists r w',
    DeepThinkEngine.run (Scenario.replying "No.") Scenario.prompts
      (Scenario.options (Some 5) (Some 2) (Some 3)) World.initial
    = (Ok r, w') /\
    DeepThinkEngine.maxErrorsBeforeGiveUp
      (Scenario.options (Some 5) (Some 2) (Some 3))
    <= Z.of_nat (trailing failed (DeepThinkResult.verifications r)).
Proof.
  eexists _, _. split; [vm_compute; reflexivity|].
  eapply (giving_up_follows_consecutive_failures (Scenario.replying "No.")
            Scenario.prompts (Scenario.options (Some 5) (Some 2) (Some 3))).
  - vm_compute. reflexivity.
  - vm_compute. repeat (first [left; reflexivity | right]).
Defined.

(* ================================================================== *)
(** ** The single-agent engine: every outcome of a run *)

(** Whatever the outcome of a run (a result or a thrown error), each
    generation call that it made carries the search tools and provider
    options of getSearchTools and getProviderOptions exactly when it is the
    initial, the improvement or a correction call; verification and check
    calls never carry them, and with web search disabled no call does. *)
Theorem search_options_by_call_site :
  forall (env : Env.t) (P : Prompts.t) (options : DeepThinkOptions.t)
         (site : CallSite) (request : Request.t),
    In (site, request)
      (World.calls (snd (DeepThinkEngine.run env P options World.initial)))
    ->
    Request.tools request
    = (if augmented site then DeepThinkEngine.getSearchTools options
       else None) /\
    Request.providerOptions request
    = (if augmented site then DeepThinkEngine.getProviderOptions options
       else None) /\
    (DeepThinkEngine.enableWebSearch options = false ->
     Request.tools request = None /\
     Request.providerOptions request = None).
Proof.
  intros env P options site request Hin.
  destruct (run_appends env P options World.initial)
    as (evs & cs & _ & Hcs & _ & Hq).
  rewrite Hcs in Hin. simpl in Hin. rewrite Forall_forall in Hq.
  destruct (Hq _ Hin) as (Ht & Hp). simpl in Ht, Hp.
  split; [exact Ht|]. split; [exact Hp|].
  intros Hoff. rewrite Ht, Hp.
  unfold DeepThinkEngine.getSearchTools, DeepThinkEngine.getProviderOptions.
  rewrite Hoff. simpl. destruct (augmented site); auto.
Qed.

Lemma search_options_by_call_site_witness :
  exists request,
    nth_error
      (World.calls
         (snd (DeepThinkEngine.run (Scenario.replying "Yes.")
                 Scenario.prompts
                 (Scenario.options (Some 5) (Some 2) (Some 3))
                 World.initial))) 0
    = Some (SiteInitial, request) /\
    Request.tools request
    = (if augmented SiteInitial
       then DeepThinkEngine.getSearchTools
              (Scenario.options (Some 5) (Some 2) (Some 3))
       else None) /\
    Request.providerOptions request
    = (if augmented SiteInitial
       then DeepThinkEngine.getProviderOptions
              (Scenario.options (Some 5) (Some 2) (Some 3))
       else None) /\
    (DeepThinkEngine.enableWebSearch
       (Scenario.options (Some 5) (Some 2) (Some 3)) = false ->
     Request.tools request = None /\
     Request.providerOptions request = None).
Proof.
  eexists. split; [vm_compute; reflexivity|].
  eapply (search_options_by_call_site (Scenario.replying "Yes.")
            Scenario.prompts (Scenario.options (Some 5) (Some 2) (Some 3))).
  vm_compute. left. reflexivity.
Defined.

(** A run that throws has reported no ending: among the events that it
    emitted there is neither a success nor a failure event, so an observer
    learns of the error from the thrown value alone. *)
Theorem thrown_run_reports_no_ending :
  forall (env : Env.t) (P : Prompts.t) (options : DeepThinkOptions.t)
         (w : World.t) (e : Thrown) (w' : World.t),
    DeepThinkEngine.run env P options w = (Throw e, w') ->
    exists evs,
      World.events w' = (World.events w ++ evs)%list /\
      filter isSuccess evs = [] /\
      filter isFailure evs = [].
Proof.
  intros env P options w e w' H.
  destruct (run_throwsQuietly env P options w e w' H) as (evs & Hev & Hq).
  exists evs. split; [exact Hev|].
  clear Hev. induction Hq as [|event evs (Hs & Hf) _ (IH1 & IH2)];
    [split; reflexivity|].
  simpl. rewrite Hs, Hf. split; assumption.
Qed.

Lemma thrown_run_reports_no_ending_witness :
  exists e w',
    DeepThinkEngine.run (Scenario.failing (ThrownError "offline"))
      Scenario.prompts (Scenario.options (Some 5) (Some 2) (Some 3))
      World.initial
    = (Throw e, w') /\
    exists evs,
      World.events w' = (World.events World.initial ++ evs)%list /\
      filter isSuccess evs = [] /\
      filter isFailure evs = [].
Proof.
  eexists _, _. split; [vm_compute; reflexivity|].
  eapply (thrown_run_reports_no_ending
            (Scenario.failing (ThrownError "offline")) Scenario.prompts
            (Scenario.options (Some 5) (Some 2) (Some 3)) World.initial).
  vm_compute. reflexivity.
Defined.

(* ================================================================== *)
(** ** The agents: what the handler of runAgent makes of a run *)

Lemma handled_app evs evs' st :
  handled (evs ++ evs') st = handled evs' (handled evs st).
Proof. unfold handled. apply fold_left_app. Qed.

Lemma handled_cons event evs st :
  handled (event :: evs) st
  = handled evs (UltraThinkEngine.onProgress event st).
Proof. reflexivity. Qed.

Lemma handled_keeps_solution evs st :
  AgentResult.solution (fst (handled evs st)) = AgentResult.solution (fst st)
  /\
  AgentResult.verifications (fst (handled evs st))
  = AgentResult.verifications (fst st).
Proof.
  revert st. induction evs as [|event evs IH]; intros st; [auto|].
  rewrite handled_cons. destruct (IH (UltraThinkEngine.onProgress event st))
    as (H1 & H2).
  rewrite H1, H2. destruct st as [result updates], event; simpl; auto.
Qed.

Lemma lastFailure_app evs evs' :
  lastFailure (evs ++ evs')
  = match lastFailure evs' with
    | Some reason => Some reason
    | None => lastFailure evs
    end.
Proof.
  induction evs as [|event evs IH]; simpl.
  - destruct (lastFailure evs'); reflexivity.
  - rewrite IH. destruct (lastFailure evs'); reflexivity.
Qed.

Lemma lastFailure_none evs :
  filter isFailure evs = [] -> lastFailure evs = None.
Proof.
  induction evs as [|event evs IH]; [reflexivity|].
  simpl. destruct event; simpl; intros H; try discriminate H;
    rewrite (IH H); reflexivity.
Qed.

Lemma handled_error evs st :
  AgentResult.error (fst (handled evs st))
  = match lastFailure evs with
    | Some reason => Some reason
    | None => AgentResult.error (fst st)
    end.
Proof.
  revert st. induction evs as [|event evs IH]; intros st; [reflexivity|].
  rewrite handled_cons, IH. simpl.
  destruct (lastFailure evs); [reflexivity|].
  destruct st as [result updates], event; reflexivity.
Qed.

(** Events without success whose thinking events are at iteration 0 leave
    a progress of 20 as it is, and add thinking updates at 20 only. *)
Lemma handled_quiet evs :
  Forall thinkingAtZero evs ->
  filter isSuccess evs = [] ->
  forall st,
    AgentResult.progress (fst st) = 20 ->
    AgentResult.progress (fst (handled evs st)) = 20.
Proof.
  induction 1 as [|event evs Hz _ IH]; intros Hs st Hp; [exact Hp|].
  rewrite handled_cons. destruct event; simpl in Hs; try discriminate Hs;
    apply IH; try exact Hs; destruct st as [result updates]; simpl in *;
    try exact Hp.
  subst iteration. reflexivity.
Qed.


Lemma silent_no_success evs :
  Forall silent evs -> filter isSuccess evs = [].
Proof.
  induction 1 as [|event evs (Hs & _) _ IH]; [reflexivity|].
  simpl. rewrite Hs. exact IH.
Qed.

Lemma finishesWith_lastEvent evs tail event problem :
  finishesWith evs (tail ++ [event]) ->
  lastEvent (EInit problem :: evs) = Some event.
Proof. intros H. exact (finishesWith_last [EInit problem] _ _ _ H). Qed.

Lemma finishesWith_lastFailure evs tail problem :
  finishesWith evs tail ->
  lastFailure (EInit problem :: evs) = lastFailure tail.
Proof.
  intros (before & -> & _ & Hf).
  change (EInit problem :: before ++ tail)%list
    with ((EInit problem :: before) ++ tail)%list.
  rewrite lastFailure_app. destruct (lastFailure tail); [reflexivity|].
  simpl. rewrite (lastFailure_none _ Hf). reflexivity.
Qed.

Section AgentOutcome.
Variable P : Prompts.t.
Variable options : UltraThinkOptions.t.
Variable aenv : Env.t.
Variable config : AgentConfig.t.
Variable problem : string.

(** [runAgent] on the outcome of its engine. *)
Lemma runAgent_handled outcome w :
  DeepThinkEngine.run aenv P
    (UltraThinkEngine.agentOptions options config problem) World.initial
  = (outcome, w) ->
  let st :=
    handled (World.events w)
      (AgentResult.mk (AgentConfig.agentId config)
         (AgentConfig.approach config) (AgentConfig.specificPrompt config)
         Thinking 0 None None None,
       [AgentUpdate.mk (Some Thinking) (Some 10) None None None]) in
  UltraThinkEngine.runAgent P options aenv config problem
  = match outcome with
    | Ok r =>
        (AgentResult.mk (AgentResult.agentId (fst st))
           (AgentResult.approach (fst st))
           (AgentResult.specificPrompt (fst st)) Completed 100
           (Some (DeepThinkResult.finalSolution r))
           (Some (DeepThinkResult.verifications r))
           (AgentResult.error (fst st)),
         (snd st ++
          [AgentUpdate.mk (Some Completed) (Some 100)
             (Some (DeepThinkResult.finalSolution r))
             (Some (DeepThinkResult.verifications r)) None])%list)
    | Throw err =>
        (AgentResult.mk (AgentResult.agentId (fst st))
           (AgentResult.approach (fst st))
           (AgentResult.specificPrompt (fst st)) Failed
           (AgentResult.progress (fst st)) (AgentResult.solution (fst st))
           (AgentResult.verifications (fst st))
           (Some (UltraThinkEngine.errorMessage err)),
         (snd st ++
          [AgentUpdate.mk (Some Failed) None None None
             (Some (UltraThinkEngine.errorMessage err))])%list)
    end.
Proof.
  intros H. cbv zeta. unfold UltraThinkEngine.runAgent. rewrite H.
  unfold handled. destruct (fold_left _ _ _) as [result updates].
  destruct outcome; reflexivity.
Qed.
End AgentOutcome.

(** An agent whose engine returns ends "completed" with progress 100 and
    with the final solution and the verifications of its engine, also when
    that engine ended in failure: the completion overwrites the "failed"
    status set by the failure event but keeps its reason, so such an agent
    is completed with the error "Max iterations reached"; an agent whose
    engine ended in success has no error. *)
Theorem returned_agent_is_completed :
  forall (P : Prompts.t) (options : UltraThinkOptions.t) (aenv : Env.t)
         (config : AgentConfig.t) (problem : string)
         (r : DeepThinkResult.t) (w' : World.t),
    DeepThinkEngine.run aenv P
      (UltraThinkEngine.agentOptions options config problem) World.initial
    = (Ok r, w') ->
    let result :=
      fst (UltraThinkEngine.runAgent P options aenv config problem) in
    AgentResult.status result = Completed /\
    AgentResult.progress result = 100 /\
    AgentResult.solution result = Some (DeepThinkResult.finalSolution r) /\
    AgentResult.verifications result
    = Some (DeepThinkResult.verifications r) /\
    AgentResult.error result
    = match terminal w' with
      | Some Failure => Some "Max iterations reached"
      | _ => None
      end.
Proof.
  intros P options aenv config problem r w' H. cbv zeta.
  rewrite (runAgent_handled _ _ _ _ _ _ _ H). cbn [fst].
  cbn [AgentResult.status AgentResult.progress AgentResult.solution
       AgentResult.verifications AgentResult.error].
  repeat (split; [reflexivity|]).
  rewrite handled_error. cbn [fst AgentResult.error].
  destruct (run_account _ _ _ _ _ _ H)
    as (_ & _ & _ & evs & cs & Hev & _ & _ & _ & _ & _ & Hx).
  unfold terminal. rewrite Hev. cbn [World.events World.initial app].
  destruct Hx as [(He & _)|[(He & _)|(He & _)]].
  - rewrite (finishesWith_lastEvent _ [] _ _ He),
      (finishesWith_lastFailure _ _ _ He). reflexivity.
  - rewrite (finishesWith_lastEvent _ [] _ _ He),
      (finishesWith_lastFailure _ _ _ He). reflexivity.
  - rewrite (finishesWith_lastEvent _ [_] _ _ He),
      (finishesWith_lastFailure _ _ _ He). reflexivity.
Qed.

Lemma returned_agent_is_completed_witness :
  exists r w',
    DeepThinkEngine.run (Scenario.replying "No.") Scenario.prompts
      (UltraThinkEngine.agentOptions (Scenario.ultraOptions None)
         (AgentConfig.mk "agent_01" "direct" "Compute it.") "2 + 2 = ?")
      World.initial
    = (Ok r, w') /\
    terminal w' = Some Failure /\
    let result :=
      fst (UltraThinkEngine.runAgent Scenario.prompts
             (Scenario.ultraOptions None) (Scenario.replying "No.")
             (AgentConfig.mk "agent_01" "direct" "Compute it.")
             "2 + 2 = ?") in
    AgentResult.status result = Completed /\
    AgentResult.progress result = 100 /\
    AgentResult.solution result = Some (DeepThinkResult.finalSolution r) /\
    AgentResult.verifications result
    = Some (DeepThinkResult.verifications r) /\
    AgentResult.error result
    = match terminal w' with
      | Some Failure => Some "Max iterations reached"
      | _ => None
      end.
Proof.
  eexists _, _. split; [vm_compute; reflexivity|].
  split; [vm_compute; reflexivity|].
  eapply (returned_agent_is_completed Scenario.prompts
            (Scenario.ultraOptions None) (Scenario.replying "No.")
            (AgentConfig.mk "agent_01" "direct" "Compute it.") "2 + 2 = ?").
  vm_compute. reflexivity.
Defined.

(** An agent whose engine throws ends "failed" with the message of the
    thrown error, without solution and without verifications, and with
    progress 20: the engine emits its first thinking event before it makes
    any call, and no event of a throwing engine moves the progress on. *)
Theorem thrown_agent_stops_at_20 :
  forall (P : Prompts.t) (options : UltraThinkOptions.t) (aenv : Env.t)
         (config : AgentConfig.t) (problem : string)
         (e : Thrown) (w' : World.t),
    DeepThinkEngine.run aenv P
      (UltraThinkEngine.agentOptions options config problem) World.initial
    = (Throw e, w') ->
    let result :=
      fst (UltraThinkEngine.runAgent P options aenv config problem) in
    AgentResult.status result = Failed /\
    AgentResult.error result = Some (UltraThinkEngine.errorMessage e) /\
    AgentResult.progress result = 20 /\
    AgentResult.solution result = None /\
    AgentResult.verifications result = None.
Proof.
  intros P options aenv config problem e w' H. cbv zeta.
  rewrite (runAgent_handled _ _ _ _ _ _ _ H). cbn [fst].
  cbn [AgentResult.status AgentResult.progress AgentResult.solution
       AgentResult.verifications AgentResult.error].
  split; [reflexivity|]. split; [reflexivity|].
  match goal with
  | |- context [handled ?evs ?st] =>
      destruct (handled_keeps_solution evs st) as (Hs & Hv)
  end.
  rewrite Hs, Hv. split; [|split; reflexivity].
  destruct (run_head aenv P
              (UltraThinkEngine.agentOptions options config problem)
              World.initial) as (rest & Hev & Hz & Hq).
  specialize (Hq e w' H). rewrite H in Hev. simpl in Hev. rewrite Hev.
  rewrite !handled_cons.
  apply handled_quiet; [exact Hz | apply silent_no_success, Hq | reflexivity].
Qed.

Lemma thrown_agent_stops_at_20_witness :
  exists e w',
    DeepThinkEngine.run (Scenario.failing (ThrownError "offline"))
      Scenario.prompts
      (UltraThinkEngine.agentOptions (Scenario.ultraOptions None)
         (AgentConfig.mk "agent_01" "direct" "Compute it.") "2 + 2 = ?")
      World.initial
    = (Throw e, w') /\
    let result :=
      fst (UltraThinkEngine.runAgent Scenario.prompts
             (Scenario.ultraOptions None)
             (Scenario.failing (ThrownError "offline"))
             (AgentConfig.mk "agent_01" "direct" "Compute it.")
             "2 + 2 = ?") in
    AgentResult.status result = Failed /\
    AgentResult.error result = Some (UltraThinkEngine.errorMessage e) /\
    AgentResult.progress result = 20 /\
    AgentResult.solution result = None /\
    AgentResult.verifications result = None.
Proof.
  eexists _, _. split; [vm_compute; reflexivity|].
  eapply (thrown_agent_stops_at_20 Scenario.prompts
            (Scenario.ultraOptions None)
            (Scenario.failing (ThrownError "offline"))
            (AgentConfig.mk "agent_01" "direct" "Compute it.") "2 + 2 = ?").
  vm_compute. reflexivity.
Defined.


Lemma runAgent_completed_iff_returned agentEnv P options position config :
  Status_eqb
    (AgentResult.status
       (fst (UltraThinkEngine.runAgent P options (agentEnv position) config
               (problemOf options)))) Completed
  = engineReturns agentEnv P options position config.
Proof.
  unfold engineReturns.
  destruct (DeepThinkEngine.run (agentEnv position) P
              (UltraThinkEngine.agentOptions options config
                 (problemOf options)) World.initial)
    as [outcome w] eqn:H.
  rewrite (runAgent_handled _ _ _ _ _ _ _ H).
  destruct outcome; reflexivity.
Qed.

Lemma countCompleted_runAgents agentEnv P options :
  forall selected position,
    UltraThinkEngine.countCompleted
      (UltraThinkEngine.runAgents agentEnv P options position selected
         (problemOf options))
    = Z.of_nat (countReturned agentEnv P options position selected).
Proof.
  unfold UltraThinkEngine.countCompleted.
  induction selected as [|config selected IH]; intros position;
    [reflexivity|].
  simpl. rewrite runAgent_completed_iff_returned.
  specialize (IH (S position)).
  destruct (engineReturns agentEnv P options position config); simpl;
    lia.
Qed.

(** In the result of every multi-agent run, completedAgents is the number
    of dispatched agents whose engine returned a result, whether that
    engine ended in success or in failure; only an agent whose engine threw
    is not counted. *)
Theorem completed_agents_are_returned_engines :
  forall (env : Env.t) (agentEnv : nat -> Env.t) (P : Prompts.t)
         (JSON_parse : string -> string + Json) (nullMemberMessage : string)
         (options : UltraThinkOptions.t) (w : World.t)
         (r : UltraThinkResult.t) (w' : World.t),
    UltraThinkEngine.run env agentEnv P JSON_parse nullMemberMessage options w
    = (Ok (UltraThinkEngine.Finished r), w') ->
    exists selected,
      dispatched agentEnv P options r selected /\
      UltraThinkResult.completedAgents r
      = Z.of_nat (countReturned agentEnv P options O selected) /\
      0 <= UltraThinkResult.completedAgents r
        <= UltraThinkResult.totalAgents r.
Proof.
  intros env agentEnv P JSON_parse nullMemberMessage options w r w' H.
  destruct (ultra_run_Finished _ _ _ _ _ _ _ _ _ H)
    as (plan & w1 & value & w2 & configs & _ & _ & _ & _ & Hres & Htot
        & Hdone & _).
  exists (UltraThinkEngine.selectConfigs options configs).
  split.
  { split; [exact Hres|]. split; [|exact Htot].
    rewrite Hres. apply runAgents_ids. }
  assert (Hc : UltraThinkResult.completedAgents r
               = Z.of_nat (countReturned agentEnv P options O
                             (UltraThinkEngine.selectConfigs options
                                configs))).
  { rewrite Hdone, Hres. apply countCompleted_runAgents. }
  split; [exact Hc|]. rewrite Hc, Htot.
  assert (Hle : forall selected position,
             (countReturned agentEnv P options position selected
              <= List.length selected)%nat).
  { induction selected as [|c selected IH]; intros position; simpl;
      [lia|].
    specialize (IH (S position)).
    destruct (engineReturns agentEnv P options position c); lia. }
  specialize (Hle (UltraThinkEngine.selectConfigs options configs) O). lia.
Qed.

Lemma completed_agents_are_returned_engines_witness :
  exists r w',
    UltraThinkEngine.run (Scenario.planning Scenario.twoConfigs "Final.")
      (Scenario.firstAgentFails ThrownValue "No.")
      Scenario.prompts JsonFragment.parse Scenario.nullMemberMessage
      (Scenario.ultraOptions None) World.initial
    = (Ok (UltraThinkEngine.Finished r), w') /\
    map AgentResult.status (UltraThinkResult.agentResults r)
    = [Failed; Completed] /\
    map AgentResult.error (UltraThinkResult.agentResults r)
    = [Some "Unknown error"; Some "Max iterations reached"] /\
    exists selected,
      dispatched (Scenario.firstAgentFails ThrownValue "No.")
        Scenario.prompts (Scenario.ultraOptions None) r selected /\
      UltraThinkResult.completedAgents r
      = Z.of_nat (countReturned (Scenario.firstAgentFails ThrownValue "No.")
                    Scenario.prompts (Scenario.ultraOptions None) O
                    selected) /\
      0 <= UltraThinkResult.completedAgents r
        <= UltraThinkResult.totalAgents r.
Proof.
  eexists _, _. split; [vm_compute; reflexivity|].
  split; [vm_compute; reflexivity|].
  split; [vm_compute; reflexivity|].
  eapply (completed_agents_are_returned_engines
            (Scenario.planning Scenario.twoConfigs "Final.")
            (Scenario.firstAgentFails ThrownValue "No.")
            Scenario.prompts JsonFragment.parse Scenario.nullMemberMessage
            (Scenario.ultraOptions None) World.initial).
  vm_compute. reflexivity.
Defined.

(* ================================================================== *)
(** ** The store under the updates of the agents *)

Lemma updateAgentResult_agents agentId update s :
  GlobalStore.agentResults (GlobalStore.updateAgentResult agentId update s)
  = map (fun agent =>
           if String.eqb (AgentResult.agentId agent) agentId
           then GlobalStore.spread agent update else agent)
      (GlobalStore.agentResults s).
Proof. reflexivity. Qed.

(** The record at a position of the store, after the calls [ups]: the
    patches sent for its id, spread over it in order. *)
Lemma feed_nth ups :
  Forall keepsId ups ->
  forall s k,
    nth_error (GlobalStore.agentResults (feed ups s)) k
    = option_map
        (fun agent =>
           fold_left GlobalStore.spread
             (sentTo (AgentResult.agentId agent) ups) agent)
        (nth_error (GlobalStore.agentResults s) k).
Proof.
  induction 1 as [|[id patch] ups Hk _ IH]; intros s k.
  - simpl. destruct (nth_error _ k); reflexivity.
  - unfold feed in *. simpl fold_left. rewrite IH.
    rewrite updateAgentResult_agents, nth_error_map. simpl fst. simpl snd.
    destruct (nth_error (GlobalStore.agentResults s) k) as [agent|];
      [|reflexivity].
    unfold keepsId in Hk. simpl in Hk.
    assert (Hid : AgentResult.agentId (GlobalStore.spread agent patch)
                  = AgentResult.agentId agent).
    { simpl. rewrite Hk. reflexivity. }
    unfold sentTo. cbn [option_map filter fst snd].
    destruct (String.eqb (AgentResult.agentId agent) id) eqn:E.
    + rewrite Hid. reflexivity.
    + reflexivity.
Qed.

Lemma AgentResult_ext (a b : AgentResult.t) :
  AgentResult.agentId a = AgentResult.agentId b ->
  AgentResult.approach a = AgentResult.approach b ->
  AgentResult.specificPrompt a = AgentResult.specificPrompt b ->
  AgentResult.status a = AgentResult.status b ->
  AgentResult.progress a = AgentResult.progress b ->
  AgentResult.solution a = AgentResult.solution b ->
  AgentResult.verifications a = AgentResult.verifications b ->
  AgentResult.error a = AgentResult.error b ->
  a = b.
Proof. destruct a, b; simpl; intros; subst; reflexivity. Qed.

(** The patches of the updates that the handler sends keep a store record
    in agreement with the result that the handler builds. *)
Lemma handled_spread evs :
  forall st agent,
    agree agent (fst st) ->
    exists sent,
      snd (handled evs st) = (snd st ++ sent)%list /\
      agree (fold_left GlobalStore.spread (map patchOfUpdate sent) agent)
        (fst (handled evs st)) /\
      sameRest agent
        (fold_left GlobalStore.spread (map patchOfUpdate sent) agent).
Proof.
  induction evs as [|event evs IH]; intros st agent Ha.
  - exists []. rewrite app_nil_r. simpl.
    split; [reflexivity|]. split; [exact Ha|]. repeat split.
  - rewrite handled_cons.
    assert (Hstep :
      exists one,
        snd (UltraThinkEngine.onProgress event st) = (snd st ++ one)%list /\
        agree (fold_left GlobalStore.spread (map patchOfUpdate one) agent)
          (fst (UltraThinkEngine.onProgress event st)) /\
        sameRest agent
          (fold_left GlobalStore.spread (map patchOfUpdate one) agent)).
    { destruct Ha as (H1 & H2 & H3).
      destruct st as [result updates], event; simpl in *;
        try (exists []; rewrite app_nil_r; simpl;
             repeat split; assumption);
        (eexists [_]; split; [reflexivity|]; simpl;
         repeat split; assumption). }
    destruct Hstep as (one & Hone & Hagree & Hrest).
    destruct (IH _ _ Hagree) as (sent & Hsent & Hagree' & Hrest').
    exists (one ++ sent)%list. rewrite Hsent, Hone, <- app_assoc.
    split; [reflexivity|]. rewrite map_app, fold_left_app.
    split; [exact Hagree'|].
    destruct Hrest as (A1 & A2 & A3 & A4 & A5).
    destruct Hrest' as (B1 & B2 & B3 & B4 & B5).
    repeat split; congruence.
Qed.

Section StoreFollowsAgent.
Variable P : Prompts.t.
Variable options : UltraThinkOptions.t.
Variable aenv : Env.t.
Variable config : AgentConfig.t.
Variable problem : string.

(** The patches of one agent, spread over a fresh record of its id, give
    the result of [runAgent]. *)
Lemma agentStream_spread agent :
  AgentResult.agentId agent = AgentConfig.agentId config ->
  fresh agent ->
  fold_left GlobalStore.spread (agentStream P options aenv config problem)
    agent
  = fst (UltraThinkEngine.runAgent P options aenv config problem).
Proof.
  intros Hid (Hs & Hv & He). unfold agentStream.
  destruct (DeepThinkEngine.run aenv P
              (UltraThinkEngine.agentOptions options config problem)
              World.initial) as [outcome w] eqn:H.
  rewrite (runAgent_handled _ _ _ _ _ _ _ H). cbv zeta.
  destruct (run_head aenv P
              (UltraThinkEngine.agentOptions options config problem)
              World.initial) as (rest & Hev & _ & _).
  rewrite H in Hev. simpl in Hev. rewrite Hev. rewrite !handled_cons.
  cbn [UltraThinkEngine.onProgress].
  match goal with
  | |- context [handled rest (?result, ?updates)] =>
      destruct (handled_spread rest (result, updates)
                  (fold_left GlobalStore.spread
                     (map patchOfUpdate updates)
                     (GlobalStore.spread agent (announcement config))))
        as (sent & Hsent & (A1 & A2 & A3) & (B1 & B2 & B3 & B4 & B5));
      [unfold agree; simpl; rewrite He; repeat split; reflexivity|];
      destruct (handled_identity rest (result, updates)) as (I1 & I2 & I3);
      destruct (handled_keeps_solution rest (result, updates)) as (K1 & K2)
  end.
  unfold handled in *.
  destruct outcome as [r|err]; cbn [fst snd]; rewrite Hsent;
    rewrite !map_app; cbn [map app fold_left];
    rewrite !fold_left_app; cbn [fold_left];
    apply AgentResult_ext; simpl in *; congruence.
Qed.
End StoreFollowsAgent.

Lemma feed_ids ups :
  Forall keepsId ups ->
  forall s,
    map AgentResult.agentId (GlobalStore.agentResults (feed ups s))
    = map AgentResult.agentId (GlobalStore.agentResults s).
Proof.
  induction 1 as [|[id patch] ups Hk _ IH]; intros s; [reflexivity|].
  unfold feed in *. simpl fold_left. rewrite IH.
  rewrite updateAgentResult_agents, map_map. apply map_ext.
  intros agent. simpl. destruct (String.eqb _ id); [|reflexivity].
  unfold keepsId in Hk. simpl in Hk |- *. rewrite Hk. reflexivity.
Qed.

(** updateAgentResult changes only the agents with the given id: the
    number and the order of the agents and every other field of the store
    stay as they are, an agent with another id is left untouched, and when
    no agent has the id the store is unchanged. *)
Theorem update_touches_only_its_agent :
  forall (agentId : string) (update : AgentPatch.t) (s : GlobalStore.t),
    let s' := GlobalStore.updateAgentResult agentId update s in
    List.length (GlobalStore.agentResults s')
    = List.length (GlobalStore.agentResults s) /\
    GlobalStore.setAgentResults (GlobalStore.agentResults s) s' = s /\
    (forall k agent,
        nth_error (GlobalStore.agentResults s) k = Some agent ->
        nth_error (GlobalStore.agentResults s') k
        = Some (if String.eqb (AgentResult.agentId agent) agentId
                then GlobalStore.spread agent update else agent)) /\
    ((forall agent,
         In agent (GlobalStore.agentResults s) ->
         String.eqb (AgentResult.agentId agent) agentId = false) ->
     s' = s).
Proof.
  intros agentId update s. cbv zeta.
  split; [rewrite updateAgentResult_agents; apply length_map|].
  split; [destruct s; reflexivity|]. split.
  - intros k agent Hk. rewrite updateAgentResult_agents, nth_error_map, Hk.
    reflexivity.
  - intros Hno. destruct s as [a b c d e f g h i j agents].
    unfold GlobalStore.updateAgentResult, GlobalStore.setAgentResults.
    simpl in *. f_equal.
    induction agents as [|agent agents IH]; [reflexivity|].
    simpl. rewrite (Hno agent (or_introl eq_refl)). f_equal.
    apply IH. intros agent' Hin. apply Hno. right. exact Hin.
Qed.

(** The store follows each agent of a multi-agent run.  However the
    updates of the agents interleave, when the patches sent for an agent
    are its announcement followed by the updates of its runAgent, a store
    record of that agent's id that held no solution, verifications or
    error before the run (a placeholder) ends equal to the AgentResult that
    runAgent returns. *)
Theorem store_record_follows_agent :
  forall (P : Prompts.t) (options : UltraThinkOptions.t) (aenv : Env.t)
         (config : AgentConfig.t) (problem : string)
         (ups : list (string * AgentPatch.t)) (s : GlobalStore.t)
         (k : nat) (agent : AgentResult.t),
    Forall keepsId ups ->
    sentTo (AgentConfig.agentId config) ups
    = agentStream P options aenv config problem ->
    nth_error (GlobalStore.agentResults s) k = Some agent ->
    AgentResult.agentId agent = AgentConfig.agentId config ->
    fresh agent ->
    nth_error (GlobalStore.agentResults (feed ups s)) k
    = Some (fst (UltraThinkEngine.runAgent P options aenv config problem)).
Proof.
  intros P options aenv config problem ups s k agent Hkeep Hsent Hk Hid
    Hfresh.
  rewrite (feed_nth ups Hkeep), Hk. simpl. rewrite Hid, Hsent.
  f_equal. apply agentStream_spread; assumption.
Qed.

Lemma store_record_follows_agent_witness :
  let config1 := AgentConfig.mk "agent_01" "direct" "Compute it." in
  let config2 := AgentConfig.mk "agent_02" "indirect" "Argue." in
  let stream1 :=
    agentStream Scenario.prompts (Scenario.ultraOptions None)
      (Scenario.replying "Yes.") config1 "2 + 2 = ?" in
  let stream2 :=
    agentStream Scenario.prompts (Scenario.ultraOptions None)
      (Scenario.failing ThrownValue) config2 "2 + 2 = ?" in
  let ups :=
    (map (pair "agent_01") (firstn 2 stream1)
     ++ map (pair "agent_02") stream2
     ++ map (pair "agent_01") (skipn 2 stream1))%list in
  let s := initAgents "..." (Some 2) GlobalStore.initial in
  nth_error (GlobalStore.agentResults (feed ups s)) 0
  = Some (fst (UltraThinkEngine.runAgent Scenario.prompts
                 (Scenario.ultraOptions None) (Scenario.replying "Yes.")
                 config1 "2 + 2 = ?")).
Proof.
  cbv zeta.
  eapply (store_record_follows_agent Scenario.prompts
            (Scenario.ultraOptions None) (Scenario.replying "Yes.")
            (AgentConfig.mk "agent_01" "direct" "Compute it.") "2 + 2 = ?").
  - vm_compute. repeat constructor.
  - vm_compute. reflexivity.
  - vm_compute. reflexivity.
  - reflexivity.
  - vm_compute. repeat split.
Defined.

(** The store shows the placeholders only.  Whatever updates arrive during
    a multi-agent run, the agents in the store are those that
    runUltraThinkMode put there before the run, by id and in order; with
    the agent count left to the model (no count, or the 0 of the form) the
    list of agents in the store is empty and stays empty: every update of
    every agent is dropped. *)
Theorem store_shows_placeholders_only :
  forall (preparing : string) (numAgents : option Z)
         (ups : list (string * AgentPatch.t)) (s : GlobalStore.t),
    Forall keepsId ups ->
    map AgentResult.agentId
      (GlobalStore.agentResults
         (feed ups (initAgents preparing numAgents s)))
    = map AgentResult.agentId (placeholders preparing numAgents) /\
    GlobalStore.agentResults
      (feed ups (initAgents preparing (formNumAgents 0) s)) = [] /\
    GlobalStore.agentResults (feed ups (initAgents preparing None s)) = [].
Proof.
  intros preparing numAgents ups s Hkeep.
  assert (Hempty : forall s0,
             GlobalStore.agentResults s0 = [] ->
             GlobalStore.agentResults (feed ups s0) = []).
  { intros s0 H0. pose proof (feed_ids ups Hkeep s0) as Hids.
    rewrite H0 in Hids. simpl in Hids.
    destruct (GlobalStore.agentResults (feed ups s0)); [reflexivity|].
    discriminate Hids. }
  split; [apply (feed_ids ups Hkeep)|].
  split; apply Hempty; reflexivity.
Qed.

Lemma store_shows_placeholders_only_witness :
  let ups :=
    map (pair "agent_01")
      (agentStream Scenario.prompts (Scenario.ultraOptions None)
         (Scenario.replying "Yes.")
         (AgentConfig.mk "agent_01" "direct" "Compute it.") "2 + 2 = ?") in
  map AgentResult.agentId
    (GlobalStore.agentResults
       (feed ups (initAgents "..." (Some 11) GlobalStore.initial)))
  = map AgentResult.agentId (placeholders "..." (Some 11)) /\
  GlobalStore.agentResults
    (feed ups (initAgents "..." (formNumAgents 0) GlobalStore.initial)) = []
  /\
  GlobalStore.agentResults
    (feed ups (initAgents "..." None GlobalStore.initial)) = [].
Proof.
  cbv zeta. apply store_shows_placeholders_only.
  vm_compute. repeat constructor.
Defined.

(* ================================================================== *)
(** ** The hook: what the user sees of a single-agent run *)

Section HookFacts.
Variable translate : string -> list (string * Hook.TArg) -> string.
Variable parseError : Thrown -> string.

Lemma progressed_app evs evs' h :
  Hook.progressed translate (evs ++ evs') h
  = Hook.progressed translate evs' (Hook.progressed translate evs h).
Proof. unfold Hook.progressed. apply fold_left_app. Qed.

Lemma progressed_toasts evs :
  forall h,
    Hook.toasts (Hook.progressed translate evs h)
    = (Hook.toasts h ++ Hook.toastsOf translate evs)%list.
Proof.
  induction evs as [|event evs IH]; intros h.
  - simpl. rewrite app_nil_r. reflexivity.
  - unfold Hook.progressed in *. simpl fold_left. rewrite IH.
    destruct event; simpl; try reflexivity;
      rewrite <- app_assoc; reflexivity.
Qed.

Lemma progressed_solution evs :
  forall h,
    GlobalStore.currentSolution
      (Hook.store (Hook.progressed translate evs h))
    = solutionAfter (GlobalStore.currentSolution (Hook.store h)) evs.
Proof.
  induction evs as [|event evs IH]; intros h; [reflexivity|].
  unfold Hook.progressed in *. simpl fold_left.
  rewrite IH, solutionAfter_cons. destruct event; reflexivity.
Qed.

Lemma toastsOf_app evs evs' :
  Hook.toastsOf translate (evs ++ evs')
  = (Hook.toastsOf translate evs ++ Hook.toastsOf translate evs')%list.
Proof.
  induction evs as [|event evs IH]; [reflexivity|].
  simpl. destruct event; rewrite ?IH; reflexivity.
Qed.

Lemma toastsOf_quiet evs :
  filter isSuccess evs = [] -> filter isFailure evs = [] ->
  Hook.toastsOf translate evs = [].
Proof.
  induction evs as [|event evs IH]; [reflexivity|].
  destruct event; simpl; intros Hs Hf; try discriminate; auto.
Qed.

Lemma finishesWith_toasts evs tail problem :
  finishesWith evs tail ->
  Hook.toastsOf translate (EInit problem :: evs)
  = Hook.toastsOf translate tail.
Proof.
  intros (before & -> & Hs & Hf). simpl.
  rewrite toastsOf_app, (toastsOf_quiet _ Hs Hf). reflexivity.
Qed.

Lemma progressed_last_status evs event h :
  Hook.status (Hook.progressed translate (evs ++ [event]) h)
  = Hook.status (Hook.handleProgress translate event h).
Proof.
  rewrite progressed_app. unfold Hook.progressed at 1. simpl.
  destruct event; reflexivity.
Qed.
End HookFacts.

(** What the hook shows after a single-agent run that returns, from any
    state of the hook: runDeepThinkMode hands the result back, the store's
    currentSolution is the final solution, and the events of the run have
    shown either one success toast (the run ended in success, and the
    status text is the success text) or error toasts only (the run ended
    in failure, and the status text is the failure text): one error toast
    per failure event, so two identical ones when the run gave up after too
    many errors. *)
Theorem hook_after_returning_run :
  forall (translate : string -> list (string * Hook.TArg) -> string)
         (parseError : Thrown -> string)
         (env : Env.t) (P : Prompts.t) (options : DeepThinkOptions.t)
         (h : Hook.t) (r : DeepThinkResult.t) (w' : World.t),
    DeepThinkEngine.run env P options World.initial = (Ok r, w') ->
    let success := translate "deepThink.status.success" [] in
    let failure := translate "deepThink.status.failure" [] in
    let h' :=
      snd (Hook.runDeepThinkMode translate parseError env P options h) in
    fst (Hook.runDeepThinkMode translate parseError env P options h)
    = Some r /\
    GlobalStore.currentSolution (Hook.store h')
    = DeepThinkResult.finalSolution r /\
    (terminal w' = Some Success ->
     Hook.status h' = success /\
     Hook.toasts h' = (Hook.toasts h ++ [Hook.ToastSuccess success])%list) /\
    (terminal w' = Some Failure ->
     Hook.status h' = failure /\
     Hook.toasts h'
     = (Hook.toasts h ++
        repeat (Hook.ToastError failure) (failureEvents w'))%list).
Proof.
  intros translate parseError env P options h r w' H. cbv zeta.
  unfold Hook.runDeepThinkMode. rewrite H. cbn [fst snd].
  split; [reflexivity|].
  destruct (run_account _ _ _ _ _ _ H)
    as (_ & _ & _ & evs & cs & Hev & _ & _ & _ & _ & Hsol & Hx).
  simpl in Hev. rewrite Hev.
  split.
  { rewrite progressed_solution. unfold solutionAfter. simpl.
    rewrite Hsol. reflexivity. }
  rewrite progressed_toasts. unfold terminal, failureEvents. rewrite Hev.
  destruct Hx as [(He & _)|[(He & _)|(He & _)]];
    rewrite (finishesWith_toasts translate _ _ _ He);
    pose proof He as (before & Hb & Hs & Hf).
  - rewrite (finishesWith_lastEvent _ [] _ _ He).
    split; [|intros Hterm; discriminate Hterm]. intros _.
    split; [|reflexivity].
    rewrite Hb. rewrite app_comm_cons. apply progressed_last_status.
  - rewrite (finishesWith_lastEvent _ [] _ _ He).
    split; [intros Hterm; discriminate Hterm|]. intros _.
    split.
    + rewrite Hb. rewrite app_comm_cons. apply progressed_last_status.
    + rewrite Hb. simpl. rewrite filter_app, Hf. reflexivity.
  - rewrite (finishesWith_lastEvent _ [_] _ _ He).
    split; [intros Hterm; discriminate Hterm|]. intros _.
    split.
    + rewrite Hb.
      replace (before ++ [EFailure "Too many errors";
                          EFailure "Max iterations reached"])%list
        with ((before ++ [EFailure "Too many errors"]) ++
              [EFailure "Max iterations reached"])%list
        by (rewrite <- app_assoc; reflexivity).
      rewrite app_comm_cons. apply progressed_last_status.
    + rewrite Hb. simpl. rewrite filter_app, Hf. reflexivity.
Qed.

Lemma hook_after_returning_run_witness :
  let translate := fun (key : string) (_ : list (string * Hook.TArg)) => key in
  let parseError := UltraThinkEngine.errorMessage in
  let options := Scenario.options (Some 5) (Some 2) (Some 3) in
  let h := Hook.mk EmptyString GlobalStore.initial [] in
  exists r w',
    DeepThinkEngine.run (Scenario.replying "No.") Scenario.prompts options
      World.initial = (Ok r, w') /\
    Hook.toasts
      (snd (Hook.runDeepThinkMode translate parseError
              (Scenario.replying "No.") Scenario.prompts options h))
    = [Hook.ToastError "deepThink.status.failure";
       Hook.ToastError "deepThink.status.failure"] /\
    let success := translate "deepThink.status.success" [] in
    let failure := translate "deepThink.status.failure" [] in
    let h' :=
      snd (Hook.runDeepThinkMode translate parseError
             (Scenario.replying "No.") Scenario.prompts options h) in
    fst (Hook.runDeepThinkMode translate parseError
           (Scenario.replying "No.") Scenario.prompts options h)
    = Some r /\
    GlobalStore.currentSolution (Hook.store h')
    = DeepThinkResult.finalSolution r /\
    (terminal w' = Some Success ->
     Hook.status h' = success /\
     Hook.toasts h' = (Hook.toasts h ++ [Hook.ToastSuccess success])%list) /\
    (terminal w' = Some Failure ->
     Hook.status h' = failure /\
     Hook.toasts h'
     = (Hook.toasts h ++
        repeat (Hook.ToastError failure) (failureEvents w'))%list).
Proof.
  cbv zeta. eexists _, _. split; [vm_compute; reflexivity|].
  split; [vm_compute; reflexivity|].
  eapply (hook_after_returning_run (fun key _ => key)
            UltraThinkEngine.errorMessage (Scenario.replying "No.")
            Scenario.prompts (Scenario.options (Some 5) (Some 2) (Some 3))).
  vm_compute. reflexivity.
Defined.

(** What the hook shows after a single-agent run that throws:
    runDeepThinkMode hands back no result, and the only toast shown since
    the start of the run is the error toast of handleError, with the text
    that parseError gives for the thrown value; the events of the run have
    shown none. *)
Theorem hook_after_thrown_run :
  forall (translate : string -> list (string * Hook.TArg) -> string)
         (parseError : Thrown -> string)
         (env : Env.t) (P : Prompts.t) (options : DeepThinkOptions.t)
         (h : Hook.t) (e : Thrown) (w' : World.t),
    DeepThinkEngine.run env P options World.initial = (Throw e, w') ->
    fst (Hook.runDeepThinkMode translate parseError env P options h) = None
    /\
    Hook.toasts
      (snd (Hook.runDeepThinkMode translate parseError env P options h))
    = (Hook.toasts h ++ [Hook.ToastError (parseError e)])%list.
Proof.
  intros translate parseError env P options h e w' H.
  unfold Hook.runDeepThinkMode. rewrite H. cbn [fst snd].
  split; [reflexivity|].
  unfold Hook.handleError, Hook.toast. cbn [Hook.toasts].
  rewrite progressed_toasts.
  destruct (run_throwsQuietly env P options World.initial e w' H)
    as (evs & Hev & Hq).
  simpl in Hev. rewrite Hev.
  assert (Hnone : Hook.toastsOf translate evs = []).
  { clear Hev. induction Hq as [|event evs (Hs & Hf) _ IH]; [reflexivity|].
    destruct event; simpl in *; try discriminate; exact IH. }
  rewrite Hnone, app_nil_r. reflexivity.
Qed.

Lemma hook_after_thrown_run_witness :
  let translate := fun (key : string) (_ : list (string * Hook.TArg)) => key in
  let parseError := UltraThinkEngine.errorMessage in
  let options := Scenario.options (Some 5) (Some 2) (Some 3) in
  let h := Hook.mk EmptyString GlobalStore.initial [] in
  fst (Hook.runDeepThinkMode translate parseError
         (Scenario.failing (ThrownError "offline")) Scenario.prompts
         options h) = None /\
  Hook.toasts
    (snd (Hook.runDeepThinkMode translate parseError
            (Scenario.failing (ThrownError "offline")) Scenario.prompts
            options h))
  = (Hook.toasts h ++ [Hook.ToastError (parseError (ThrownError "offline"))])%list.
Proof.
  cbv zeta.
  eapply (hook_after_thrown_run (fun key _ => key)
            UltraThinkEngine.errorMessage
            (Scenario.failing (ThrownError "offline")) Scenario.prompts
            (Scenario.options (Some 5) (Some 2) (Some 3))).
  vm_compute. reflexivity.
Defined.

(* ================================================================== *)
(** ** The knowledge context, from the form to the prompts *)

Lemma isEmpty_eq s : isEmpty s = true <-> s = EmptyString.
Proof. destruct s; simpl; split; intros H; try reflexivity; discriminate. Qed.

Lemma knowledgeText_usable getKnowledge item :
  knowledgeText getKnowledge item <> [] <-> usable getKnowledge item.
Proof.
  unfold knowledgeText, usable.
  destruct (Resource.status item);
    try (split; [intros H; contradiction | intros [H _]; discriminate H]).
  destruct (getKnowledge (Resource.id item)) as [knowledge|].
  - destruct (isEmpty (Knowledge.content knowledge)) eqn:E; simpl.
    + apply isEmpty_eq in E. split; [intros H; contradiction|].
      intros (_ & kn & Hk & Hc). injection Hk as <-. contradiction.
    + split; [|intros _; discriminate].
      intros _. split; [reflexivity|]. exists knowledge.
      split; [reflexivity|]. intros Hc. rewrite Hc in E. discriminate E.
  - split; [intros H; contradiction|].
    intros (_ & kn & Hk & _). discriminate Hk.
Qed.

Lemma knowledgeText_head getKnowledge item text :
  In text (knowledgeText getKnowledge item) ->
  exists rest, text = "### " ++ rest.
Proof.
  unfold knowledgeText. destruct (Resource.status item); try contradiction.
  destruct (getKnowledge _) as [knowledge|]; [|contradiction].
  destruct (negb _); [|contradiction].
  intros [<-|[]]. eexists. reflexivity.
Qed.

Lemma join_head sep text texts rest :
  text = "### " ++ rest ->
  exists rest', join sep (text :: texts) = "### " ++ rest'.
Proof.
  intros ->. destruct texts as [|t texts]; simpl; eexists; reflexivity.
Qed.

Lemma flat_map_nil {A B} (f : A -> list B) xs :
  flat_map f xs = [] <-> forall x, In x xs -> f x = [].
Proof.
  induction xs as [|x xs IH]; simpl.
  - split; [intros _ x []|reflexivity].
  - split.
    + intros H. apply app_eq_nil in H. destruct H as [H1 H2].
      intros y [<-|Hy]; [exact H1 | apply IH; assumption].
    + intros H. rewrite (H x (or_introl eq_refl)).
      apply IH. intros y Hy. apply H. right. exact Hy.
Qed.

(** collectKnowledgeContext returns the empty string exactly when no
    resource is completed with stored, non-empty content; otherwise it
    returns the blocks of those resources in resource order, joined by the
    rule, a text that starts with "### ". *)
Theorem knowledge_context_empty_iff :
  forall (resources : list Resource.t)
         (getKnowledge : string -> option Knowledge.t),
    let k := collectKnowledgeContext resources getKnowledge in
    (k = EmptyString <->
     forall item, In item resources -> ~ usable getKnowledge item) /\
    (k <> EmptyString ->
     k = join (LF ++ LF ++ "---" ++ LF ++ LF)
           (flat_map (knowledgeText getKnowledge) resources) /\
     exists rest, k = "### " ++ rest).
Proof.
  intros resources getKnowledge. cbv zeta.
  unfold collectKnowledgeContext.
  destruct resources as [|item0 resources0] eqn:Hres.
  { simpl. split; [|intros H; contradiction].
    split; [intros _ item []|reflexivity]. }
  rewrite <- Hres. replace (List.length resources =? 0)%nat with false
    by (rewrite Hres; reflexivity).
  destruct (flat_map (knowledgeText getKnowledge) resources)
    as [|text texts] eqn:Hflat.
  - simpl. split; [|intros H; contradiction].
    split; [|reflexivity]. intros _ item Hin Hu.
    apply knowledgeText_usable in Hu. apply Hu.
    exact (proj1 (flat_map_nil _ _) Hflat item Hin).
  - cbn [List.length Nat.eqb].
    assert (Hhead : exists rest, text = "### " ++ rest).
    { assert (Hin : In text (flat_map (knowledgeText getKnowledge)
                               resources))
        by (rewrite Hflat; left; reflexivity).
      apply in_flat_map in Hin. destruct Hin as (item & _ & Hin).
      exact (knowledgeText_head _ _ _ Hin). }
    destruct Hhead as (rest & Hrest).
    destruct (join_head (LF ++ LF ++ "---" ++ LF ++ LF) text texts rest
                Hrest) as (rest' & Hjoin).
    split.
    + split.
      * intros H. rewrite Hjoin in H. discriminate H.
      * intros Hno. exfalso.
        assert (Hnil : flat_map (knowledgeText getKnowledge) resources = []).
        { apply flat_map_nil. intros item Hin.
          destruct (knowledgeText getKnowledge item) eqn:E; [reflexivity|].
          exfalso. apply (Hno item Hin). apply knowledgeText_usable.
          rewrite E. discriminate. }
        rewrite Hnil in Hflat. discriminate Hflat.
    + intros _. split; [reflexivity|]. exists rest'. exact Hjoin.
Qed.

Lemma knowledge_context_shape resources getKnowledge :
  collectKnowledgeContext resources getKnowledge = EmptyString \/
  exists rest,
    collectKnowledgeContext resources getKnowledge = "### " ++ rest.
Proof.
  unfold collectKnowledgeContext.
  destruct (List.length resources =? 0)%nat; [left; reflexivity|].
  destruct (flat_map (knowledgeText getKnowledge) resources)
    as [|text texts] eqn:Hflat; [left; reflexivity|].
  right. cbn [List.length Nat.eqb].
  assert (Hin : In text (flat_map (knowledgeText getKnowledge) resources))
    by (rewrite Hflat; left; reflexivity).
  apply in_flat_map in Hin. destruct Hin as (item & _ & Hin).
  destruct (knowledgeText_head _ _ _ Hin) as (rest & Hrest).
  exact (join_head _ text texts rest Hrest).
Qed.

Lemma append_assoc_s (a b c : string) : (a ++ b) ++ c = a ++ b ++ c.
Proof. induction a as [|x a IH]; simpl; [reflexivity | now rewrite IH]. Qed.


Lemma trim_head rest : isEmpty (trim ("### " ++ rest)) = false.
Proof.
  unfold trim. simpl trimStart. cbn [append trimEnd].
  destruct (trimEnd _); reflexivity.
Qed.

(** For the knowledge context that the form collects, the engine's two
    prompts decide alike.  When the context is empty, the system prompt of
    the improvement and correction calls is the plain initial prompt and
    the initial thinking prompt is the one built without knowledge.  When
    it is not, both carry it in a knowledge section appended to the initial
    prompt.  (The two tests differ on a blank context, which the form never
    produces.) *)
Theorem knowledge_sections_agree :
  forall (P : Prompts.t) (options : DeepThinkOptions.t)
         (resources : list Resource.t)
         (getKnowledge : string -> option Knowledge.t)
         (problem : string) (others : list string),
    let k := collectKnowledgeContext resources getKnowledge in
    let o := withKnowledgeContext (Some k) options in
    let prompt := Prompts.deepThinkInitialPrompt P in
    if isEmpty k then
      DeepThinkEngine.systemPromptWithKnowledge P o = prompt /\
      buildInitialThinkingPrompt P problem others (Some k)
      = buildInitialThinkingPrompt P problem others None
    else
      DeepThinkEngine.systemPromptWithKnowledge P o
      = prompt ++ knowledgeSection EmptyString k /\
      buildInitialThinkingPrompt P problem others (Some k)
      = buildInitialThinkingPrompt
          (withInitialPrompt (prompt ++ knowledgeSection knowledgeIntro k) P)
          problem others None.
Proof.
  intros P options resources getKnowledge problem others. cbv zeta.
  destruct (knowledge_context_shape resources getKnowledge) as [Hk|Hk].
  - rewrite Hk. simpl. split; reflexivity.
  - destruct Hk as (rest & Hk). rewrite Hk.
    unfold DeepThinkEngine.systemPromptWithKnowledge,
      buildInitialThinkingPrompt, withKnowledgeContext.
    cbn [DeepThinkOptions.knowledgeContext].
    rewrite trim_head. cbn [isEmpty append negb andb].
    cbn [withInitialPrompt Prompts.deepThinkInitialPrompt].
    unfold knowledgeSection, knowledgeIntro, LF.
    split; repeat (rewrite ?append_assoc_s; simpl); reflexivity.
Qed.

(* ================================================================== *)
(** ** The textual fallback: the markdown fence *)

Lemma take_app_length (pre s : string) :
  take (String.length pre) (pre ++ s) = pre.
Proof.
  induction pre as [|c pre IH]; simpl; [destruct s; reflexivity|].
  now rewrite IH.
Qed.

Lemma endsWith_app (pre p : string) : endsWith p (pre ++ p) = true.
Proof.
  unfold endsWith. rewrite string_length_app.
  replace (String.length p <=? String.length pre + String.length p)%nat
    with true by (symmetry; apply Nat.leb_le; lia).
  replace (String.length pre + String.length p - String.length p)%nat
    with (String.length pre) by lia.
  rewrite drop_app_length. simpl. apply String.eqb_refl.
Qed.

Lemma slice2_drops_suffix (pre : string) :
  slice2 0 (-3) (pre ++ BACKTICKS) = pre.
Proof.
  unfold slice2, sliceIndex, clamp. simpl (0 <? 0). simpl (-3 <? 0).
  cbv iota. rewrite string_length_app. simpl (String.length BACKTICKS).
  replace (Z.to_nat (Z.max (Z.of_nat (String.length pre + 3) + -3) 0))
    with (String.length pre) by lia.
  simpl (Z.to_nat 0). simpl Nat.min. rewrite Nat.sub_0_r. simpl drop.
  replace (drop 0 (pre ++ BACKTICKS)) with (pre ++ BACKTICKS)
    by (destruct (pre ++ BACKTICKS); reflexivity).
  apply take_app_length.
Qed.

Lemma prefix_json_fence (inner : string) :
  String.prefix "json" inner = false ->
  String.prefix "json" (inner ++ BACKTICKS) = false.
Proof.
  intros H.
  destruct (String.prefix "json" (inner ++ BACKTICKS)) eqn:E;
    [|reflexivity].
  exfalso. apply prefix_split in E.
  destruct inner as [|a [|b [|c [|d inner]]]]; simpl in E;
    try discriminate E.
  injection E as -> -> -> ->.
  change (String "j" (String "s" (String "o" (String "n" inner))))
    with ("json" ++ inner) in H.
  rewrite prefix_app in H. discriminate H.
Qed.

(** stripFence unwraps a fenced reply: when the reply, trimmed, is a text
    enclosed by three backticks, with or without the language tag "json"
    after the opening ones, stripFence returns the enclosed text, trimmed. *)
Theorem stripFence_unwraps_fence :
  forall (text inner : string),
    (trim text = BACKTICKS ++ "json" ++ inner ++ BACKTICKS ->
     UltraThinkEngine.stripFence text = trim inner) /\
    (trim text = BACKTICKS ++ inner ++ BACKTICKS ->
     startsWith "json" inner = false ->
     UltraThinkEngine.stripFence text = trim inner).
Proof.
  intros text inner. split.
  - intros H. unfold UltraThinkEngine.stripFence. rewrite H.
    change (BACKTICKS ++ "json" ++ inner ++ BACKTICKS)
      with ((BACKTICKS ++ "json") ++ (inner ++ BACKTICKS)).
    cbv zeta. unfold startsWith. rewrite prefix_app. cbv iota.
    assert (Hs : slice1 7 ((BACKTICKS ++ "json") ++ inner ++ BACKTICKS)
                 = inner ++ BACKTICKS).
    { unfold slice1, sliceIndex, clamp. simpl (7 <? 0). cbv iota.
      rewrite string_length_app.
      replace (Nat.min (Z.to_nat 7)
                 (String.length (BACKTICKS ++ "json")
                  + String.length (inner ++ BACKTICKS)))
        with (String.length (BACKTICKS ++ "json")) by (simpl; lia).
      apply drop_app_length. }
    rewrite Hs, endsWith_app, slice2_drops_suffix. reflexivity.
  - intros H Hjson. unfold UltraThinkEngine.stripFence. rewrite H.
    unfold startsWith in *.
    assert (H1 : String.prefix (BACKTICKS ++ "json")
                   (BACKTICKS ++ inner ++ BACKTICKS) = false).
    { simpl. exact (prefix_json_fence inner Hjson). }
    cbv zeta. rewrite H1, prefix_app. cbv iota.
    assert (Hs : slice1 3 (BACKTICKS ++ inner ++ BACKTICKS)
                 = inner ++ BACKTICKS).
    { unfold slice1, sliceIndex, clamp. simpl (3 <? 0). cbv iota.
      rewrite string_length_app.
      replace (Nat.min (Z.to_nat 3)
                 (String.length BACKTICKS
                  + String.length (inner ++ BACKTICKS)))
        with (String.length BACKTICKS) by (simpl; lia).
      apply drop_app_length. }
    rewrite Hs, endsWith_app, slice2_drops_suffix. reflexivity.
Qed.

Lemma stripFence_unwraps_fence_witness :
  UltraThinkEngine.stripFence Scenario.agentsObjectText
  = trim (drop 7 (take (String.length Scenario.agentsObjectText - 3)
                    Scenario.agentsObjectText)) /\
  UltraThinkEngine.stripFence (BACKTICKS ++ "[]" ++ BACKTICKS) = trim "[]".
Proof.
  split.
  - apply (proj1 (stripFence_unwraps_fence Scenario.agentsObjectText
                    (drop 7 (take (String.length Scenario.agentsObjectText
                                   - 3)
                               Scenario.agentsObjectText)))).
    vm_compute. reflexivity.
  - apply (proj2 (stripFence_unwraps_fence (BACKTICKS ++ "[]" ++ BACKTICKS)
                    "[]")); vm_compute; reflexivity.
Defined.

(* ================================================================== *)
(** ** The selection of the configurations, for every agent count *)

(** The configurations that a multi-agent run dispatches are always the
    first ones of the planned list, in generation order, whatever the
    configured agent count: a count of at least the number of planned
    configurations dispatches all of them, and a negative count -k drops
    the last k. *)
Theorem selection_is_a_prefix :
  forall (env : Env.t) (agentEnv : nat -> Env.t) (P : Prompts.t)
         (JSON_parse : string -> string + Json) (nullMemberMessage : string)
         (options : UltraThinkOptions.t) (w : World.t)
         (r : UltraThinkResult.t) (w' : World.t),
    UltraThinkEngine.run env agentEnv P JSON_parse nullMemberMessage options w
    = (Ok (UltraThinkEngine.Finished r), w') ->
    exists configs w2 selected rest,
      planned env P JSON_parse nullMemberMessage options w configs w2 /\
      dispatched agentEnv P options r selected /\
      configs = (selected ++ rest)%list /\
      (forall M,
          UltraThinkOptions.numAgents options = Some M ->
          Z.of_nat (List.length configs) <= M ->
          rest = []) /\
      (forall M,
          UltraThinkOptions.numAgents options = Some M ->
          M < 0 ->
          Z.of_nat (List.length selected)
          = Z.max (Z.of_nat (List.length configs) + M) 0).
Proof.
  intros env agentEnv P JSON_parse nullMemberMessage options w r w' H.
  destruct (ultra_run_Finished _ _ _ _ _ _ _ _ _ H)
    as (plan & w1 & value & w2 & configs & Hplan & Hcfg & Has & _ & Hres
        & Htot & _).
  assert (Hd : dispatched agentEnv P options r
                 (UltraThinkEngine.selectConfigs options configs)).
  { split; [exact Hres|]. split; [|exact Htot].
    rewrite Hres. apply runAgents_ids. }
  exists configs, w2, (UltraThinkEngine.selectConfigs options configs).
  unfold UltraThinkEngine.selectConfigs in *.
  destruct (UltraThinkOptions.numAgents options) as [n|] eqn:Hn.
  - destruct (n =? 0) eqn:E0.
    + exists []. split; [exists plan, w1, value; auto|].
      split; [exact Hd|]. split; [rewrite app_nil_r; reflexivity|].
      split; [reflexivity|].
      intros M HM Hneg. injection HM as <-. apply Z.eqb_eq in E0. lia.
    + unfold sliceTo in *. cbv zeta in *.
      match goal with
      | |- context [firstn ?k configs] => exists (skipn k configs)
      end.
      split; [exists plan, w1, value; auto|].
      split; [exact Hd|]. split; [rewrite firstn_skipn; reflexivity|].
      split.
      * intros M HM Hle. injection HM as <-.
        replace (n <? 0) with false by (symmetry; apply Z.ltb_ge; lia).
        rewrite Z.min_r by lia. rewrite Nat2Z.id. apply skipn_all.
      * intros M HM Hneg. injection HM as <-.
        replace (n <? 0) with true by (symmetry; apply Z.ltb_lt; lia).
        rewrite length_firstn. lia.
  - exists []. split; [exists plan, w1, value; auto|].
    split; [exact Hd|]. split; [rewrite app_nil_r; reflexivity|].
    split; intros M HM; discriminate HM.
Qed.

Lemma selection_is_a_prefix_witness :
  exists r w',
    UltraThinkEngine.run (Scenario.planning Scenario.twoConfigs "Final.")
      (fun _ => Scenario.replying "Yes.")
      Scenario.prompts JsonFragment.parse Scenario.nullMemberMessage
      (Scenario.ultraOptions (Some (-1))) World.initial
    = (Ok (UltraThinkEngine.Finished r), w') /\
    map AgentResult.agentId (UltraThinkResult.agentResults r) = ["agent_01"]
    /\
    exists configs w2 selected rest,
      planned (Scenario.planning Scenario.twoConfigs "Final.")
        Scenario.prompts JsonFragment.parse Scenario.nullMemberMessage
        (Scenario.ultraOptions (Some (-1))) World.initial configs w2 /\
      dispatched (fun _ => Scenario.replying "Yes.") Scenario.prompts
        (Scenario.ultraOptions (Some (-1))) r selected /\
      configs = (selected ++ rest)%list /\
      (forall M,
          UltraThinkOptions.numAgents (Scenario.ultraOptions (Some (-1)))
          = Some M ->
          Z.of_nat (List.length configs) <= M ->
          rest = []) /\
      (forall M,
          UltraThinkOptions.numAgents (Scenario.ultraOptions (Some (-1)))
          = Some M ->
          M < 0 ->
          Z.of_nat (List.length selected)
          = Z.max (Z.of_nat (List.length configs) + M) 0).
Proof.
  eexists _, _. split; [vm_compute; reflexivity|].
  split; [vm_compute; reflexivity|].
  eapply (selection_is_a_prefix
            (Scenario.planning Scenario.twoConfigs "Final.")
            (fun _ => Scenario.replying "Yes.")
            Scenario.prompts JsonFragment.parse Scenario.nullMemberMessage
            (Scenario.ultraOptions (Some (-1))) World.initial).
  vm_compute. reflexivity.
Defined.

(* ================================================================== *)
(** ** The placeholders of the prompt templates *)

Lemma includes_cons m c s :
  includes m (String c s) = false -> includes m s = false.
Proof.
  unfold includes. rewrite (find_eq m (String c s)).
  destruct (String.prefix m (String c s)); [discriminate|].
  destruct (find m s); [discriminate | reflexivity].
Qed.

Lemma expandReplacement_plain matched before after r :
  includes "$" r = false ->
  expandReplacement matched before after r = r.
Proof.
  induction r as [|a r IH]; intros H; [reflexivity|].
  assert (Ha : Ascii.eqb a "$" = false).
  { destruct (Ascii.eqb a "$") eqn:E; [|reflexivity].
    apply Ascii.eqb_eq in E. subst a. unfold includes in H.
    rewrite find_eq in H. change (String "$" r) with ("$" ++ r) in H.
    rewrite prefix_app in H. discriminate H. }
  simpl. rewrite Ha. f_equal. apply IH. exact (includes_cons _ _ _ H).
Qed.

(** The planning call carries the problem statement verbatim at the first
    "{query}" of the planning prompt template, for every problem statement
    without the character "$" (which String.replace would expand). *)
Theorem plan_prompt_carries_problem :
  forall (env : Env.t) (P : Prompts.t) (options : UltraThinkOptions.t)
         (problem : string) (w : World.t) (handle : string) (i : nat),
    Env.createModelProvider env (World.clock w)
      (UltraThinkEngine.getModelForStage options StPlanning) = Ok handle ->
    find "{query}" (Prompts.ultraThinkPlanPrompt P) = Some i ->
    includes "$" problem = false ->
    World.calls
      (snd (UltraThinkEngine.generatePlan env P options problem w))
    = (World.calls w ++
       [(SitePlanning,
         Request.mk handle None
           (Some (take i (Prompts.ultraThinkPlanPrompt P) ++ problem
                  ++ drop (i + 7) (Prompts.ultraThinkPlanPrompt P))%string)
           [] None None)])%list.
Proof.
  intros env P options problem w handle i Hprov Hfind Hplain.
  unfold UltraThinkEngine.generatePlan. unfold_monad.
  cbn [World.clock]. rewrite Hprov.
  unfold replace. rewrite Hfind. rewrite expandReplacement_plain by exact Hplain.
  reflexivity.
Qed.

Lemma plan_prompt_carries_problem_witness :
  World.calls
    (snd (UltraThinkEngine.generatePlan (Scenario.replying "Plan.")
            Scenario.prompts (Scenario.ultraOptions None) "2 + 2 = ?"
            World.initial))
  = (World.calls World.initial ++
     [(SitePlanning,
       Request.mk "model-a" None
         (Some (take 6 (Prompts.ultraThinkPlanPrompt Scenario.prompts)
                ++ "2 + 2 = ?"
                ++ drop (6 + 7)
                     (Prompts.ultraThinkPlanPrompt Scenario.prompts))%string)
         [] None None)])%list.
Proof.
  apply (plan_prompt_carries_problem (Scenario.replying "Plan.")
           Scenario.prompts (Scenario.ultraOptions None) "2 + 2 = ?"
           World.initial "model-a" 6);
    vm_compute; reflexivity.
Defined.
